(** * The content catalogue of the learning platform: assembly, update and scoring

    A shallow embedding of the catalogue code of the repository

    - [src/firebase/degreeApi.js]   (module [DegreeApi] below),
    - the earlier catalogue module with the sub-entity mutator
      ([editDegree] with [newCourse] / [newChapter] / [newLesson];
      module [Mutator] below),
    - the catalogue module that defines [getMediaDuration] next to
      [uploadFile] (module [MediaApi] below),

    and the properties of the assembler, the test builder, the asset
    uploader and the mutator that the specification states about them.

    Conventions of the embedding.

    - An [async] function is a computation [Async Doc A]: it reads the
      outcomes of the external services from an environment [Env], threads
      the observable state [State Doc] (object store, [degrees] collection,
      console, position in the identifier stream) and ends in
      [Resolved a] or [Rejected err].
    - [await] is the bind of that monad; [try { } catch (error) { }] is
      [try_catch]; [throw] is [throw].
    - [Promise.all (xs.map (async x => ...))] is [promise_all]: the
      results are collected in input order, a rejected branch rejects the
      whole, and the effects of every branch take place, because the
      program starts all of them and cancels none.  [promise_all] runs the
      sibling branches one after another in input order.  The event loop
      interleaves them: every callback runs up to its first pending call
      when it is started, and the calls are answered in an order the
      program does not control, so the order in which sibling branches
      draw identifiers, store objects and write to the console, and which
      of several failing branches is the one reported, is not fixed by the
      program.  What is stated below about a call that runs branches side
      by side is stated up to that order: which objects are stored, which
      identifiers the result carries and that they are distinct, the shape
      of the result, the outcome and the [degrees] collection.
    - The outcomes of the object store, of Firestore and of the browser's
      media element are read from [Env]: every theorem quantifies over all
      of them. *)

From Stdlib Require Import ZArith Ascii.
From stdpp Require Import gmap strings list fin_maps sorting pretty.

Open Scope string_scope.
Open Scope list_scope.

(** ** JavaScript values *)

(** A JavaScript number as far as the catalogue uses one: marks, prices,
    time limits and durations are carried around and added, never divided.
    The model has the whole numbers only, and [num_add] below adds them
    exactly.  The program adds doubles: its sum is the same as long as the
    operands and the sum are whole numbers of magnitude at most 2^53, and is
    rounded beyond that range. *)
Inductive number :=
  | Num (z : Z)
  | NaN.

(** Loosely typed fields (an answer, a validation flag, a question type). *)
Inductive Value :=
  | VUndefined
  | VNull
  | VBool (b : bool)
  | VNum (z : Z)
  | VStr (s : string).

#[global] Instance number_eq_dec : EqDecision number.
Proof. solve_decision. Defined.

#[global] Instance Value_eq_dec : EqDecision Value.
Proof. solve_decision. Defined.

(** [ToBoolean]. *)
Definition truthy (v : Value) : bool :=
  match v with
  | VUndefined | VNull => false
  | VBool b => b
  | VNum z => negb (Z.eqb z 0)
  | VStr s => negb (String.eqb s "")
  end.

(** [a || b]. *)
Definition js_or (a b : Value) : Value := if truthy a then a else b.

(** [a === b]. *)
Definition strict_eq (a b : Value) : bool := bool_decide (a = b).

(** [total += x] where [x] is a numeric field that may be absent:
    adding [undefined] gives [NaN].  The sum is the exact one (see
    [number]). *)
Definition num_add (total : number) (x : option Z) : number :=
  match total, x with
  | Num a, Some b => Num (a + b)
  | _, _ => NaN
  end.

(** [s.split('/')[0]]. *)
Fixpoint split_slash_0 (s : string) : string :=
  match s with
  | EmptyString => EmptyString
  | String c rest =>
      if Ascii.eqb c "/"%char then EmptyString else String c (split_slash_0 rest)
  end.

(** The result of a property read [obj[key]] on an object literal: an own
    property, a property inherited from [Object.prototype], or
    [undefined]. *)
Inductive PropVal :=
  | Own (s : string)
  | Inherited (key : string)
  | Undefined.

(** The property names every object literal inherits. *)
Definition Object_prototype_keys : list string :=
  [ "constructor"; "__proto__"; "__defineGetter__"; "__defineSetter__";
    "__lookupGetter__"; "__lookupSetter__"; "hasOwnProperty";
    "isPrototypeOf"; "propertyIsEnumerable"; "toLocaleString"; "toString";
    "valueOf" ].

Definition js_get (obj : gmap string string) (key : string) : PropVal :=
  match obj !! key with
  | Some s => Own s
  | None => if bool_decide (key ∈ Object_prototype_keys) then Inherited key
            else Undefined
  end.

Definition prop_truthy (v : PropVal) : bool :=
  match v with
  | Own s => negb (String.eqb s "")
  | Inherited _ => true
  | Undefined => false
  end.

(** ** Errors, console, files *)

Inductive Error :=
  | UnsupportedFileType (type : string)   (* `Unsupported file type: ${file.type}` *)
  | FileUploadFailed                      (* 'File upload failed' *)
  | ThumbnailUploadFailed                 (* 'Thumbnail upload failed' *)
  | DegreeSavingFailed                    (* 'Degree saving failed' *)
  | DegreeUpdateFailed                    (* 'Degree update failed' *)
  | DegreeNotFound (degreeId : string)    (* `Degree with ID ${degreeId} not found.` *)
  | CourseNotFound (courseId : string)    (* `Course with ID ${courseId} not found.` *)
  | ChapterNotFound (chapterId : string)  (* `Chapter with ID ${chapterId} not found.` *)
  | ReferenceError (name : string)        (* `${name} is not defined` *)
  | TypeError (what : string)             (* `${what} is not a function`, ... *)
  | StorageError                          (* raised by the object-store client *)
  | FirestoreError.                       (* raised by the database client *)

#[global] Instance Error_eq_dec : EqDecision Error.
Proof. solve_decision. Defined.

Inductive ConsoleEntry :=
  | ConsoleError (label : string) (error : Error)
  | ConsoleLog (message : string).

Record File := {
  file_name : string;
  file_type : string;      (* the declared content type, e.g. "video/mp4" *)
  file_bytes : string;
}.

(** What the media element does with a file: it fires [loadedmetadata]
    (and then has a duration) or [error]. *)
Inductive MediaEvent :=
  | LoadedMetadata (duration : number)
  | MediaError.

(** ** The world outside *)

Record Env := {
  uuid_stream : nat → string;              (* the values uuidv4() returns, in order *)
  uploadBytes_ok : string → File → bool;   (* does the write to this path succeed *)
  downloadURL : string → option string;    (* the URL of a path; None: the call fails *)
  media_event : string → File → MediaEvent;(* element tag, file *)
  host_text : string → string;             (* how the host prints an inherited property *)
  auto_id : nat → string;                  (* document ids chosen by addDoc *)
  getDocs_ok : bool;
  addDoc_ok : bool;
  updateDoc_ok : bool;
  clock : Z;                               (* Date.now() *)
}.

Record State (Doc : Type) := mkState {
  next_uuid : nat;                 (* position in [uuid_stream] *)
  next_auto_id : nat;
  store : list (string * File);    (* object store: path, content; newest last *)
  db : gmap string Doc;            (* the 'degrees' collection, by document id *)
  console : list ConsoleEntry;     (* newest last *)
}.
Arguments mkState {Doc}.
Arguments next_uuid {Doc}.
Arguments next_auto_id {Doc}.
Arguments store {Doc}.
Arguments db {Doc}.
Arguments console {Doc}.

Inductive outcome (A : Type) :=
  | Resolved (a : A)
  | Rejected (err : Error).
Arguments Resolved {A}.
Arguments Rejected {A}.

Definition Async (Doc A : Type) : Type := Env → State Doc → State Doc * outcome A.

(** The order of a query's result: Firestore returns the documents in
    ascending order of document id, the ids compared byte by byte. *)
Definition id_le {Doc} (doc1 doc2 : string * Doc) : Prop :=
  String.leb doc1.1 doc2.1 = true.

#[global] Instance id_le_dec {Doc} : RelDecision (@id_le Doc).
Proof. intros doc1 doc2. unfold id_le. apply _. Defined.

Section Runtime.
Context {Doc : Type}.

Definition ret {A} (a : A) : Async Doc A := λ _ s, (s, Resolved a).

Definition throw {A} (err : Error) : Async Doc A := λ _ s, (s, Rejected err).

Definition bind {A B} (m : Async Doc A) (k : A → Async Doc B) : Async Doc B :=
    λ e s, match m e s with
           | (s1, Resolved a) => k a e s1
           | (s1, Rejected err) => (s1, Rejected err)
           end.

Definition try_catch {A} (body : Async Doc A) (handler : Error → Async Doc A)
    : Async Doc A :=
    λ e s, match body e s with
           | (s1, Resolved a) => (s1, Resolved a)
           | (s1, Rejected err) => handler err e s1
           end.

  (** [Promise.all]: all branches run, one after another in input order;
      the results are in input order; the rejection of the first rejected
      branch is the result. *)
Fixpoint promise_all {A} (branches : list (Async Doc A)) : Async Doc (list A) :=
    λ e s, match branches with
           | [] => (s, Resolved [])
           | m :: rest =>
               let (s1, r1) := m e s in
               let (s2, r2) := promise_all rest e s1 in
               (s2, match r1, r2 with
                    | Resolved a, Resolved l => Resolved (a :: l)
                    | Rejected err, _ => Rejected err
                    | Resolved _, Rejected err => Rejected err
                    end)
           end.

  (** *** External calls *)

Definition uuidv4 : Async Doc string :=
    λ e s, (mkState (S (next_uuid s)) (next_auto_id s) (store s) (db s) (console s),
            Resolved (uuid_stream e (next_uuid s))).

Definition Date_now : Async Doc Z := λ e s, (s, Resolved (clock e)).

Definition console_error (label : string) (error : Error) : Async Doc unit :=
    λ _ s, (mkState (next_uuid s) (next_auto_id s) (store s) (db s)
              (console s ++ [ConsoleError label error]),
            Resolved tt).

Definition console_log (message : string) : Async Doc unit :=
    λ _ s, (mkState (next_uuid s) (next_auto_id s) (store s) (db s)
              (console s ++ [ConsoleLog message]),
            Resolved tt).

Definition uploadBytes (path : string) (file : File) : Async Doc unit :=
    λ e s, if uploadBytes_ok e path file
           then (mkState (next_uuid s) (next_auto_id s) (store s ++ [(path, file)])
                   (db s) (console s),
                 Resolved tt)
           else (s, Rejected StorageError).

Definition getDownloadURL (path : string) : Async Doc string :=
    λ e s, match downloadURL e path with
           | Some url => (s, Resolved url)
           | None => (s, Rejected StorageError)
           end.

  (** [addDoc(collection(db, 'degrees'), data)]. *)
Definition addDoc (data : Doc) : Async Doc string :=
    λ e s, if addDoc_ok e
           then let id := auto_id e (next_auto_id s) in
                (mkState (next_uuid s) (S (next_auto_id s)) (store s)
                   (<[id := data]> (db s)) (console s),
                 Resolved id)
           else (s, Rejected FirestoreError).

  (** [updateDoc(ref, fields)]: [patch] overwrites the fields it names in
      the stored document; a missing document is an error. *)
Definition updateDoc (ref : string) (patch : Doc → Doc) : Async Doc unit :=
    λ e s, match db s !! ref with
           | Some old =>
               if updateDoc_ok e
               then (mkState (next_uuid s) (next_auto_id s) (store s)
                       (<[ref := patch old]> (db s)) (console s),
                     Resolved tt)
               else (s, Rejected FirestoreError)
           | None => (s, Rejected FirestoreError)
           end.

Definition by_document_id (docs : list (string * Doc)) : list (string * Doc) :=
    merge_sort id_le docs.

  (** [getDocs(query(collection(db, 'degrees'), where(field, '==', v)))]:
      the matching documents with their references, in ascending order of
      document id. *)
Definition getDocs_where (matches : Doc → bool) : Async Doc (list (string * Doc)) :=
    λ e s, if getDocs_ok e
           then (s, Resolved (by_document_id
                                (filter (λ kd, matches kd.2 = true)
                                        (map_to_list (db s)))))
           else (s, Rejected FirestoreError).

(** [deleteDoc(ref)]: removes the document if there is one; deleting a
    missing document is no error.  [Env] has no field for the outcome of a
    delete request, so it is a parameter. *)
Definition deleteDoc (request_ok : bool) (ref : string) : Async Doc unit :=
  λ e s, if request_ok
         then (mkState (next_uuid s) (next_auto_id s) (store s)
                 (delete ref (db s)) (console s),
               Resolved tt)
         else (s, Rejected FirestoreError).

End Runtime.

#[global] Instance Async_ret {Doc} : MRet (Async Doc) := λ A, ret.
#[global] Instance Async_bind {Doc} : MBind (Async Doc) := λ A B k m, bind m k.

(** ** Asset uploader *)

Record FileAsset := {
  fa_url : string;
  fa_type : string;
  fa_name : string;
  fa_duration : option number;       (* null unless probed *)
}.

(** [SUPPORTED_FILE_FOLDERS]. *)
Definition SUPPORTED_FILE_FOLDERS : gmap string string :=
  list_to_map
    [ ("video", "videos"); ("audio", "audios"); ("image", "images");
      ("document", "documents"); ("pdf", "documents"); ("ppt", "presentations") ].

(** [`${folder}`]: the text a property value is interpolated as. *)
Definition template_text {Doc} (v : PropVal) : Async Doc string :=
  λ e s, (s, Resolved match v with
                      | Own text => text
                      | Inherited key => host_text e key
                      | Undefined => "undefined"
                      end).

Section Uploader.
Context {Doc : Type}.

  (** [getMediaDuration]: the promise resolves in both handlers. *)
Definition getMediaDuration (file : File) : Async Doc (option number) :=
    λ e s,
      let tag := if String.prefix "audio" (file_type file) then "audio" else "video" in
      match media_event e tag file with
      | LoadedMetadata duration => (s, Resolved (Some duration))
      | MediaError => (s, Resolved None)
      end.

  (** The body of [uploadFile], as written in [degreeApi.js] and in the
      module that defines [getMediaDuration].
      [scope] is the binding of the identifier [getMediaDuration] in the
      module the function stands in: [None] when the module neither defines
      nor imports it, so that evaluating the call raises a ReferenceError. *)
Definition uploadFile_in (scope : option (File → Async Doc (option number)))
      (file : File) : Async Doc FileAsset :=
    try_catch
      (let fileType := split_slash_0 (file_type file) in
       let folder := js_get SUPPORTED_FILE_FOLDERS fileType in
       if negb (prop_truthy folder) then throw (UnsupportedFileType (file_type file))
       else
         folderText ← template_text folder;
         token ← uuidv4;
         let fileRef := folderText +:+ "/" +:+ token +:+ "_" +:+ file_name file in
         uploadBytes fileRef file;;
         fileUrl ← getDownloadURL fileRef;
         duration ←
           (if bool_decide (fileType = "video") || bool_decide (fileType = "audio")
            then match scope with
                 | Some getMediaDuration' => getMediaDuration' file
                 | None => throw (ReferenceError "getMediaDuration")
                 end
            else mret None);
         mret {| fa_url := fileUrl; fa_type := fileType;
                 fa_name := file_name file; fa_duration := duration |})
      (λ error, console_error "Error uploading file:" error;;
                throw FileUploadFailed).

Definition uploadThumbnail (file : File) : Async Doc string :=
    try_catch
      (token ← uuidv4;
       let fileRef := "thumbnails/" +:+ token +:+ "_" +:+ file_name file in
       uploadBytes fileRef file;;
       getDownloadURL fileRef)
      (λ error, console_error "Error uploading thumbnail:" error;;
                throw ThumbnailUploadFailed).

End Uploader.

(** A method call [obj.name()] on an object whose function-valued own
    properties are [own_methods]: calling a property the object does not
    have raises a TypeError. *)
Definition invoke {Doc A} (own_methods : list string) (name : string)
    (body : Async Doc A) : Async Doc A :=
  if bool_decide (name ∈ own_methods) then body
  else throw (TypeError (name +:+ " is not a function")).

(** ** [src/firebase/degreeApi.js] *)

Module DegreeApi.

(** *** Authoring input (the forms' output) *)

Record Point := {
  pt_title : string;
  pt_description : string;
}.

Record QuestionSpec := {
  qs_question : string;
  qs_type : Value;                       (* 'MCQ', 'Typed', or anything else *)
  qs_options : option (list string);
  qs_correctAnswer : Value;
  qs_answer : Value;
  qs_marks : option Z;
}.

Record TestSpec := {
  ts_title : string;
  ts_timeLimit : Z;
  ts_type : string;
  ts_questions : list QuestionSpec;
}.

Record LessonSpec := {
  ls_title : string;
  ls_file : File;
}.

Record ChapterSpec := {
  chs_title : string;
  chs_description : option string;
  chs_lessons : list LessonSpec;
  chs_test : option TestSpec;
}.

Record CourseSpec := {
  cs_title : string;
  cs_description : string;
  cs_thumbnail : option File;
  cs_price : Z;
  cs_chapters : list ChapterSpec;
  cs_finalTest : option TestSpec;
  cs_overviewPoints : list Point;
}.

Record DegreeSpec := {
  ds_name : string;
  ds_description : string;
  ds_thumbnail : option File;
  ds_overviewPoints : list Point;
  ds_courses : list CourseSpec;
}.

(** *** Stored shapes *)

(** A normalised question.  A field the builder does not set is absent:
    [None], or [VUndefined] for a loosely typed one. *)
Record Question := {
  q_question : string;
  q_answerType : Value;
  q_options : option (list string);
  q_correctAnswer : Value;
  q_marks : option Z;
  q_answer : Value;
  q_userAnswer : Value;
}.

Record Test := {
  t_testId : string;
  t_title : string;
  t_timeLimit : Z;
  t_type : string;
  t_totalMarks : number;
  t_questions : list Question;
}.

Record Lesson := {
  l_lessonId : string;
  l_lessonTitle : string;
  l_file : FileAsset;
}.

Record Chapter := {
  ch_chapterId : string;
  ch_chapterTitle : string;
  ch_description : string;
  ch_test : option Test;
  ch_lessons : list Lesson;
}.

Record Course := {
  c_courseId : string;
  c_courseTitle : string;
  c_description : string;
  c_thumbnail : option string;
  c_price : Z;
  c_chapters : list Chapter;
  c_finalTest : option Test;
  c_overviewPoints : list Point;
}.

(** A document of the [degrees] collection.  [addDegree] writes all fields
    but [updatedAt]; [editDegree] patches the six fields of
    [UpdatedDegree]. *)
Record Degree := {
  d_degreeId : string;
  d_degreeTitle : string;
  d_description : string;
  d_thumbnail : option string;
  d_overviewPoints : list Point;
  d_courses : list Course;
  d_createdAt : Z;
  d_updatedAt : option Z;
}.

Record UpdatedDegree := {
  u_degreeTitle : string;
  u_description : string;
  u_thumbnail : option string;
  u_overviewPoints : list Point;
  u_courses : list Course;
  u_updatedAt : Z;
}.

Record UserAnswer := {
  ua_answer : Value;
  ua_isValidated : Value;
}.

Abbreviation Task := (Async Degree).

(** [uploadFile]: this module calls [getMediaDuration] but neither defines
    nor imports it. *)
Definition uploadFile : File → Task FileAsset := uploadFile_in None.

(** *** Test object builder *)

(** [question.marks || 1]. *)
Definition marks_or_1 (marks : option Z) : Z :=
  match marks with
  | Some z => if Z.eqb z 0 then 1 else z
  | None => 1
  end.

(** The callback of [testData.questions.map] (and of [questions.map] in
    [updateTest]). *)
Definition formatQuestion (question : QuestionSpec) : Question :=
  let questionData :=
    {| q_question := qs_question question; q_answerType := qs_type question;
       q_options := None; q_correctAnswer := VUndefined; q_marks := None;
       q_answer := VUndefined; q_userAnswer := VUndefined |} in
  if strict_eq (qs_type question) (VStr "MCQ") then
    {| q_question := q_question questionData;
       q_answerType := q_answerType questionData;
       q_options := Some (default [] (qs_options question));
       q_correctAnswer := js_or (qs_correctAnswer question) VNull;
       q_marks := Some (marks_or_1 (qs_marks question));
       q_answer := VUndefined;
       q_userAnswer := VNull |}
  else if strict_eq (qs_type question) (VStr "Typed") then
    {| q_question := q_question questionData;
       q_answerType := q_answerType questionData;
       q_options := None;
       q_correctAnswer := VUndefined;
       q_marks := Some 0%Z;
       q_answer := js_or (qs_answer question) (VStr "");
       q_userAnswer := VStr "" |}
  else questionData.

Definition createTestObject (testData : TestSpec) : Task Test :=
  testId ← uuidv4;
  mret {| t_testId := testId;
          t_title := ts_title testData;
          t_timeLimit := ts_timeLimit testData;
          t_type := ts_type testData;
          t_totalMarks := Num 0;
          t_questions := map formatQuestion (ts_questions testData) |}.

(** The function-valued properties of the object [createTestObject]
    returns. *)
Definition createTestObject_methods : list string :=
  [ "calculateTotalMarks"; "calculateUserMarks" ].

Definition set_totalMarks (this : Test) (total : number) : Test :=
  {| t_testId := t_testId this; t_title := t_title this;
     t_timeLimit := t_timeLimit this; t_type := t_type this;
     t_totalMarks := total; t_questions := t_questions this |}.

Definition calculateTotalMarks (this : Test) : Test :=
  let total :=
    fold_left
      (λ total question,
         if strict_eq (q_answerType question) (VStr "MCQ")
         then num_add total (q_marks question)
         else if strict_eq (q_answerType question) (VStr "Typed")
         then num_add total (q_marks question)
         else total)
      (t_questions this) (Num 0) in
  set_totalMarks this total.

(** The [forEach] of [calculateUserMarks], from position [index] on.
    Reading [.answer] of a missing [userAnswers[index]] is a TypeError. *)
Fixpoint calculateUserMarks_from (questions : list Question)
    (userAnswers : list UserAnswer) (index : nat) (userTotal : number)
    : outcome number :=
  match questions with
  | [] => Resolved userTotal
  | question :: rest =>
      if strict_eq (q_answerType question) (VStr "MCQ") then
        match userAnswers !! index with
        | None => Rejected (TypeError "userAnswers[index] is undefined")
        | Some userAnswer =>
            if strict_eq (ua_answer userAnswer) (q_correctAnswer question)
            then calculateUserMarks_from rest userAnswers (S index)
                   (num_add userTotal (q_marks question))
            else calculateUserMarks_from rest userAnswers (S index) userTotal
        end
      else if strict_eq (q_answerType question) (VStr "Typed") then
        match userAnswers !! index with
        | None => Rejected (TypeError "userAnswers[index] is undefined")
        | Some userAnswer =>
            if truthy (ua_isValidated userAnswer)
            then calculateUserMarks_from rest userAnswers (S index)
                   (num_add userTotal (q_marks question))
            else calculateUserMarks_from rest userAnswers (S index) userTotal
        end
      else calculateUserMarks_from rest userAnswers (S index) userTotal
  end.

Definition calculateUserMarks (this : Test) (userAnswers : list UserAnswer)
    : outcome number :=
  calculateUserMarks_from (t_questions this) userAnswers 0 (Num 0).

(** *** Catalogue assembler *)

Definition copyPoint (point : Point) : Point :=
  {| pt_title := pt_title point; pt_description := pt_description point |}.

(** [file ? await uploadThumbnail(file) : null]. *)
Definition uploadThumbnail_opt (thumbnail : option File) : Task (option string) :=
  match thumbnail with
  | Some file => url ← uploadThumbnail file; mret (Some url)
  | None => mret None
  end.

(** The callback of [chapter.lessons.map]. *)
Definition formatLesson (lesson : LessonSpec) : Task Lesson :=
  lessonFileMetadata ← uploadFile (ls_file lesson);
  lessonId ← uuidv4;
  mret {| l_lessonId := lessonId;
          l_lessonTitle := ls_title lesson;
          l_file := lessonFileMetadata |}.

(** The callback of [course.chapters.map] in [addDegree]. *)
Definition formatChapter (chapter : ChapterSpec) : Task Chapter :=
  formattedLessons ← promise_all (map formatLesson (chs_lessons chapter));
  test ← match chs_test chapter with
         | Some testData =>
             test ← createTestObject testData;
             test ← invoke createTestObject_methods "calculateTotalMarks"
                      (mret (calculateTotalMarks test));
             mret (Some test)
         | None => mret None
         end;
  chapterId ← uuidv4;
  mret {| ch_chapterId := chapterId;
          ch_chapterTitle := chs_title chapter;
          ch_description := default "" (chs_description chapter);
          ch_test := test;
          ch_lessons := formattedLessons |}.

(** The callback of [courses.map] in [addDegree]. *)
Definition formatCourse (course : CourseSpec) : Task Course :=
  courseThumbnailUrl ← uploadThumbnail_opt (cs_thumbnail course);
  formattedChapters ← promise_all (map formatChapter (cs_chapters course));
  courseId ← uuidv4;
  finalTest ← match cs_finalTest course with
              | Some testData => test ← createTestObject testData; mret (Some test)
              | None => mret None
              end;
  mret {| c_courseId := courseId;
          c_courseTitle := cs_title course;
          c_description := cs_description course;
          c_thumbnail := courseThumbnailUrl;
          c_price := cs_price course;
          c_chapters := formattedChapters;
          c_finalTest := finalTest;
          c_overviewPoints := map copyPoint (cs_overviewPoints course) |}.

(** The part of the body of [addDegree] that builds [degree]
    (from the destructuring of [degreeData] to the object literal). *)
Definition assemble (degreeData : DegreeSpec) : Task Degree :=
  degreeThumbnailUrl ← uploadThumbnail_opt (ds_thumbnail degreeData);
  formattedCourses ← promise_all (map formatCourse (ds_courses degreeData));
  degreeId ← uuidv4;
  let overviewPoints := map copyPoint (ds_overviewPoints degreeData) in
  createdAt ← Date_now;
  mret {| d_degreeId := degreeId;
          d_degreeTitle := ds_name degreeData;
          d_description := ds_description degreeData;
          d_thumbnail := degreeThumbnailUrl;
          d_overviewPoints := overviewPoints;
          d_courses := formattedCourses;
          d_createdAt := createdAt;
          d_updatedAt := None |}.

Definition addDegree (degreeData : DegreeSpec) : Task string :=
  try_catch
    (degree ← assemble degreeData;
     addDoc degree;;
     console_log "Degree added successfully!";;
     mret (d_degreeId degree))
    (λ error, console_error "Error adding degree:" error;;
              throw DegreeSavingFailed).

(** *** Reading a degree *)

(** [getDegreeById].  The error `No degree found with ID: ${degreeId}` is
    written [DegreeNotFound degreeId]; it never leaves the function. *)
Definition getDegreeById (degreeId : string) : Task (option Degree) :=
  try_catch
    (degreeSnapshot ←
       getDocs_where (λ degree, bool_decide (d_degreeId degree = degreeId));
     match degreeSnapshot with
     | [] => throw (DegreeNotFound degreeId)
     | degreeDoc :: _ => mret (Some degreeDoc.2)
     end)
    (λ error, console_error "Error fetching degree by ID:" error;;
              mret None).

(** *** Whole-degree update *)

(** [updateTest].  The object literal [testObject] has no function-valued
    property, so the call [testObject.calculateTotalMarks()] has nothing
    to call. *)
Definition updateTest_literal_methods : list string := [].

Definition updateTest (testId : string) (testData : TestSpec) : Task Test :=
  let formattedQuestions := map formatQuestion (ts_questions testData) in
  let testObject :=
    {| t_testId := testId;
       t_title := ts_title testData;
       t_timeLimit := ts_timeLimit testData;
       t_type := ts_type testData;
       t_totalMarks := Num 0;
       t_questions := formattedQuestions |} in
  testObject ← invoke updateTest_literal_methods "calculateTotalMarks"
                 (mret (calculateTotalMarks testObject));
  mret testObject.

(** [testData ? await updateTest(uuidv4(), testData) : null]. *)
Definition updateTest_opt (testData : option TestSpec) : Task (option Test) :=
  match testData with
  | Some testData =>
      testId ← uuidv4;
      test ← updateTest testId testData;
      mret (Some test)
  | None => mret None
  end.

(** The callback of [course.chapters.map] in [editDegree]. *)
Definition reformatChapter (chapter : ChapterSpec) : Task Chapter :=
  formattedLessons ← promise_all (map formatLesson (chs_lessons chapter));
  formattedTest ← updateTest_opt (chs_test chapter);
  chapterId ← uuidv4;
  mret {| ch_chapterId := chapterId;
          ch_chapterTitle := chs_title chapter;
          ch_description := default "" (chs_description chapter);
          ch_test := formattedTest;
          ch_lessons := formattedLessons |}.

(** The callback of [courses.map] in [editDegree]. *)
Definition reformatCourse (course : CourseSpec) : Task Course :=
  courseThumbnailUrl ← uploadThumbnail_opt (cs_thumbnail course);
  formattedChapters ← promise_all (map reformatChapter (cs_chapters course));
  courseId ← uuidv4;
  finalTest ← updateTest_opt (cs_finalTest course);
  mret {| c_courseId := courseId;
          c_courseTitle := cs_title course;
          c_description := cs_description course;
          c_thumbnail := courseThumbnailUrl;
          c_price := cs_price course;
          c_chapters := formattedChapters;
          c_finalTest := finalTest;
          c_overviewPoints := map copyPoint (cs_overviewPoints course) |}.

(** [url || null] on an optional URL. *)
Definition url_or_null (url : option string) : option string :=
  match url with
  | Some text => if String.eqb text "" then None else Some text
  | None => None
  end.

(** What [updateDoc(degreeDocRef, updatedDegree)] does to the stored
    document: the six fields of [updatedDegree] replace the stored ones. *)
Definition apply_update (updatedDegree : UpdatedDegree) (stored : Degree) : Degree :=
  {| d_degreeId := d_degreeId stored;
     d_degreeTitle := u_degreeTitle updatedDegree;
     d_description := u_description updatedDegree;
     d_thumbnail := u_thumbnail updatedDegree;
     d_overviewPoints := u_overviewPoints updatedDegree;
     d_courses := u_courses updatedDegree;
     d_createdAt := d_createdAt stored;
     d_updatedAt := Some (u_updatedAt updatedDegree) |}.

Definition editDegree (degreeId : string) (updatedDegreeData : DegreeSpec)
    : Task UpdatedDegree :=
  try_catch
    (let degreeDocRef := degreeId in
     degreeThumbnailUrl ← uploadThumbnail_opt (ds_thumbnail updatedDegreeData);
     formattedCourses ←
       promise_all (map reformatCourse (ds_courses updatedDegreeData));
     let thumbnail := url_or_null degreeThumbnailUrl in
     let overviewPoints := map copyPoint (ds_overviewPoints updatedDegreeData) in
     updatedAt ← Date_now;
     let updatedDegree :=
       {| u_degreeTitle := ds_name updatedDegreeData;
          u_description := ds_description updatedDegreeData;
          u_thumbnail := thumbnail;
          u_overviewPoints := overviewPoints;
          u_courses := formattedCourses;
          u_updatedAt := updatedAt |} in
     updateDoc degreeDocRef (apply_update updatedDegree);;
     console_log "Degree updated successfully!";;
     mret updatedDegree)
    (λ error, console_error "Error updating degree:" error;;
              throw DegreeUpdateFailed).

End DegreeApi.

(** ** The catalogue module that defines [getMediaDuration] *)

Module MediaApi.

(** [uploadFile]: the same body as in [degreeApi.js], in a module where
    [getMediaDuration] is defined. *)
Definition uploadFile {Doc} : File → Async Doc FileAsset :=
  uploadFile_in (Some getMediaDuration).

End MediaApi.


(** ** The catalogue module with the sub-entity mutator *)

Module Mutator.

Record FileAsset := {
  fa_url : string;
  fa_type : string;
  fa_name : string;
  fa_duration : option number;
  fa_autoUpdate : bool;
  fa_link : string;
}.

Record Point := {
  pt_title : string;
  pt_description : string;
}.

Record QuestionSpec := {
  qs_question : string;
  qs_options : option (list string);
  qs_correctAnswer : Value;
}.

Record TestSpec := {
  ts_title : string;
  ts_timeLimit : Z;
  ts_type : string;
  ts_questions : list QuestionSpec;
}.

Record Question := {
  q_question : string;
  q_options : option (list string);      (* null when not given *)
  q_correctAnswer : Value;
}.

Record Test := {
  t_testId : string;
  t_title : string;
  t_timeLimit : Z;
  t_type : string;
  t_questions : list Question;
}.

Record Lesson := {
  l_lessonId : string;
  l_lessonTitle : string;
  l_file : FileAsset;
}.

Record Chapter := {
  ch_chapterId : string;
  ch_chapterTitle : string;
  ch_description : string;
  ch_lessons : list Lesson;
  ch_test : option Test;
}.

Record Course := {
  c_courseId : string;
  c_courseTitle : string;
  c_description : string;
  c_thumbnail : option FileAsset;
  c_price : Z;
  c_chapters : list Chapter;
  c_finalTest : option Test;
  c_overviewPoints : option (list Point);
}.

Record Degree := {
  d_degreeId : string;
  d_degreeTitle : string;
  d_description : string;
  d_thumbnail : option FileAsset;
  d_overviewPoints : option (list Point);
  d_courses : list Course;
  d_createdAt : Z;
}.

(** The update request of [editDegree]: any of the three members may be
    present. *)
Record NewCourse := {
  nc_title : string;
  nc_description : string;
  nc_thumbnail : option File;
  nc_price : Z;
  nc_finalTest : option TestSpec;
  nc_overviewPoints : option (list Point);
}.

Record NewChapter := {
  nch_courseId : string;
  nch_title : string;
  nch_description : option string;
}.

Record NewLesson := {
  nl_courseId : string;
  nl_chapterId : string;
  nl_title : string;
  nl_file : File;
}.

Record Updates := {
  newCourse : option NewCourse;
  newChapter : option NewChapter;
  newLesson : option NewLesson;
}.

Abbreviation Task := (Async Degree).

(** [supportedFolders], local to [uploadFile] in this module. *)
Definition supportedFolders : gmap string string :=
  list_to_map
    [ ("video", "videos"); ("audio", "audios"); ("image", "images");
      ("document", "documents"); ("pdf", "documents"); ("ppt", "presentations") ].

Definition uploadFile (file : File) : Task FileAsset :=
  try_catch
    (let fileType := split_slash_0 (file_type file) in
     let folder := js_get supportedFolders fileType in
     if negb (prop_truthy folder) then throw (UnsupportedFileType (file_type file))
     else
       folderText ← template_text folder;
       token ← uuidv4;
       let fileRef := folderText +:+ "/" +:+ token +:+ "_" +:+ file_name file in
       uploadBytes fileRef file;;
       fileUrl ← getDownloadURL fileRef;
       duration ←
         (if bool_decide (fileType = "video") || bool_decide (fileType = "audio")
          then getMediaDuration file
          else mret None);
       mret {| fa_url := fileUrl; fa_type := fileType;
               fa_name := file_name file; fa_duration := duration;
               fa_autoUpdate := true; fa_link := fileUrl |})
    (λ error, console_error "Error uploading file:" error;;
              throw FileUploadFailed).

Definition createTestObject (testData : TestSpec) : Task Test :=
  testId ← uuidv4;
  mret {| t_testId := testId;
          t_title := ts_title testData;
          t_timeLimit := ts_timeLimit testData;
          t_type := ts_type testData;
          t_questions :=
            map (λ question,
                   {| q_question := qs_question question;
                      q_options := qs_options question;
                      q_correctAnswer := js_or (qs_correctAnswer question) VNull |})
                (ts_questions testData) |}.

(** [degreeData.courses.push(newCourse)], on the copy [data()] returned. *)
Definition push_course (degreeData : Degree) (newCourse : Course) : Degree :=
  {| d_degreeId := d_degreeId degreeData;
     d_degreeTitle := d_degreeTitle degreeData;
     d_description := d_description degreeData;
     d_thumbnail := d_thumbnail degreeData;
     d_overviewPoints := d_overviewPoints degreeData;
     d_courses := d_courses degreeData ++ [newCourse];
     d_createdAt := d_createdAt degreeData |}.

Definition with_courses (degreeData : Degree) (courses : list Course) : Degree :=
  {| d_degreeId := d_degreeId degreeData;
     d_degreeTitle := d_degreeTitle degreeData;
     d_description := d_description degreeData;
     d_thumbnail := d_thumbnail degreeData;
     d_overviewPoints := d_overviewPoints degreeData;
     d_courses := courses;
     d_createdAt := d_createdAt degreeData |}.

Definition with_chapters (course : Course) (chapters : list Chapter) : Course :=
  {| c_courseId := c_courseId course;
     c_courseTitle := c_courseTitle course;
     c_description := c_description course;
     c_thumbnail := c_thumbnail course;
     c_price := c_price course;
     c_chapters := chapters;
     c_finalTest := c_finalTest course;
     c_overviewPoints := c_overviewPoints course |}.

Definition with_lessons (chapter : Chapter) (lessons : list Lesson) : Chapter :=
  {| ch_chapterId := ch_chapterId chapter;
     ch_chapterTitle := ch_chapterTitle chapter;
     ch_description := ch_description chapter;
     ch_lessons := lessons;
     ch_test := ch_test chapter |}.

(** [degreeData.courses[courseIndex].chapters.push(newChapter)]. *)
Definition push_chapter (degreeData : Degree) (courseIndex : nat)
    (newChapter : Chapter) : Degree :=
  with_courses degreeData
    (alter (λ course, with_chapters course (c_chapters course ++ [newChapter]))
       courseIndex (d_courses degreeData)).

(** [degreeData.courses[courseIndex].chapters[chapterIndex].lessons.push(newLesson)]. *)
Definition push_lesson (degreeData : Degree) (courseIndex chapterIndex : nat)
    (newLesson : Lesson) : Degree :=
  with_courses degreeData
    (alter (λ course,
              with_chapters course
                (alter (λ chapter,
                          with_lessons chapter (ch_lessons chapter ++ [newLesson]))
                   chapterIndex (c_chapters course)))
       courseIndex (d_courses degreeData)).

(** [courses.findIndex(course => course.courseId === courseId)];
    [None] stands for [-1]. *)
Definition findIndex_course (courses : list Course) (courseId : string)
    : option nat :=
  fst <$> list_find (λ course, c_courseId course = courseId) courses.

Definition findIndex_chapter (chapters : list Chapter) (chapterId : string)
    : option nat :=
  fst <$> list_find (λ chapter, ch_chapterId chapter = chapterId) chapters.

(** The [if (updates.newCourse)] block. *)
Definition appendCourse (degreeData : Degree) (spec : NewCourse) : Task Degree :=
  courseId ← uuidv4;
  thumbnail ← match nc_thumbnail spec with
              | Some file => asset ← uploadFile file; mret (Some asset)
              | None => mret None
              end;
  finalTest ← match nc_finalTest spec with
              | Some testData => test ← createTestObject testData; mret (Some test)
              | None => mret None
              end;
  let newCourse :=
    {| c_courseId := courseId;
       c_courseTitle := nc_title spec;
       c_description := nc_description spec;
       c_thumbnail := thumbnail;
       c_price := nc_price spec;
       c_chapters := [];
       c_finalTest := finalTest;
       c_overviewPoints := nc_overviewPoints spec |} in
  mret (push_course degreeData newCourse).

(** The [if (updates.newChapter)] block. *)
Definition appendChapter (degreeData : Degree) (spec : NewChapter) : Task Degree :=
  let courseId := nch_courseId spec in
  match findIndex_course (d_courses degreeData) courseId with
  | None => throw (CourseNotFound courseId)
  | Some courseIndex =>
      chapterId ← uuidv4;
      let newChapter :=
        {| ch_chapterId := chapterId;
           ch_chapterTitle := nch_title spec;
           ch_description := default "" (nch_description spec);
           ch_lessons := [];
           ch_test := None |} in
      mret (push_chapter degreeData courseIndex newChapter)
  end.

(** The [if (updates.newLesson)] block. *)
Definition appendLesson (degreeData : Degree) (spec : NewLesson) : Task Degree :=
  let courseId := nl_courseId spec in
  let chapterId := nl_chapterId spec in
  match findIndex_course (d_courses degreeData) courseId with
  | None => throw (CourseNotFound courseId)
  | Some courseIndex =>
      let chapters :=
        from_option c_chapters [] (d_courses degreeData !! courseIndex) in
      match findIndex_chapter chapters chapterId with
      | None => throw (ChapterNotFound chapterId)
      | Some chapterIndex =>
          lessonFileMetadata ← uploadFile (nl_file spec);
          lessonId ← uuidv4;
          let newLesson :=
            {| l_lessonId := lessonId;
               l_lessonTitle := nl_title spec;
               l_file := lessonFileMetadata |} in
          mret (push_lesson degreeData courseIndex chapterIndex newLesson)
      end
  end.

(** [if (member) { block }] over an optional member of the request. *)
Definition when_present {A} (member : option A) (block : Degree → A → Task Degree)
    (degreeData : Degree) : Task Degree :=
  match member with
  | Some spec => block degreeData spec
  | None => mret degreeData
  end.

Definition editDegree (degreeId : string) (updates : Updates) : Task bool :=
  try_catch
    (degreeSnapshot ←
       getDocs_where (λ degree, bool_decide (d_degreeId degree = degreeId));
     match degreeSnapshot with
     | [] => throw (DegreeNotFound degreeId)
     | degreeDoc :: _ =>
         let degreeData := degreeDoc.2 in
         let degreeRef := degreeDoc.1 in
         degreeData ← when_present (newCourse updates) appendCourse degreeData;
         degreeData ← when_present (newChapter updates) appendChapter degreeData;
         degreeData ← when_present (newLesson updates) appendLesson degreeData;
         updateDoc degreeRef (λ _, degreeData);;
         console_log "Degree updated successfully!";;
         mret true
     end)
    (λ error, console_error "Error updating degree:" error;;
              mret false).

(** [getAllDegrees]: each document with its id ([{ id: doc.id, ...doc.data() }]);
    the empty list when the query fails. *)
Definition getAllDegrees : Task (list (string * Degree)) :=
  try_catch
    (degreesSnapshot ← getDocs_where (λ _, true);
     let degrees := map (λ doc, (doc.1, doc.2)) degreesSnapshot in
     console_log (pretty (length degrees) +:+ " degrees fetched successfully!");;
     mret degrees)
    (λ error, console_error "Error fetching all degrees:" error;;
              mret []).

(** [getDegreeById].  The error `No degree found with ID: ${degreeId}` is
    written [DegreeNotFound degreeId]; it never leaves the function. *)
Definition getDegreeById (degreeId : string) : Task (option Degree) :=
  try_catch
    (degreeSnapshot ←
       getDocs_where (λ degree, bool_decide (d_degreeId degree = degreeId));
     match degreeSnapshot with
     | [] => throw (DegreeNotFound degreeId)
     | degreeDoc :: _ => mret (Some degreeDoc.2)
     end)
    (λ error, console_error "Error fetching degree by ID:" error;;
              mret None).

(** The object [deleteDegreeById] returns. *)
Record Report := {
  success : bool;
  message : string;
}.

(** [deleteDegreeById]; [deleteDoc_ok] is the outcome of the delete
    request. *)
Definition deleteDegreeById (deleteDoc_ok : bool) (degreeId : string)
    : Task Report :=
  try_catch
    (degreeSnapshot ←
       getDocs_where (λ degree, bool_decide (d_degreeId degree = degreeId));
     match degreeSnapshot with
     | [] => throw (DegreeNotFound degreeId)
     | degreeDoc :: _ =>
         let degreeDocRef := degreeDoc.1 in
         deleteDoc deleteDoc_ok degreeDocRef;;
         console_log ("Degree with ID " +:+ degreeId +:+ " deleted successfully!");;
         mret {| success := true; message := "Degree deleted successfully" |}
     end)
    (λ error, console_error "Error deleting degree:" error;;
              mret {| success := false; message := "Error deleting degree" |}).

End Mutator.
(** * Vocabulary of the statements *)

Section RunVocabulary.
Context {Doc : Type}.

(** The successful runs of [Promise.all(xs.map(f))], branch by branch. *)
Inductive runs {A B} (f : A → Async Doc B) e
    : State Doc → list A → State Doc → list B → Prop :=
  | runs_nil s : runs f e s [] s []
  | runs_cons s s1 s2 x y xs ys :
      f x e s = (s1, Resolved y) →
      runs f e s1 xs s2 ys →
      runs f e s (x :: xs) s2 (y :: ys).

(** [frames R m]: whatever its outcome, [m] takes a state to an
    [R]-related one. *)
Definition frames {A} (R : relation (State Doc)) (m : Async Doc A) : Prop :=
  ∀ e s, R s (m e s).1.

(** The [degrees] collection is left as it was. *)
Definition same_db : relation (State Doc) := λ s s', db s' = db s.

(** The identifier stream only moves forward. *)
Definition uuid_forward : relation (State Doc) :=
  λ s s', (next_uuid s ≤ next_uuid s')%nat.

End RunVocabulary.

Import DegreeApi.

(** ** Tests and scoring *)

(** The sum of the [marks] fields of a list of normalised questions. *)
Definition sum_marks (questions : list Question) : Z :=
  foldr (λ question acc, (default 0 (q_marks question) + acc)%Z) 0%Z questions.

(** The tests of a stored tree. *)
Definition chapter_tests (course : Course) : list Test :=
  flat_map (λ chapter, option_list (ch_test chapter)) (c_chapters course).

Definition final_tests (courses : list Course) : list Test :=
  flat_map (λ course, option_list (c_finalTest course)) courses.

(** A test as the builder leaves it: its questions are the normalised
    question specs of some authored test. *)
Definition is_built (test : Test) : Prop :=
  ∃ testData, t_questions test = map formatQuestion (ts_questions testData).

Definition is_MCQ_spec (question : QuestionSpec) : bool :=
  strict_eq (qs_type question) (VStr "MCQ").

(** The authored questions of type MCQ. *)
Definition MCQ_specs (testData : TestSpec) : list QuestionSpec :=
  filter (λ question, is_MCQ_spec question = true) (ts_questions testData).

(** An answer earns its question's marks: a multiple-choice answer that
    equals the correct answer, or a typed answer marked validated. *)
Definition scores (question : Question) (userAnswer : UserAnswer) : bool :=
  strict_eq (q_answerType question) (VStr "MCQ")
    && strict_eq (ua_answer userAnswer) (q_correctAnswer question)
  || strict_eq (q_answerType question) (VStr "Typed")
    && truthy (ua_isValidated userAnswer).

(** The authored marks of a question leave it at one mark: absent, 0 (both
    replaced by the default 1) or 1. *)
Definition unit_marks (question : QuestionSpec) : Prop :=
  qs_marks question = None ∨ qs_marks question = Some 0%Z
  ∨ qs_marks question = Some 1%Z.

(** ** Asset uploader *)

(** The primary categories that have a storage namespace. *)
Definition supported_categories : list string :=
  [ "video"; "audio"; "image"; "document"; "pdf"; "ppt" ].

(** The state after [console.error(label, error)]. *)
Definition logged {Doc} (s : State Doc) (entry : ConsoleEntry) : State Doc :=
  mkState (next_uuid s) (next_auto_id s) (store s) (db s) (console s ++ [entry]).

(** The path a media file of category [category] is stored under when the
    next identifier of the stream is used as its token. *)
Definition media_path {Doc} (e : Env) (s : State Doc) (category : string)
    (file : File) : string :=
  (if bool_decide (category = "video") then "videos" else "audios")
  +:+ "/" +:+ uuid_stream e (next_uuid s) +:+ "_" +:+ file_name file.

(** ** Shape of an assembled tree *)

(** An output node mirrors an input node: it carries the input's payload
    and its children mirror the input's children one by one, in order
    ([Forall2] relates lists of the same length position by position). *)
Definition mirrors_test (testData : TestSpec) (test : Test) : Prop :=
  t_title test = ts_title testData ∧
  t_questions test = map formatQuestion (ts_questions testData).

Definition mirrors_lesson (lesson : LessonSpec) (out : Lesson) : Prop :=
  l_lessonTitle out = ls_title lesson ∧
  fa_name (l_file out) = file_name (ls_file lesson).

Definition mirrors_chapter (chapter : ChapterSpec) (out : Chapter) : Prop :=
  ch_chapterTitle out = chs_title chapter ∧
  Forall2 mirrors_lesson (chs_lessons chapter) (ch_lessons out) ∧
  option_Forall2 mirrors_test (chs_test chapter) (ch_test out).

Definition mirrors_course (course : CourseSpec) (out : Course) : Prop :=
  c_courseTitle out = cs_title course ∧
  Forall2 mirrors_chapter (cs_chapters course) (c_chapters out) ∧
  option_Forall2 mirrors_test (cs_finalTest course) (c_finalTest out) ∧
  c_overviewPoints out = cs_overviewPoints course.

Definition mirrors_degree (degreeData : DegreeSpec) (out : Degree) : Prop :=
  d_degreeTitle out = ds_name degreeData ∧
  d_overviewPoints out = ds_overviewPoints degreeData ∧
  Forall2 mirrors_course (ds_courses degreeData) (d_courses out).

(** ** Identifiers of an assembled tree *)

Definition test_ids (test : option Test) : list string :=
  option_list (t_testId <$> test).

Definition chapter_ids (chapter : Chapter) : list string :=
  ch_chapterId chapter :: test_ids (ch_test chapter)
  ++ map l_lessonId (ch_lessons chapter).

Definition course_ids (course : Course) : list string :=
  c_courseId course :: test_ids (c_finalTest course)
  ++ flat_map chapter_ids (c_chapters course).

(** degreeId, every courseId, chapterId, lessonId and testId. *)
Definition degree_ids (degree : Degree) : list string :=
  d_degreeId degree :: flat_map course_ids (d_courses degree).

(** [ids] are values of the identifier stream at pairwise different
    positions between [n] and [n']. *)
Definition drawn (e : Env) (n n' : nat) (ids : list string) : Prop :=
  ∃ positions : list nat,
    ids ≡ₚ map (uuid_stream e) positions ∧
    NoDup positions ∧
    Forall (λ k, (n ≤ k < n')%nat) positions.

(** A run from [s] to [s'] that logged nothing and produced the
    identifiers [ids]. *)
Definition yields {Doc} (e : Env) (s s' : State Doc) (ids : list string) : Prop :=
  console s' = console s ∧
  (next_uuid s ≤ next_uuid s')%nat ∧
  drawn e (next_uuid s) (next_uuid s') ids.

(** ** Failed uploads, as the console records them *)

Definition upload_error_logged (entries : list ConsoleEntry) : Prop :=
  ∃ error,
    ConsoleError "Error uploading file:" error ∈ entries ∨
    ConsoleError "Error uploading thumbnail:" error ∈ entries.

(** ** Totals of the tests of an assembled tree *)

(** [totalMarks] is the sum of the questions' marks. *)
Definition totalled (test : Test) : Prop :=
  t_totalMarks test = Num (sum_marks (t_questions test)).

(** [totalMarks] still has the initial value 0 of the object literal. *)
Definition untotalled (test : Test) : Prop := t_totalMarks test = Num 0.

(** ** Identifiers of a tree stored by the sub-entity mutator *)

Definition stored_courseIds (degree : Mutator.Degree) : list string :=
  map Mutator.c_courseId (Mutator.d_courses degree).

Definition stored_chapterIds (degree : Mutator.Degree) : list string :=
  flat_map (λ course, map Mutator.ch_chapterId (Mutator.c_chapters course))
    (Mutator.d_courses degree).

(** The thumbnail of the course a request adds, if it adds a course and
    the course comes with a thumbnail. *)
Definition new_thumbnail (updates : Mutator.Updates) : option File :=
  match Mutator.newCourse updates with
  | Some spec => Mutator.nc_thumbnail spec
  | None => None
  end.

(** There is no place for [lesson] in [courses]: no course with the
    lesson's [courseId] has a chapter with the lesson's [chapterId]. *)
Definition no_place_for (lesson : Mutator.NewLesson)
    (courses : list Mutator.Course) : Prop :=
  Forall (λ course,
            Mutator.c_courseId course = Mutator.nl_courseId lesson →
            Mutator.nl_chapterId lesson
              ∉ map Mutator.ch_chapterId (Mutator.c_chapters course))
         courses.

(** The documents a query by [degreeId] returns, in the order of the
    query's result. *)
Definition degrees_with_id (s : State Mutator.Degree) (degreeId : string)
    : list (string * Mutator.Degree) :=
  by_document_id
    (filter (λ kd, bool_decide (Mutator.d_degreeId kd.2 = degreeId) = true)
       (map_to_list (db s))).

(** * Vocabulary of the further properties *)

(** ** Asset uploader *)

(** The text [`${folder}`] stands for in a storage path. *)
Definition folder_text (e : Env) (folder : PropVal) : string :=
  match folder with
  | Own text => text
  | Inherited key => host_text e key
  | Undefined => "undefined"
  end.

(** Does the guard [if (!folder) throw ...] let the file through. *)
Definition guard_accepts (file : File) : bool :=
  prop_truthy (js_get SUPPORTED_FILE_FOLDERS (split_slash_0 (file_type file))).

(** The path [uploadFile] stores [file] under when it starts in [s]. *)
Definition upload_path {Doc} (e : Env) (s : State Doc) (file : File) : string :=
  folder_text e (js_get SUPPORTED_FILE_FOLDERS (split_slash_0 (file_type file)))
  +:+ "/" +:+ uuid_stream e (next_uuid s) +:+ "_" +:+ file_name file.

(** The path [uploadThumbnail] stores [file] under when it starts in [s]. *)
Definition thumbnail_path {Doc} (e : Env) (s : State Doc) (file : File) : string :=
  "thumbnails/" +:+ uuid_stream e (next_uuid s) +:+ "_" +:+ file_name file.

(** The state after one identifier was drawn. *)
Definition drew {Doc} (s : State Doc) : State Doc :=
  mkState (S (next_uuid s)) (next_auto_id s) (store s) (db s) (console s).

(** The state after one identifier was drawn and [file] was stored under
    [path]. *)
Definition stored {Doc} (s : State Doc) (path : string) (file : File) : State Doc :=
  mkState (S (next_uuid s)) (next_auto_id s) (store s ++ [(path, file)])
    (db s) (console s).

(** Is the primary category of the file video or audio. *)
Definition is_media (file : File) : bool :=
  bool_decide (split_slash_0 (file_type file) = "video")
  || bool_decide (split_slash_0 (file_type file) = "audio").

(** What [getMediaDuration] resolves to for a file. *)
Definition probed_duration (e : Env) (file : File) : option number :=
  match media_event e
          (if String.prefix "audio" (file_type file) then "audio" else "video")
          file with
  | LoadedMetadata duration => Some duration
  | MediaError => None
  end.

(** ** Scoring *)

(** The questions [calculateTotalMarks] and [calculateUserMarks] look at:
    those whose [answerType] is 'MCQ' or 'Typed'. *)
Definition counted (question : Question) : bool :=
  strict_eq (q_answerType question) (VStr "MCQ")
  || strict_eq (q_answerType question) (VStr "Typed").

(** [userAnswers[index].isValidated = true] for every answer. *)
Definition validate (userAnswer : UserAnswer) : UserAnswer :=
  {| ua_answer := ua_answer userAnswer; ua_isValidated := VBool true |}.

(** The marks a submission earns: the marks of the questions whose answer
    scores, question and answer taken pairwise. *)
Definition earned (questions : list Question) (userAnswers : list UserAnswer) : Z :=
  foldr (λ pair total,
           ((if scores pair.1 pair.2 then default 0 (q_marks pair.1) else 0)
            + total)%Z)
        0%Z (zip questions userAnswers).

(** The marks of [questions] are in the range in which the additions of the
    scoring loops are exact: the magnitudes of the marks add up to at most
    2^53, so every sum a loop forms is a whole number of magnitude at most
    2^53, which a double holds exactly, and no addition of the program
    rounds. *)
Definition exact_sums (questions : list Question) : Prop :=
  (foldr (λ question total, Z.abs (default 0 (q_marks question)) + total) 0
     questions ≤ 2 ^ 53)%Z.

(** ** Files of an authoring input *)

Definition chapter_files (chapter : ChapterSpec) : list File :=
  map ls_file (chs_lessons chapter).

Definition course_files (course : CourseSpec) : list File :=
  option_list (cs_thumbnail course) ++ flat_map chapter_files (cs_chapters course).

(** The degree thumbnail, every course thumbnail and every lesson file. *)
Definition degree_files (degreeData : DegreeSpec) : list File :=
  option_list (ds_thumbnail degreeData)
  ++ flat_map course_files (ds_courses degreeData).

(** A run from [s] to [s'] that added the files [files], and nothing else,
    to the object store. *)
Definition uploads {Doc} (s s' : State Doc) (files : list File) : Prop :=
  ∃ objects, store s' = store s ++ objects ∧ map snd objects = files.

(** No document of the collection has the given [degreeId]. *)
Definition unused_degreeId (s : State Degree) (degreeId : string) : Prop :=
  ∀ ref degree, db s !! ref = Some degree → d_degreeId degree ≠ degreeId.

(** A course of an authoring input carries no test, neither a final test
    nor a chapter test. *)
Definition no_tests (course : CourseSpec) : Prop :=
  cs_finalTest course = None ∧
  Forall (λ chapter, chs_test chapter = None) (cs_chapters course).

(** The path the mutator's [uploadFile] stores [file] under when it starts
    in [s]. *)
Definition Mutator_upload_path {Doc} (e : Env) (s : State Doc) (file : File)
    : string :=
  folder_text e (js_get Mutator.supportedFolders (split_slash_0 (file_type file)))
  +:+ "/" +:+ uuid_stream e (next_uuid s) +:+ "_" +:+ file_name file.

(** * Sample inputs *)

(** An environment in which every external call succeeds, and one in which
    the media element reports an error for every file. *)
Definition calm_env : Env :=
  {| uuid_stream := λ n, "uuid-" +:+ pretty n;
     uploadBytes_ok := λ _ _, true;
     downloadURL := λ path, Some ("https://storage.example/" +:+ path);
     media_event := λ _ _, MediaError;
     host_text := λ key, "[native " +:+ key +:+ "]";
     auto_id := λ n, "doc-" +:+ pretty n;
     getDocs_ok := true; addDoc_ok := true; updateDoc_ok := true;
     clock := 1700000000000 |}.

(** [calm_env], except that the object store refuses the file
    "broken.png". *)
Definition flaky_env : Env :=
  {| uuid_stream := uuid_stream calm_env;
     uploadBytes_ok := λ _ file, negb (String.eqb (file_name file) "broken.png");
     downloadURL := downloadURL calm_env;
     media_event := media_event calm_env;
     host_text := host_text calm_env;
     auto_id := auto_id calm_env;
     getDocs_ok := true; addDoc_ok := true; updateDoc_ok := true;
     clock := clock calm_env |}.

Definition empty_state {Doc} : State Doc := mkState 0 0 [] ∅ [].

Definition welcome_video : File :=
  {| file_name := "welcome.mp4"; file_type := "video/mp4"; file_bytes := "..." |}.

Definition cover_image : File :=
  {| file_name := "cover.png"; file_type := "image/png"; file_bytes := "..." |}.

Definition notes_text : File :=
  {| file_name := "notes.txt"; file_type := "text/plain"; file_bytes := "..." |}.

Definition mcq (prompt correct : string) (marks : option Z) : QuestionSpec :=
  {| qs_question := prompt; qs_type := VStr "MCQ";
     qs_options := Some ["a"; "b"; "c"]; qs_correctAnswer := VStr correct;
     qs_answer := VUndefined; qs_marks := marks |}.

Definition typed (prompt : string) : QuestionSpec :=
  {| qs_question := prompt; qs_type := VStr "Typed";
     qs_options := None; qs_correctAnswer := VUndefined;
     qs_answer := VStr "a paragraph"; qs_marks := None |}.

(** Three multiple-choice questions worth 1, 2 and 3 marks. *)
Definition quiz_123 : TestSpec :=
  {| ts_title := "Quiz"; ts_timeLimit := 10; ts_type := "quiz";
     ts_questions := [ mcq "q1" "a" (Some 1%Z); mcq "q2" "b" (Some 2%Z);
                       mcq "q3" "c" (Some 3%Z) ] |}.

(** Two multiple-choice questions with default marks and a typed one. *)
Definition quiz_default : TestSpec :=
  {| ts_title := "Quiz"; ts_timeLimit := 10; ts_type := "quiz";
     ts_questions := [ mcq "q1" "a" None; typed "q2"; mcq "q3" "c" (Some 0%Z) ] |}.

Definition answer (text : string) : UserAnswer :=
  {| ua_answer := VStr text; ua_isValidated := VUndefined |}.

(** [quiz_123] as [createTestObject] and [calculateTotalMarks] leave it. *)
Definition built_quiz_123 : Test :=
  {| t_testId := "uuid-0"; t_title := "Quiz"; t_timeLimit := 10;
     t_type := "quiz"; t_totalMarks := Num 6;
     t_questions := map formatQuestion (ts_questions quiz_123) |}.

(** The degree of the specification's scenario, with an image as lesson
    file, a chapter test and a final test. *)
Definition basics_chapter : ChapterSpec :=
  {| chs_title := "Basics"; chs_description := None;
     chs_lessons := [ {| ls_title := "Welcome"; ls_file := cover_image |};
                      {| ls_title := "Reading"; ls_file := cover_image |} ];
     chs_test := Some quiz_123 |}.

Definition intro_course : CourseSpec :=
  {| cs_title := "Intro"; cs_description := "An introduction";
     cs_thumbnail := Some cover_image; cs_price := 0;
     cs_chapters := [ basics_chapter ];
     cs_finalTest := Some quiz_123;
     cs_overviewPoints := [ {| pt_title := "Pace"; pt_description := "Self-paced" |} ] |}.

Definition theology : DegreeSpec :=
  {| ds_name := "Theology I"; ds_description := "First year";
     ds_thumbnail := None;
     ds_overviewPoints := [ {| pt_title := "Length"; pt_description := "One year" |} ];
     ds_courses := [ intro_course ] |}.

Definition broken_image : File :=
  {| file_name := "broken.png"; file_type := "image/png"; file_bytes := "..." |}.

(** A degree whose second lesson file cannot be stored in [flaky_env]. *)
Definition theology_broken : DegreeSpec :=
  {| ds_name := "Theology I"; ds_description := "First year";
     ds_thumbnail := None; ds_overviewPoints := [];
     ds_courses :=
       [ {| cs_title := "Intro"; cs_description := ""; cs_thumbnail := None;
            cs_price := 0;
            cs_chapters :=
              [ {| chs_title := "Basics"; chs_description := None;
                   chs_lessons :=
                     [ {| ls_title := "Welcome"; ls_file := cover_image |};
                       {| ls_title := "Reading"; ls_file := broken_image |};
                       {| ls_title := "Summary"; ls_file := cover_image |} ];
                   chs_test := None |} ];
            cs_finalTest := None; cs_overviewPoints := [] |} ] |}.

(** A degree without tests, with a thumbnail; and the update request that
    re-submits it without a thumbnail. *)
Definition plain_course : CourseSpec :=
  {| cs_title := "Intro"; cs_description := "An introduction";
     cs_thumbnail := None; cs_price := 0;
     cs_chapters :=
       [ {| chs_title := "Basics"; chs_description := Some "First steps";
            chs_lessons := [ {| ls_title := "Welcome"; ls_file := cover_image |} ];
            chs_test := None |} ];
     cs_finalTest := None; cs_overviewPoints := [] |}.

Definition theology_plain : DegreeSpec :=
  {| ds_name := "Theology I"; ds_description := "First year";
     ds_thumbnail := Some cover_image; ds_overviewPoints := [];
     ds_courses := [ plain_course ] |}.

Definition theology_retitled : DegreeSpec :=
  {| ds_name := "Theology One"; ds_description := "First year";
     ds_thumbnail := None; ds_overviewPoints := [];
     ds_courses := [ plain_course ] |}.

(** The state after [theology_plain] was added to an empty collection: one
    document, "doc-0", with a thumbnail URL. *)
Definition plain_added : State Degree :=
  (addDegree theology_plain calm_env empty_state).1.

(** A stored degree with one course and one chapter, and a request to add
    a lesson to a chapter that does not exist. *)
Definition stored_degree : Mutator.Degree :=
  {| Mutator.d_degreeId := "degree-1";
     Mutator.d_degreeTitle := "Theology I";
     Mutator.d_description := "First year";
     Mutator.d_thumbnail := None;
     Mutator.d_overviewPoints := None;
     Mutator.d_courses :=
       [ {| Mutator.c_courseId := "course-1";
            Mutator.c_courseTitle := "Intro";
            Mutator.c_description := "";
            Mutator.c_thumbnail := None;
            Mutator.c_price := 0;
            Mutator.c_chapters :=
              [ {| Mutator.ch_chapterId := "chapter-1";
                   Mutator.ch_chapterTitle := "Basics";
                   Mutator.ch_description := "";
                   Mutator.ch_lessons := [];
                   Mutator.ch_test := None |} ];
            Mutator.c_finalTest := None;
            Mutator.c_overviewPoints := None |} ];
     Mutator.d_createdAt := 1700000000000 |}.

Definition one_degree : State Mutator.Degree :=
  mkState 0 1 [] {[ "doc-0" := stored_degree ]} [].

Definition welcome_lesson (courseId chapterId : string) : Mutator.NewLesson :=
  {| Mutator.nl_courseId := courseId;
     Mutator.nl_chapterId := chapterId;
     Mutator.nl_title := "Welcome";
     Mutator.nl_file := cover_image |}.

Definition lesson_for (courseId chapterId : string) : Mutator.Updates :=
  {| Mutator.newCourse := None;
     Mutator.newChapter := None;
     Mutator.newLesson := Some (welcome_lesson courseId chapterId) |}.

(** A request that adds a course with a thumbnail and, at the same time, a
    lesson to a chapter that does not exist. *)
Definition course_and_lesson : Mutator.Updates :=
  {| Mutator.newCourse :=
       Some {| Mutator.nc_title := "Ethics";
               Mutator.nc_description := "Second course";
               Mutator.nc_thumbnail := Some cover_image;
               Mutator.nc_price := 10;
               Mutator.nc_finalTest := None;
               Mutator.nc_overviewPoints := None |};
     Mutator.newChapter := None;
     Mutator.newLesson := Some (welcome_lesson "course-1" "chapter-9") |}.

(** * Sample inputs of the further properties *)

(** [calm_env], except that no download URL can be obtained. *)
Definition no_url_env : Env :=
  {| uuid_stream := uuid_stream calm_env;
     uploadBytes_ok := uploadBytes_ok calm_env;
     downloadURL := λ _, None;
     media_event := media_event calm_env;
     host_text := host_text calm_env;
     auto_id := auto_id calm_env;
     getDocs_ok := true; addDoc_ok := true; updateDoc_ok := true;
     clock := clock calm_env |}.

(** [calm_env], except that the media element reads a duration of 95
    seconds from every file. *)
Definition playing_env : Env :=
  {| uuid_stream := uuid_stream calm_env;
     uploadBytes_ok := uploadBytes_ok calm_env;
     downloadURL := downloadURL calm_env;
     media_event := λ _ _, LoadedMetadata (Num 95);
     host_text := host_text calm_env;
     auto_id := auto_id calm_env;
     getDocs_ok := true; addDoc_ok := true; updateDoc_ok := true;
     clock := clock calm_env |}.

(** A file whose declared type has the primary category "constructor". *)
Definition odd_file : File :=
  {| file_name := "odd.bin"; file_type := "constructor/x"; file_bytes := "..." |}.

(** A multiple-choice question, a typed one and a third of an unknown
    type, as the builder leaves them. *)
Definition built_mixed : Test :=
  {| t_testId := "uuid-0"; t_title := "Mixed"; t_timeLimit := 10;
     t_type := "quiz"; t_totalMarks := Num 2;
     t_questions :=
       map formatQuestion
         [ mcq "q1" "a" (Some 2%Z); typed "q2";
           {| qs_question := "q3"; qs_type := VStr "Essay"; qs_options := None;
              qs_correctAnswer := VUndefined; qs_answer := VUndefined;
              qs_marks := Some 5%Z |} ] |}.

(** [calm_env], except that the database refuses to add a document. *)
Definition db_down_env : Env :=
  {| uuid_stream := uuid_stream calm_env;
     uploadBytes_ok := uploadBytes_ok calm_env;
     downloadURL := downloadURL calm_env;
     media_event := media_event calm_env;
     host_text := host_text calm_env;
     auto_id := auto_id calm_env;
     getDocs_ok := true; addDoc_ok := false; updateDoc_ok := true;
     clock := clock calm_env |}.

(** Requests to the sub-entity mutator: nothing, one chapter, one course. *)
Definition no_updates : Mutator.Updates :=
  {| Mutator.newCourse := None; Mutator.newChapter := None;
     Mutator.newLesson := None |}.

Definition history_chapter : Mutator.NewChapter :=
  {| Mutator.nch_courseId := "course-1"; Mutator.nch_title := "History";
     Mutator.nch_description := None |}.

Definition chapter_for_course_1 : Mutator.Updates :=
  {| Mutator.newCourse := None; Mutator.newChapter := Some history_chapter;
     Mutator.newLesson := None |}.

Definition ethics_course : Mutator.NewCourse :=
  {| Mutator.nc_title := "Ethics"; Mutator.nc_description := "Second course";
     Mutator.nc_thumbnail := None; Mutator.nc_price := 10;
     Mutator.nc_finalTest := None; Mutator.nc_overviewPoints := None |}.

Definition course_ethics : Mutator.Updates :=
  {| Mutator.newCourse := Some ethics_course; Mutator.newChapter := None;
     Mutator.newLesson := None |}.

(** The course of [stored_degree]. *)
Definition stored_course : Mutator.Course :=
  {| Mutator.c_courseId := "course-1";
     Mutator.c_courseTitle := "Intro";
     Mutator.c_description := "";
     Mutator.c_thumbnail := None;
     Mutator.c_price := 0;
     Mutator.c_chapters :=
       [ {| Mutator.ch_chapterId := "chapter-1";
            Mutator.ch_chapterTitle := "Basics";
            Mutator.ch_description := "";
            Mutator.ch_lessons := [];
            Mutator.ch_test := None |} ];
     Mutator.c_finalTest := None;
     Mutator.c_overviewPoints := None |}.

(** A collection with two documents that carry the same [degreeId]. *)
Definition two_copies : State Mutator.Degree :=
  mkState 0 2 [] {[ "doc-0" := stored_degree; "doc-1" := stored_degree ]} [].
(** * Reasoning about computations *)

Section RunLemmas.
Context {Doc : Type}.
Implicit Types (e : Env) (s : State Doc).

Lemma run_bind {A B} (m : Async Doc A) (k : A → Async Doc B) e s :
  (m ≫= k) e s = match m e s with
                 | (s1, Resolved a) => k a e s1
                 | (s1, Rejected err) => (s1, Rejected err)
                 end.
Proof. reflexivity. Qed.

Lemma bind_Resolved {A B} (m : Async Doc A) (k : A → Async Doc B) e s s' b :
  (m ≫= k) e s = (s', Resolved b) →
  ∃ s1 a, m e s = (s1, Resolved a) ∧ k a e s1 = (s', Resolved b).
Proof.
  rewrite run_bind. destruct (m e s) as [s1 [a|err]]; [eauto | discriminate].
Qed.

Lemma bind_Rejected_l {A B} (m : Async Doc A) (k : A → Async Doc B) e s s1 err :
  m e s = (s1, Rejected err) → (m ≫= k) e s = (s1, Rejected err).
Proof. intros H. by rewrite run_bind, H. Qed.

Lemma bind_Resolved_l {A B} (m : Async Doc A) (k : A → Async Doc B) e s s1 a :
  m e s = (s1, Resolved a) → (m ≫= k) e s = k a e s1.
Proof. intros H. by rewrite run_bind, H. Qed.

Lemma bind_Rejected {A B} (m : Async Doc A) (k : A → Async Doc B) e s s' err :
  (m ≫= k) e s = (s', Rejected err) →
  m e s = (s', Rejected err) ∨
  ∃ s1 a, m e s = (s1, Resolved a) ∧ k a e s1 = (s', Rejected err).
Proof.
  rewrite run_bind. destruct (m e s) as [s1 [a|err1]]; [eauto |].
  intros [= <- <-]. by left.
Qed.

Lemma mret_Resolved {A} (a b : A) e s s' :
  (mret a : Async Doc A) e s = (s', Resolved b) → s' = s ∧ b = a.
Proof. intros [= -> ->]. done. Qed.

(** A handler of the form [console.error(label, error); throw err'] never
    lets the function return normally: a normal return of the whole
    [try ... catch] is a normal return of the body. *)
Lemma try_rethrow_Resolved {A} (body : Async Doc A) label err' e s s' a :
  try_catch body (λ error, console_error label error;; throw err') e s
    = (s', Resolved a) →
  body e s = (s', Resolved a).
Proof.
  unfold try_catch. destruct (body e s) as [s1 [a1|err]]; [done | discriminate].
Qed.

Lemma try_rethrow_Rejected {A} (body : Async Doc A) label err' e s s1 err :
  body e s = (s1, Rejected err) →
  try_catch body (λ error, console_error label error;; throw err') e s
    = (mkState (next_uuid s1) (next_auto_id s1) (store s1) (db s1)
         (console s1 ++ [ConsoleError label err]),
       Rejected err').
Proof. intros H. unfold try_catch. by rewrite H. Qed.

Lemma promise_all_Resolved {A B} (f : A → Async Doc B) xs e s s' ys :
  promise_all (map f xs) e s = (s', Resolved ys) → runs f e s xs s' ys.
Proof.
  revert s ys. induction xs as [|x xs IH]; intros s ys; simpl.
  - intros [= -> <-]. constructor.
  - destruct (f x e s) as [s1 r1] eqn:Hx.
    destruct (promise_all (map f xs) e s1) as [s2 r2] eqn:Hxs.
    destruct r1 as [y|?], r2 as [l|?]; intros [= -> <-].
    econstructor; eauto.
Qed.

Lemma runs_promise_all {A B} (f : A → Async Doc B) xs e s s' ys :
  runs f e s xs s' ys → promise_all (map f xs) e s = (s', Resolved ys).
Proof.
  induction 1 as [|s s1 s2 x y xs ys Hx _ IH]; simpl; [done |].
  by rewrite Hx, IH.
Qed.

(** *** Frame conditions *)

Section Frames.
Context (R : relation (State Doc)) `{!PreOrder R}.

Lemma frames_ret {A} (a : A) : frames R (mret a : Async Doc A).
Proof. intros e s. simpl. reflexivity. Qed.

Lemma frames_throw {A} err : frames R (throw err : Async Doc A).
Proof. intros e s. simpl. reflexivity. Qed.

Lemma frames_bind {A B} (m : Async Doc A) (k : A → Async Doc B) :
  frames R m → (∀ a, frames R (k a)) → frames R (m ≫= k).
Proof.
  intros Hm Hk e s. rewrite run_bind. specialize (Hm e s).
  destruct (m e s) as [s1 [a|err]]; simpl in *; [| done].
  etrans; [done | apply Hk].
Qed.

Lemma frames_try_catch {A} (body : Async Doc A) handler :
  frames R body → (∀ err, frames R (handler err)) →
  frames R (try_catch body handler).
Proof.
  intros Hm Hk e s. unfold try_catch. specialize (Hm e s).
  destruct (body e s) as [s1 [a|err]]; simpl in *; [done |].
  etrans; [done | apply Hk].
Qed.

Lemma frames_promise_all {A B} (f : A → Async Doc B) xs :
  (∀ x, frames R (f x)) → frames R (promise_all (map f xs)).
Proof.
  intros Hf e. induction xs as [|x xs IH]; intros s; simpl; [reflexivity |].
  specialize (Hf x e s). destruct (f x e s) as [s1 r1].
  specialize (IH s1). destruct (promise_all (map f xs) e s1) as [s2 r2].
  simpl in *. by etrans.
Qed.

Lemma frames_invoke {A} own name (body : Async Doc A) :
  frames R body → frames R (invoke own name body).
Proof. intros H. unfold invoke. case_bool_decide; [done | apply frames_throw]. Qed.

End Frames.


#[global] Instance same_db_preorder : PreOrder (@same_db Doc).
Proof. split; [done | intros s1 s2 s3 H1 H2; unfold same_db in *; congruence]. Qed.


#[global] Instance uuid_forward_preorder : PreOrder (@uuid_forward Doc).
Proof. split; [intros s | intros s1 s2 s3]; unfold uuid_forward; lia. Qed.

End RunLemmas.

(** *** The external calls *)

Create HintDb frames discriminated.

Section Primitives.
Context {Doc : Type}.
Implicit Types (e : Env) (s : State Doc).

Ltac prim := intros e s; cbv beta delta -[Nat.le] iota; repeat case_match; simpl; done.

Lemma uuidv4_same_db : frames (@same_db Doc) uuidv4.
Proof. by intros e s. Qed.
Lemma Date_now_same_db : frames (@same_db Doc) Date_now.
Proof. by intros e s. Qed.
Lemma console_error_same_db label err : frames (@same_db Doc) (console_error label err).
Proof. by intros e s. Qed.
Lemma console_log_same_db msg : frames (@same_db Doc) (console_log msg).
Proof. by intros e s. Qed.
Lemma template_text_same_db v : frames (@same_db Doc) (template_text v).
Proof. by intros e s. Qed.
Lemma uploadBytes_same_db path file : frames (@same_db Doc) (uploadBytes path file).
Proof. intros e s. unfold uploadBytes. by case_match. Qed.
Lemma getDownloadURL_same_db path : frames (@same_db Doc) (getDownloadURL path).
Proof. intros e s. unfold getDownloadURL. by case_match. Qed.
Lemma getMediaDuration_same_db file : frames (@same_db Doc) (getMediaDuration file).
Proof. intros e s. unfold getMediaDuration. by case_match. Qed.
Lemma getDocs_where_same_db matches : frames (@same_db Doc) (getDocs_where matches).
Proof. intros e s. unfold getDocs_where. by case_match. Qed.

(** A query changes nothing, and its result is in ascending order of
    document id. *)
Lemma getDocs_where_Resolved matches e s s' docs :
  getDocs_where matches e s = (s', Resolved docs) →
  s' = s ∧ Sorted id_le docs ∧
  ∀ ref doc, (ref, doc) ∈ docs ↔ db s !! ref = Some doc ∧ matches doc = true.
Proof.
  unfold getDocs_where. destruct (getDocs_ok e); [| discriminate].
  intros [= <- <-]. split; [done |].
  split; [apply Sorted_merge_sort; intros doc1 doc2; apply String.leb_total |].
  intros ref doc. unfold by_document_id.
  rewrite merge_sort_Permutation, list_elem_of_filter, elem_of_map_to_list.
  simpl. tauto.
Qed.

(** The order of a query's result: the same documents, each as often as
    before, in ascending order of document id. *)
Lemma by_document_id_Permutation (docs : list (string * Doc)) :
  by_document_id docs ≡ₚ docs.
Proof. apply merge_sort_Permutation. Qed.

Lemma by_document_id_elem_of (docs : list (string * Doc)) doc :
  doc ∈ by_document_id docs ↔ doc ∈ docs.
Proof. by rewrite by_document_id_Permutation. Qed.

Lemma by_document_id_NoDup (docs : list (string * Doc)) :
  NoDup docs → NoDup (by_document_id docs).
Proof. by rewrite by_document_id_Permutation. Qed.

Lemma by_document_id_length (docs : list (string * Doc)) :
  length (by_document_id docs) = length docs.
Proof. by rewrite by_document_id_Permutation. Qed.

Lemma by_document_id_nil (docs : list (string * Doc)) :
  by_document_id docs = [] ↔ docs = [].
Proof.
  split; [| by intros ->].
  intros Hnil. apply Permutation_nil_r.
  rewrite <- Hnil. symmetry. apply by_document_id_Permutation.
Qed.

Lemma by_document_id_singleton (docs : list (string * Doc)) doc :
  docs = [doc] → by_document_id docs = [doc].
Proof.
  intros ->. apply Permutation_singleton_r, by_document_id_Permutation.
Qed.

Lemma by_document_id_sorted (docs : list (string * Doc)) :
  Sorted id_le (by_document_id docs).
Proof.
  apply Sorted_merge_sort. intros doc1 doc2. apply String.leb_total.
Qed.

(** What a normal return of an external call tells about the state. *)
Lemma uuidv4_Resolved e s s' id :
  uuidv4 e s = (s', Resolved id) →
  id = uuid_stream e (next_uuid s) ∧ next_uuid s' = S (next_uuid s) ∧
  console s' = console s.
Proof. by intros [= <- <-]. Qed.

Lemma uploadBytes_Resolved path file e s s' u :
  uploadBytes path file e s = (s', Resolved u) →
  next_uuid s' = next_uuid s ∧ console s' = console s.
Proof. unfold uploadBytes. case_match; by intros [= <- <-]. Qed.

Lemma getDownloadURL_Resolved path e s s' url :
  getDownloadURL path e s = (s', Resolved url) → s' = s.
Proof. unfold getDownloadURL. case_match; by intros [= <- <-]. Qed.

Lemma template_text_Resolved v e s s' text :
  template_text v e s = (s', Resolved text) → s' = s.
Proof. by intros [= <- <-]. Qed.

Lemma Date_now_Resolved e s s' t :
  Date_now e s = (s', Resolved t) → s' = s ∧ t = clock e.
Proof. by intros [= <- <-]. Qed.

Lemma getMediaDuration_Resolved file e s s' d :
  getMediaDuration file e s = (s', Resolved d) → s' = s.
Proof. unfold getMediaDuration. case_match; by intros [= <- <-]. Qed.

Lemma invoke_Resolved {A} own name (body : Async Doc A) e s s' a :
  invoke own name body e s = (s', Resolved a) →
  name ∈ own ∧ body e s = (s', Resolved a).
Proof. unfold invoke. case_bool_decide; [done | discriminate]. Qed.

End Primitives.

#[global] Hint Resolve uuidv4_same_db Date_now_same_db console_error_same_db
  console_log_same_db template_text_same_db uploadBytes_same_db
  getDownloadURL_same_db getMediaDuration_same_db getDocs_where_same_db : frames.

(** Structural steps of a frame proof. *)
Ltac frames_step :=
  lazymatch goal with
  | |- frames _ (mret _) => apply frames_ret; try apply _
  | |- frames _ (throw _) => apply frames_throw; try apply _
  | |- frames _ (mbind _ _) => apply frames_bind; [apply _ | | intros ?]
  | |- frames _ (try_catch _ _) => apply frames_try_catch; [apply _ | | intros ?]
  | |- frames _ (promise_all (map _ _)) =>
      apply frames_promise_all; [apply _ | intros ?]
  | |- frames _ (invoke _ _ _) => apply frames_invoke; [apply _ |]
  | |- frames _ (if ?b then _ else _) => destruct b
  | |- frames _ (match ?x with _ => _ end) => destruct x
  end.

Ltac solve_frames := repeat first [ solve [auto with frames] | frames_step ].

(** Inverting a normal return, step by step. *)
Ltac resolved_step :=
  match goal with
  | H : (mbind _ _) _ _ = (_, Resolved _) |- _ =>
      let s1 := fresh "s" in let a := fresh "a" in let H1 := fresh "Hrun" in
      apply bind_Resolved in H as (s1 & a & H1 & H)
  | H : (mret _) _ _ = (_, Resolved _) |- _ => apply mret_Resolved in H as [-> ->]
  | H : try_catch _ (λ error, console_error _ error;; throw _) _ _ = (_, Resolved _) |- _ =>
      apply try_rethrow_Resolved in H
  | H : throw _ _ _ = (_, Resolved _) |- _ => discriminate H
  | H : uuidv4 _ _ = (_, Resolved _) |- _ =>
      apply uuidv4_Resolved in H as (-> & ? & ?)
  | H : Date_now _ _ = (_, Resolved _) |- _ => apply Date_now_Resolved in H as [-> ->]
  | H : template_text _ _ _ = (_, Resolved _) |- _ =>
      apply template_text_Resolved in H as ->
  | H : uploadBytes _ _ _ _ = (_, Resolved _) |- _ =>
      apply uploadBytes_Resolved in H as [? ?]
  | H : getDownloadURL _ _ _ = (_, Resolved _) |- _ =>
      apply getDownloadURL_Resolved in H as ->
  | H : getMediaDuration _ _ _ = (_, Resolved _) |- _ =>
      apply getMediaDuration_Resolved in H as ->
  | H : invoke _ _ _ _ _ = (_, Resolved _) |- _ =>
      apply invoke_Resolved in H as [_ H]
  end.

(** ** Facts about the asset uploader *)

Section UploaderFacts.
Context {Doc : Type}.
Implicit Types (e : Env) (s : State Doc).

Lemma uploadFile_in_same_db scope file :
  (∀ getMediaDuration', scope = Some getMediaDuration' →
     frames (@same_db Doc) (getMediaDuration' file)) →
  frames same_db (uploadFile_in scope file).
Proof. intros Hscope. unfold uploadFile_in. solve_frames. Qed.

Lemma uploadThumbnail_same_db file : frames (@same_db Doc) (uploadThumbnail file).
Proof. unfold uploadThumbnail. solve_frames. Qed.

(** A normal return of the uploader: nothing was logged, one object was
    stored, one identifier was consumed for its path. *)
Lemma uploadFile_in_Resolved scope file e s s' asset :
  scope = None ∨ scope = Some getMediaDuration →
  uploadFile_in scope file e s = (s', Resolved asset) →
  console s' = console s ∧ next_uuid s' = S (next_uuid s) ∧
  fa_name asset = file_name file ∧
  fa_type asset = split_slash_0 (file_type file) ∧
  prop_truthy (js_get SUPPORTED_FILE_FOLDERS (fa_type asset)) = true.
Proof.
  unfold uploadFile_in. intros Hscope H. resolved_step.
  destruct (prop_truthy _) eqn:Hfolder; simpl in H; [| discriminate].
  repeat resolved_step. simpl.
  match goal with
  | Hd : (if ?c then _ else _) e ?s2 = (?s4, _) |- _ =>
      assert (s4 = s2) as ->;
      [ destruct c; [destruct Hscope as [-> | ->] |]; by resolved_step |]
  end.
  repeat split; congruence.
Qed.

Lemma uploadThumbnail_Resolved file e s s' url :
  uploadThumbnail file e s = (s', Resolved url) →
  console s' = console s ∧ next_uuid s' = S (next_uuid s).
Proof.
  unfold uploadThumbnail. intros H. repeat resolved_step. split; congruence.
Qed.

End UploaderFacts.

#[global] Hint Resolve uploadThumbnail_same_db : frames.

(** * The test object builder *)

Section TestBuilder.
Implicit Types (question : Question) (testData : TestSpec) (test : Test).

Lemma formatQuestion_cases (spec : QuestionSpec) :
  let question := formatQuestion spec in
  q_answerType question = qs_type spec ∧
  (if is_MCQ_spec spec then q_marks question = Some (marks_or_1 (qs_marks spec))
   else if strict_eq (qs_type spec) (VStr "Typed") then q_marks question = Some 0%Z
   else q_marks question = None).
Proof.
  unfold formatQuestion, is_MCQ_spec. simpl.
  destruct (strict_eq (qs_type spec) (VStr "MCQ")); simpl; [done |].
  by destruct (strict_eq (qs_type spec) (VStr "Typed")).
Qed.

(** The loop of [calculateTotalMarks] adds up the [marks] fields of
    normalised questions. *)
Lemma totalMarks_loop (specs : list QuestionSpec) (acc : Z) :
  fold_left
    (λ total question,
       if strict_eq (q_answerType question) (VStr "MCQ")
       then num_add total (q_marks question)
       else if strict_eq (q_answerType question) (VStr "Typed")
       then num_add total (q_marks question)
       else total)
    (map formatQuestion specs) (Num acc)
  = Num (acc + sum_marks (map formatQuestion specs)).
Proof.
  revert acc. induction specs as [|spec specs IH]; intros acc; simpl.
  - f_equal. lia.
  - destruct (formatQuestion_cases spec) as [Htype Hmarks]. simpl in *.
    rewrite Htype. unfold is_MCQ_spec in Hmarks.
    destruct (strict_eq (qs_type spec) (VStr "MCQ")).
    + rewrite Hmarks. simpl. rewrite IH. f_equal. lia.
    + destruct (strict_eq (qs_type spec) (VStr "Typed")).
      * rewrite Hmarks. simpl. rewrite IH. f_equal. lia.
      * rewrite Hmarks. simpl. rewrite IH. f_equal.
  Qed.

Lemma calculateTotalMarks_built test :
  is_built test →
  t_totalMarks (calculateTotalMarks test) = Num (sum_marks (t_questions test)).
Proof.
  intros [testData Hq]. unfold calculateTotalMarks. simpl.
  rewrite Hq. by rewrite totalMarks_loop.
Qed.

Lemma calculateTotalMarks_questions test :
  t_questions (calculateTotalMarks test) = t_questions test.
Proof. done. Qed.

(** Only multiple-choice questions carry marks when a test is authored. *)
Lemma sum_marks_formatQuestion (specs : list QuestionSpec) :
  sum_marks (map formatQuestion specs)
  = foldr (λ spec acc, (marks_or_1 (qs_marks spec) + acc)%Z) 0%Z
      (filter (λ spec, is_MCQ_spec spec = true) specs).
Proof.
  induction specs as [|spec specs IH]; [done |].
  simpl. rewrite IH. destruct (formatQuestion_cases spec) as [_ Hmarks].
  simpl in Hmarks. rewrite filter_cons.
  destruct (is_MCQ_spec spec) eqn:Hmcq.
  - rewrite decide_True by done. rewrite Hmarks. done.
  - rewrite decide_False by done.
    destruct (strict_eq _ _); rewrite Hmarks; simpl; lia.
Qed.

Lemma createTestObject_Resolved testData e (s s' : State Degree) test :
  createTestObject testData e s = (s', Resolved test) →
  t_testId test = uuid_stream e (next_uuid s) ∧
  t_totalMarks test = Num 0 ∧
  t_questions test = map formatQuestion (ts_questions testData) ∧
  next_uuid s' = S (next_uuid s) ∧ console s' = console s.
Proof. unfold createTestObject. intros H. repeat resolved_step. done. Qed.

Lemma createTestObject_total testData e (s : State Degree) :
  ∃ s' test, createTestObject testData e s = (s', Resolved test).
Proof. unfold createTestObject. rewrite run_bind. simpl. eauto. Qed.

End TestBuilder.

(** C7, amended.  For a freshly authored test (built by [createTestObject]
    and totalled by [calculateTotalMarks]) whose multiple-choice questions
    all leave [marks] unspecified, or give 0 or 1, the computed [totalMarks]
    equals the number of multiple-choice questions of the spec; typed
    questions contribute 0.  The builder always returns. *)
Theorem fresh_test_totalMarks_counts_MCQ testData e (s : State Degree) :
  Forall unit_marks (MCQ_specs testData) →
  ∃ s' test,
    createTestObject testData e s = (s', Resolved test) ∧
    t_totalMarks (calculateTotalMarks test)
    = Num (Z.of_nat (length (MCQ_specs testData))).
Proof.
  intros Hunit. destruct (createTestObject_total testData e s) as (s' & test & Hrun).
  exists s', test. split; [done |].
  apply createTestObject_Resolved in Hrun as (_ & _ & Hq & _).
  rewrite calculateTotalMarks_built by by exists testData.
  rewrite Hq, sum_marks_formatQuestion. f_equal.
  unfold MCQ_specs in *.
  induction (filter _ (ts_questions testData)) as [|spec specs IH]; [done |].
  apply Forall_cons in Hunit as [Hspec Hspecs].
  cbn [foldr length]. rewrite IH by done.
  assert (marks_or_1 (qs_marks spec) = 1%Z) as ->; [| lia].
  by destruct Hspec as [-> | [-> | ->]].
Qed.

Lemma fresh_test_totalMarks_counts_MCQ_witness :
  Forall unit_marks (MCQ_specs quiz_default) ∧
  ∃ s' test,
    createTestObject quiz_default calm_env empty_state = (s', Resolved test) ∧
    t_totalMarks (calculateTotalMarks test) = Num 2.
Proof.
  assert (Forall unit_marks (MCQ_specs quiz_default)) as Hunit.
  { replace (MCQ_specs quiz_default)
      with [mcq "q1" "a" None; mcq "q3" "c" (Some 0%Z)] by (by vm_compute).
    apply Forall_cons; split; [by left |].
    apply Forall_cons; split; [by right; left | constructor]. }
  split; [done |].
  apply (fresh_test_totalMarks_counts_MCQ quiz_default calm_env empty_state Hunit).
Defined.

(** C7 as stated fails: a test of three multiple-choice questions worth 1, 2
    and 3 marks is totalled at 6, not at 3. *)
Lemma fresh_test_totalMarks_not_MCQ_count :
  ∃ s' test,
    createTestObject quiz_123 calm_env empty_state = (s', Resolved test) ∧
    length (MCQ_specs quiz_123) = 3%nat ∧
    t_totalMarks (calculateTotalMarks test) = Num 6 ∧
    t_totalMarks (calculateTotalMarks test)
    ≠ Num (Z.of_nat (length (MCQ_specs quiz_123))).
Proof. do 2 eexists. split; [reflexivity |]. by vm_compute. Qed.

(** * Scoring *)

Section Scoring.
Implicit Types (questions : list Question) (userAnswers : list UserAnswer).

(** One turn of the [forEach] of [calculateUserMarks]. *)
Lemma calculateUserMarks_from_cons question questions userAnswers index
    userTotal userAnswer :
  userAnswers !! index = Some userAnswer →
  calculateUserMarks_from (question :: questions) userAnswers index userTotal
  = calculateUserMarks_from questions userAnswers (S index)
      (if scores question userAnswer
       then num_add userTotal (q_marks question) else userTotal).
Proof.
  intros Hanswer. simpl. rewrite Hanswer. unfold scores, strict_eq.
  destruct (decide (q_answerType question = VStr "MCQ")) as [Hmcq|Hmcq].
  - rewrite Hmcq. simpl. by case_bool_decide.
  - rewrite (bool_decide_eq_false_2 _ Hmcq). simpl.
    case_bool_decide; [| done]. by destruct (truthy _).
Qed.

(** Questions none of whose answers scores leave the running total as it
    is. *)
Lemma calculateUserMarks_from_none questions userAnswers index userTotal :
  (index + length questions ≤ length userAnswers)%nat →
  (∀ i question userAnswer,
     questions !! i = Some question →
     userAnswers !! (index + i)%nat = Some userAnswer →
     scores question userAnswer = false) →
  calculateUserMarks_from questions userAnswers index userTotal
  = Resolved userTotal.
Proof.
  revert index. induction questions as [|question questions IH];
    intros index Hlen Hnone; [done |].
  simpl in Hlen.
  destruct (lookup_lt_is_Some_2 userAnswers index) as [userAnswer Hanswer];
    [lia |].
  rewrite (calculateUserMarks_from_cons _ _ _ _ _ userAnswer) by done.
  rewrite (Hnone 0%nat question userAnswer); [| done | by rewrite Nat.add_0_r].
  apply IH; [lia |].
  intros i q a Hq Ha. apply (Hnone (S i)); [done |].
  by replace (index + S i)%nat with (S index + i)%nat by lia.
Qed.

Lemma calculateUserMarks_from_app questions1 questions2 userAnswers index
    userTotal :
  calculateUserMarks_from (questions1 ++ questions2) userAnswers index userTotal
  = match calculateUserMarks_from questions1 userAnswers index userTotal with
    | Resolved subtotal =>
        calculateUserMarks_from questions2 userAnswers
          (index + length questions1) subtotal
    | Rejected err => Rejected err
    end.
Proof.
  revert index userTotal.
  induction questions1 as [|question questions1 IH]; intros index userTotal.
  - simpl. by rewrite Nat.add_0_r.
  - cbn [app calculateUserMarks_from length].
    replace (index + S (length questions1))%nat
      with (S index + length questions1)%nat by lia.
    destruct (strict_eq (q_answerType question) (VStr "MCQ"));
      [| destruct (strict_eq (q_answerType question) (VStr "Typed"))];
      try apply IH;
      (destruct (userAnswers !! index) as [userAnswer|]; [| done]).
    + destruct (strict_eq _ _); apply IH.
    + destruct (truthy _); apply IH.
Qed.

(** C9.  For a built test and one answer per question, in order:
    [calculateUserMarks] returns 0 when no answer scores (no multiple-choice
    answer equals its question's [correctAnswer], no typed answer is marked
    validated); and when the multiple-choice answer at one position equals
    its question's [correctAnswer] and no answer at any other position
    scores, it returns the marks of that question. *)
Theorem calculateUserMarks_spec (test : Test) userAnswers :
  is_built test →
  length userAnswers = length (t_questions test) →
  ((∀ i question userAnswer,
      t_questions test !! i = Some question →
      userAnswers !! i = Some userAnswer →
      scores question userAnswer = false) →
   calculateUserMarks test userAnswers = Resolved (Num 0))
  ∧
  (∀ i question userAnswer,
     t_questions test !! i = Some question →
     userAnswers !! i = Some userAnswer →
     q_answerType question = VStr "MCQ" →
     ua_answer userAnswer = q_correctAnswer question →
     (∀ j question' userAnswer',
        j ≠ i →
        t_questions test !! j = Some question' →
        userAnswers !! j = Some userAnswer' →
        scores question' userAnswer' = false) →
     ∃ marks, q_marks question = Some marks ∧
              calculateUserMarks test userAnswers = Resolved (Num marks)).
Proof.
  intros [testData Hbuilt] Hlen. unfold calculateUserMarks. split.
  - intros Hnone. apply calculateUserMarks_from_none; [simpl; lia | done].
  - intros i question userAnswer Hq Ha Hmcq Hequal Hothers.
    assert (∃ marks, q_marks question = Some marks) as [marks Hmarks].
    { rewrite Hbuilt in Hq. apply list_lookup_fmap_Some_1 in Hq as (spec & -> & _).
      destruct (formatQuestion_cases spec) as [Htype Hcases]. simpl in *.
      unfold is_MCQ_spec in Hcases. rewrite <- Htype, Hmcq in Hcases.
      unfold strict_eq in Hcases. rewrite bool_decide_eq_true_2 in Hcases by done.
      eauto. }
    exists marks. split; [done |].
    pose proof (lookup_lt_Some _ _ _ Hq) as Hi.
    rewrite <- (take_drop_middle _ _ _ Hq), calculateUserMarks_from_app.
    assert (length (take i (t_questions test)) = i) as Htake.
    { apply length_take_le. lia. }
    rewrite calculateUserMarks_from_none; cycle 1.
    { rewrite Htake. apply lookup_lt_Some in Ha. simpl. lia. }
    { intros j q a Hj Haj. simpl in Haj.
      apply lookup_take_Some in Hj as [Hj Hlt].
      apply (Hothers j); [lia | done | done]. }
    rewrite Htake. simpl (0 + i)%nat.
    rewrite (calculateUserMarks_from_cons _ _ _ _ _ userAnswer) by done.
    assert (scores question userAnswer = true) as ->.
    { unfold scores, strict_eq. rewrite Hmcq, Hequal.
      rewrite (bool_decide_eq_true_2 (q_correctAnswer question = _)) by done.
      done. }
    rewrite Hmarks. simpl.
    apply calculateUserMarks_from_none.
    { rewrite length_drop. simpl. lia. }
    intros j q a Hj Haj. rewrite lookup_drop in Hj.
    apply (Hothers (S i + j)%nat); [lia | done | done].
Qed.

Lemma calculateUserMarks_spec_witness :
  calculateUserMarks built_quiz_123 [answer "b"; answer "c"; answer "a"]
    = Resolved (Num 0) ∧
  ∃ marks,
    q_marks (formatQuestion (mcq "q2" "b" (Some 2%Z))) = Some marks ∧
    calculateUserMarks built_quiz_123 [answer "c"; answer "b"; answer "a"]
      = Resolved (Num marks).
Proof.
  assert (is_built built_quiz_123) as Hbuilt by (by exists quiz_123).
  split.
  - apply (calculateUserMarks_spec built_quiz_123
             [answer "b"; answer "c"; answer "a"] Hbuilt eq_refl).
    intros [|[|[|i]]] question userAnswer Hq Ha;
      vm_compute in Hq, Ha; simplify_eq; by vm_compute.
  - apply (proj2 (calculateUserMarks_spec built_quiz_123
                    [answer "c"; answer "b"; answer "a"] Hbuilt eq_refl)
             1%nat _ (answer "b")); try done.
    intros [|[|[|j]]] question userAnswer Hj Hq Ha;
      vm_compute in Hq, Ha; simplify_eq; by vm_compute.
Defined.

End Scoring.

(** * The asset uploader *)

Section AssetUploader.
Context {Doc : Type}.
Implicit Types (e : Env) (s : State Doc).

Lemma js_get_unsupported category :
  category ∉ supported_categories →
  category ∉ Object_prototype_keys →
  js_get SUPPORTED_FILE_FOLDERS category = Undefined.
Proof.
  intros Hsupported Hinherited. unfold js_get, SUPPORTED_FILE_FOLDERS.
  rewrite (not_elem_of_list_to_map_1 (M := gmap string)); [| exact Hsupported].
  by rewrite bool_decide_eq_false_2.
Qed.

(** The guard of [uploadFile] stops an unsupported file before anything is
    written; the caller is told 'File upload failed'. *)
Lemma uploadFile_in_unsupported scope file e s :
  js_get SUPPORTED_FILE_FOLDERS (split_slash_0 (file_type file)) = Undefined →
  uploadFile_in scope file e s
  = (logged s (ConsoleError "Error uploading file:"
                 (UnsupportedFileType (file_type file))),
     Rejected FileUploadFailed).
Proof. intros Hget. unfold uploadFile_in, try_catch. by rewrite Hget. Qed.

(** Where [getMediaDuration] is in scope, a media file whose upload
    succeeds and whose metadata cannot be read is still uploaded, with a
    null duration. *)
Lemma uploadFile_media_error file e s url :
  let category := split_slash_0 (file_type file) in
  let tag := if String.prefix "audio" (file_type file) then "audio" else "video" in
  category = "video" ∨ category = "audio" →
  uploadBytes_ok e (media_path e s category file) file = true →
  downloadURL e (media_path e s category file) = Some url →
  media_event e tag file = MediaError →
  MediaApi.uploadFile file e s
  = (mkState (S (next_uuid s)) (next_auto_id s)
       (store s ++ [(media_path e s category file, file)]) (db s) (console s),
     Resolved {| fa_url := url; fa_type := category;
                 fa_name := file_name file; fa_duration := None |}).
Proof.
  intros category tag Hcategory Hbytes Hurl Hevent.
  unfold MediaApi.uploadFile, uploadFile_in, try_catch. fold category.
  unfold media_path in *.
  assert (js_get SUPPORTED_FILE_FOLDERS "video" = Own "videos") as Hvideo
    by (by vm_compute).
  assert (js_get SUPPORTED_FILE_FOLDERS "audio" = Own "audios") as Haudio
    by (by vm_compute).
  destruct Hcategory as [Hc | Hc]; rewrite Hc in *; simpl in *;
    rewrite ?Hvideo, ?Haudio; simpl;
    cbv [mbind Async_bind bind mret Async_ret ret throw template_text uuidv4
         uploadBytes getDownloadURL getMediaDuration]; simpl;
    rewrite Hbytes; simpl; rewrite Hurl; fold tag; by rewrite Hevent.
Qed.

End AssetUploader.

(** C8, amended.  For a file whose declared content type's primary category
    has no storage namespace (it is none of video, audio, image, document,
    pdf, ppt) and is not the name of a property every object inherits,
    [uploadFile] fails and performs no object-store write; the 'Unsupported
    file type' error raised by the guard is caught and logged inside
    [uploadFile], and the caller receives the generic 'File upload failed'
    error. *)
Theorem uploadFile_unsupported_type (file : File) e (s : State Degree) :
  let category := split_slash_0 (file_type file) in
  category ∉ supported_categories →
  category ∉ Object_prototype_keys →
  ∃ s', uploadFile file e s = (s', Rejected FileUploadFailed) ∧
        store s' = store s ∧ db s' = db s ∧ next_uuid s' = next_uuid s ∧
        console s' = (console s ++ [ConsoleError "Error uploading file:"
                                      (UnsupportedFileType (file_type file))])%list.
Proof.
  intros category Hsupported Hinherited. eexists. split.
  - apply uploadFile_in_unsupported. by apply js_get_unsupported.
  - done.
Qed.

Lemma uploadFile_unsupported_type_witness :
  ∃ s', uploadFile notes_text calm_env empty_state
          = (s', Rejected FileUploadFailed) ∧
        store s' = [] ∧ db s' = ∅ ∧ next_uuid s' = 0%nat ∧
        console s' = [ConsoleError "Error uploading file:"
                        (UnsupportedFileType "text/plain")].
Proof.
  apply (uploadFile_unsupported_type notes_text calm_env empty_state).
  - unfold supported_categories. by vm_compute; intros ?%list_elem_of_In; simpl in *; intuition discriminate.
  - by vm_compute; intros ?%list_elem_of_In; simpl in *; intuition discriminate.
Defined.

(** C8 as stated fails: the error a caller of [uploadFile] receives for a
    text file is 'File upload failed', the same as for a failed upload; no
    'Unsupported file type' error reaches the caller. *)
Lemma uploadFile_unsupported_error_is_generic :
  (uploadFile notes_text calm_env (empty_state (Doc := Degree))).2
    = Rejected FileUploadFailed ∧
  ∀ type, (uploadFile notes_text calm_env (empty_state (Doc := Degree))).2
            ≠ Rejected (UnsupportedFileType type).
Proof. split; [by vm_compute | intros type; by vm_compute]. Qed.

(** C6 at a video file, in [degreeApi.js]: the bytes are stored and the URL
    is obtained, then the call of [getMediaDuration], which the module does
    not define, raises a ReferenceError and the upload is reported as
    failed, whatever the media element would have said. *)
Lemma uploadFile_video_fails :
  uploadFile welcome_video calm_env (empty_state (Doc := Degree))
  = (mkState 1 0 [("videos/uuid-0_welcome.mp4", welcome_video)] ∅
       [ConsoleError "Error uploading file:" (ReferenceError "getMediaDuration")],
     Rejected FileUploadFailed).
Proof. by vm_compute. Qed.

(** * The catalogue assembler *)

(** ** Nothing but [addDoc] and [updateDoc] touches the collection *)

Section AssemblerFrames.

Lemma uploadFile_same_db file : frames same_db (uploadFile file).
Proof. apply uploadFile_in_same_db. by intros. Qed.

Lemma createTestObject_same_db testData : frames same_db (createTestObject testData).
Proof. unfold createTestObject. solve_frames. Qed.

Hint Resolve uploadFile_same_db createTestObject_same_db : frames.

Lemma uploadThumbnail_opt_same_db thumbnail :
  frames same_db (uploadThumbnail_opt thumbnail).
Proof. unfold uploadThumbnail_opt. solve_frames. Qed.

Lemma formatLesson_same_db lesson : frames same_db (formatLesson lesson).
Proof. unfold formatLesson. solve_frames. Qed.

Hint Resolve uploadThumbnail_opt_same_db formatLesson_same_db : frames.

Lemma formatChapter_same_db chapter : frames same_db (formatChapter chapter).
Proof. unfold formatChapter. solve_frames. Qed.

Hint Resolve formatChapter_same_db : frames.

Lemma formatCourse_same_db course : frames same_db (formatCourse course).
Proof. unfold formatCourse. solve_frames. Qed.

Hint Resolve formatCourse_same_db : frames.

Lemma assemble_same_db degreeData : frames same_db (assemble degreeData).
Proof. unfold assemble. solve_frames. Qed.

Lemma updateTest_same_db testId testData : frames same_db (updateTest testId testData).
Proof. unfold updateTest. solve_frames. Qed.

Hint Resolve updateTest_same_db : frames.

Lemma updateTest_opt_same_db testData : frames same_db (updateTest_opt testData).
Proof. unfold updateTest_opt. solve_frames. Qed.

Hint Resolve updateTest_opt_same_db : frames.

Lemma reformatChapter_same_db chapter : frames same_db (reformatChapter chapter).
Proof. unfold reformatChapter. solve_frames. Qed.

Hint Resolve reformatChapter_same_db : frames.

Lemma reformatCourse_same_db course : frames same_db (reformatCourse course).
Proof. unfold reformatCourse. solve_frames. Qed.

End AssemblerFrames.

(** ** Identifiers drawn from the stream *)

Section Drawn.
Context {Doc : Type}.
Implicit Types (e : Env) (s : State Doc) (ids : list string).

Lemma drawn_nil e n n' : drawn e n n' [].
Proof. exists []. split; [done |]. split; constructor. Qed.

Lemma drawn_one e n : drawn e n (S n) [uuid_stream e n].
Proof.
  exists [n]. split; [done |]. split; [apply NoDup_singleton |].
  repeat constructor; lia.
Qed.

Lemma drawn_app e n1 n2 n3 ids1 ids2 :
  drawn e n1 n2 ids1 → drawn e n2 n3 ids2 → (n1 ≤ n2 ≤ n3)%nat →
  drawn e n1 n3 (ids1 ++ ids2).
Proof.
  intros (p1 & Hp1 & Hnd1 & Hr1) (p2 & Hp2 & Hnd2 & Hr2) Hle.
  exists (p1 ++ p2). split; [by rewrite map_app, Hp1, Hp2 |]. split.
  - apply NoDup_app. split; [done |]. split; [| done].
    intros k Hk1 Hk2.
    rewrite Forall_forall in Hr1, Hr2.
    specialize (Hr1 k Hk1). specialize (Hr2 k Hk2). lia.
  - apply Forall_app. split.
    + eapply Forall_impl; [exact Hr1 |]. simpl. lia.
    + eapply Forall_impl; [exact Hr2 |]. simpl. lia.
Qed.

Lemma drawn_perm e n n' ids ids' : ids ≡ₚ ids' → drawn e n n' ids → drawn e n n' ids'.
Proof. intros Hperm (p & Hp & ?). exists p. by rewrite <- Hperm. Qed.

(** Under a stream that never repeats, drawn identifiers are pairwise
    distinct. *)
Lemma drawn_NoDup e n n' ids :
  Inj (=) (=) (uuid_stream e) → drawn e n n' ids → NoDup ids.
Proof.
  intros Hinj (p & Hp & Hnd & _). rewrite Hp.
  by apply (NoDup_fmap_2 (uuid_stream e)).
Qed.

Lemma drawn_range e n n' ids id :
  drawn e n n' ids → id ∈ ids →
  ∃ k, (n ≤ k < n')%nat ∧ id = uuid_stream e k.
Proof.
  intros (p & Hp & _ & Hr) Hid. rewrite Hp in Hid.
  apply list_elem_of_fmap in Hid as (k & -> & Hk).
  rewrite Forall_forall in Hr. eauto.
Qed.

Lemma yields_refl e s : yields e s s [].
Proof. split; [done |]. split; [done |]. apply drawn_nil. Qed.

Lemma yields_app e s1 s2 s3 ids1 ids2 :
  yields e s1 s2 ids1 → yields e s2 s3 ids2 → yields e s1 s3 (ids1 ++ ids2).
Proof.
  intros (Hc1 & Hn1 & Hd1) (Hc2 & Hn2 & Hd2).
  split; [congruence |]. split; [lia |]. by eapply drawn_app.
Qed.

Lemma yields_perm e s s' ids ids' : ids ≡ₚ ids' → yields e s s' ids → yields e s s' ids'.
Proof. intros Hperm (? & ? & ?). repeat split; [done.. |]. by eapply drawn_perm. Qed.

(** A step that consumes identifiers without putting them in the tree. *)
Lemma yields_hidden e s s' :
  console s' = console s → (next_uuid s ≤ next_uuid s')%nat → yields e s s' [].
Proof. intros. repeat split; [done.. |]. apply drawn_nil. Qed.

Lemma yields_uuidv4 e s s' id :
  uuidv4 e s = (s', Resolved id) → yields e s s' [id].
Proof.
  intros (-> & Hn & Hc)%uuidv4_Resolved.
  repeat split; [done | lia |]. rewrite Hn. apply drawn_one.
Qed.

(** The successful branches of a [Promise.all]: what each branch yields
    adds up, and the results line up with the inputs. *)
Lemma runs_yields {A B} (f : A → Async Doc B) (ids : B → list string)
    (mirrors : A → B → Prop) e :
  (∀ x s s' y, f x e s = (s', Resolved y) →
               yields e s s' (ids y) ∧ mirrors x y) →
  ∀ s xs s' ys, runs f e s xs s' ys →
                yields e s s' (flat_map ids ys) ∧ Forall2 mirrors xs ys.
Proof.
  intros Hf s xs s' ys. induction 1 as [|s s1 s2 x y xs ys Hx _ [IHy IHm]].
  - split; [apply yields_refl | constructor].
  - destruct (Hf _ _ _ _ Hx) as [Hy Hm]. split.
    + simpl. by eapply yields_app.
    + by constructor.
Qed.

End Drawn.

(** ** What a successful assembly yields *)

Section AssemblerYields.
Implicit Types (e : Env) (s : State Degree).

Lemma map_copyPoint (points : list Point) : map copyPoint points = points.
Proof. induction points as [|[] points IH]; [done |]. simpl. by rewrite IH. Qed.

Lemma uploadFile_yields file e s s' asset :
  uploadFile file e s = (s', Resolved asset) →
  yields e s s' [] ∧ fa_name asset = file_name file.
Proof.
  intros (Hc & Hn & Hname & _)%uploadFile_in_Resolved; [| by left].
  split; [| done]. apply yields_hidden; [done | lia].
Qed.

Lemma uploadThumbnail_opt_yields thumbnail e s s' url :
  uploadThumbnail_opt thumbnail e s = (s', Resolved url) → yields e s s' [].
Proof.
  unfold uploadThumbnail_opt. destruct thumbnail; intros H; repeat resolved_step.
  - match goal with
    | H : uploadThumbnail _ _ _ = _ |- _ =>
        apply uploadThumbnail_Resolved in H as [? ?]
    end.
    apply yields_hidden; [done | lia].
  - apply yields_refl.
Qed.

Lemma createTestObject_yields testData e s s' test :
  createTestObject testData e s = (s', Resolved test) →
  yields e s s' [t_testId test] ∧ mirrors_test testData test ∧ untotalled test.
Proof.
  unfold createTestObject. intros H. resolved_step. resolved_step.
  split; [by apply yields_uuidv4 | done].
Qed.

Lemma formatLesson_yields lesson e s s' out :
  formatLesson lesson e s = (s', Resolved out) →
  yields e s s' [l_lessonId out] ∧ mirrors_lesson lesson out.
Proof.
  unfold formatLesson. intros H.
  apply bind_Resolved in H as (s1 & asset & Hfile & H).
  apply bind_Resolved in H as (s2 & lessonId & Hid & H).
  resolved_step. apply uploadFile_yields in Hfile as [Hfile Hname].
  apply yields_uuidv4 in Hid. split; [| done].
  apply (yields_app _ _ _ _ [] [lessonId] Hfile Hid).
Qed.

(** A chapter's test is totalled right after it is built. *)
Lemma formatChapter_yields chapter e s s' out :
  formatChapter chapter e s = (s', Resolved out) →
  yields e s s' (chapter_ids out) ∧ mirrors_chapter chapter out ∧
  (∀ test, ch_test out = Some test → totalled test).
Proof.
  unfold formatChapter. intros H.
  apply bind_Resolved in H as (s1 & lessons & Hlessons & H).
  apply bind_Resolved in H as (s2 & test & Htest & H).
  apply bind_Resolved in H as (s3 & chapterId & Hid & H).
  resolved_step. unfold chapter_ids, mirrors_chapter. simpl.
  apply promise_all_Resolved in Hlessons.
  apply (runs_yields formatLesson (λ out, [l_lessonId out]) mirrors_lesson)
    in Hlessons as [Hlessons Hmirror];
    [| intros x t t' y; apply formatLesson_yields].
  apply yields_uuidv4 in Hid.
  assert (yields e s1 s2 (test_ids test) ∧
          option_Forall2 mirrors_test (chs_test chapter) test ∧
          (∀ t, test = Some t → totalled t)) as (Htests & Htmirror & Htotal).
  { destruct (chs_test chapter) as [testData|].
    - apply bind_Resolved in Htest as (s4 & built & Hbuilt & Htest).
      apply bind_Resolved in Htest as (s5 & test' & Hcalc & Htest).
      repeat resolved_step.
      apply createTestObject_yields in Hbuilt as (Hy & [Htitle Hq] & _).
      split; [exact Hy |]. split; [constructor; by split |].
      intros t [= <-]. unfold totalled. rewrite calculateTotalMarks_questions.
      apply calculateTotalMarks_built. by exists testData.
    - resolved_step. split; [apply yields_refl |]. split; [constructor | done]. }
  split; [| done].
  eapply yields_perm;
    [| exact (yields_app _ _ _ _ _ _ Hlessons
                (yields_app _ _ _ _ _ _ Htests Hid))].
  replace (flat_map (λ out, [l_lessonId out]) lessons)
    with (map l_lessonId lessons) by (by induction lessons; simpl; f_equal).
  rewrite (Permutation_app_comm (test_ids test)).
  rewrite Permutation_app_comm. simpl. by rewrite Permutation_app_comm.
Qed.

(** A course's final test is left as built. *)
Lemma formatCourse_yields course e s s' out :
  formatCourse course e s = (s', Resolved out) →
  yields e s s' (course_ids out) ∧ mirrors_course course out ∧
  Forall totalled (chapter_tests out) ∧
  (∀ test, c_finalTest out = Some test → untotalled test).
Proof.
  unfold formatCourse. intros H.
  apply bind_Resolved in H as (s1 & url & Hthumb & H).
  apply bind_Resolved in H as (s2 & chapters & Hchapters & H).
  apply bind_Resolved in H as (s3 & courseId & Hid & H).
  apply bind_Resolved in H as (s4 & test & Htest & H).
  resolved_step. unfold course_ids, mirrors_course, chapter_tests. simpl.
  apply uploadThumbnail_opt_yields in Hthumb.
  apply promise_all_Resolved in Hchapters.
  apply (runs_yields formatChapter chapter_ids
           (λ chapter out, mirrors_chapter chapter out ∧
                           ∀ test, ch_test out = Some test → totalled test))
    in Hchapters as [Hchapters Hmirror];
    [| intros x t t' y Hx; apply formatChapter_yields in Hx; tauto].
  apply yields_uuidv4 in Hid.
  assert (yields e s3 s4 (test_ids test) ∧
          option_Forall2 mirrors_test (cs_finalTest course) test ∧
          (∀ t, test = Some t → untotalled t)) as (Htests & Htmirror & Htotal).
  { destruct (cs_finalTest course) as [testData|].
    - apply bind_Resolved in Htest as (s5 & built & Hbuilt & Htest).
      resolved_step.
      apply createTestObject_yields in Hbuilt as (Hy & Hm & Hz).
      split; [exact Hy |]. split; [by constructor |]. by intros t [= <-].
    - resolved_step. split; [apply yields_refl |]. split; [constructor | done]. }
  split; [| split; [| split]].
  - eapply yields_perm;
      [| exact (yields_app _ _ _ _ _ _ Hthumb
                  (yields_app _ _ _ _ _ _ Hchapters
                     (yields_app _ _ _ _ _ _ Hid Htests)))].
    simpl. rewrite Permutation_app_comm. simpl.
    by rewrite Permutation_app_comm.
  - split; [done |]. split; [| split; [done | apply map_copyPoint]].
    eapply Forall2_impl; [exact Hmirror |]. by intros x y [Hm _].
  - apply Forall_flat_map. apply Forall2_Forall_r with (1 := Hmirror).
    apply Forall_forall. intros chapter _ out [_ Hout].
    destruct (ch_test out) as [t|]; [| constructor]. simpl. constructor; [auto | constructor].
  - done.
Qed.

Lemma assemble_yields degreeData e s s' out :
  assemble degreeData e s = (s', Resolved out) →
  yields e s s' (degree_ids out) ∧ mirrors_degree degreeData out ∧
  Forall (λ course, Forall totalled (chapter_tests course)) (d_courses out) ∧
  Forall untotalled (final_tests (d_courses out)).
Proof.
  unfold assemble. intros H.
  apply bind_Resolved in H as (s1 & url & Hthumb & H).
  apply bind_Resolved in H as (s2 & courses & Hcourses & H).
  apply bind_Resolved in H as (s3 & degreeId & Hid & H).
  apply bind_Resolved in H as (s4 & createdAt & Hnow & H).
  apply Date_now_Resolved in Hnow as [-> ->]. resolved_step.
  unfold degree_ids, mirrors_degree, final_tests. simpl.
  apply uploadThumbnail_opt_yields in Hthumb.
  apply promise_all_Resolved in Hcourses.
  apply (runs_yields formatCourse course_ids
           (λ course out, mirrors_course course out ∧
                          Forall totalled (chapter_tests out) ∧
                          ∀ test, c_finalTest out = Some test → untotalled test))
    in Hcourses as [Hcourses Hmirror];
    [| intros x t t' y Hx; apply formatCourse_yields in Hx; tauto].
  apply yields_uuidv4 in Hid.
  split; [| split; [| split]].
  - eapply yields_perm;
      [| exact (yields_app _ _ _ _ _ _ Hthumb
                  (yields_app _ _ _ _ _ _ Hcourses Hid))].
    simpl. by rewrite Permutation_app_comm.
  - split; [done |]. split; [apply map_copyPoint |].
    eapply Forall2_impl; [exact Hmirror |]. by intros x y [Hm _].
  - apply Forall2_Forall_r with (1 := Hmirror).
    apply Forall_forall. intros course _ out H. tauto.
  - apply Forall_flat_map. apply Forall2_Forall_r with (1 := Hmirror).
    apply Forall_forall. intros course _ out (_ & _ & Hout).
    destruct (c_finalTest out) as [t|]; [| constructor].
    simpl. constructor; [auto | constructor].
Qed.

End AssemblerYields.

(** * [addDegree] *)

Section AddDegree.
Implicit Types (e : Env) (s : State Degree).

(** A normal return of [addDegree]: the assembly returned normally and its
    result is the one document added. *)
Lemma addDegree_Resolved degreeData e s s' degreeId :
  addDegree degreeData e s = (s', Resolved degreeId) →
  ∃ s1 degree,
    assemble degreeData e s = (s1, Resolved degree) ∧
    d_degreeId degree = degreeId ∧
    db s' = <[auto_id e (next_auto_id s1) := degree]> (db s) ∧
    next_uuid s' = next_uuid s1 ∧
    console s' = console s ++ [ConsoleLog "Degree added successfully!"].
Proof.
  unfold addDegree. intros H. resolved_step.
  apply bind_Resolved in H as (s1 & degree & Hassemble & H).
  apply bind_Resolved in H as (s2 & ref & Hadd & H).
  apply bind_Resolved in H as (s3 & u & Hlog & H).
  resolved_step. exists s1, degree. split; [done |]. split; [done |].
  pose proof (assemble_same_db degreeData e s) as Hdb.
  rewrite Hassemble in Hdb. unfold same_db in Hdb. simpl in Hdb.
  apply assemble_yields in Hassemble as ((Hconsole & _) & _).
  unfold addDoc in Hadd. destruct (addDoc_ok e); [| discriminate].
  injection Hadd as <- <-. injection Hlog as <-. simpl.
  by rewrite Hdb, Hconsole.
Qed.

(** Any other end of [addDegree] is the error 'Degree saving failed', with
    the collection as it was. *)
Lemma addDegree_Rejected degreeData e s s' err :
  addDegree degreeData e s = (s', Rejected err) →
  err = DegreeSavingFailed ∧ db s' = db s.
Proof.
  unfold addDegree, try_catch. rewrite run_bind.
  pose proof (assemble_same_db degreeData e s) as Hdb. unfold same_db in Hdb.
  destruct (assemble degreeData e s) as [s1 [degree|err1]]; simpl in Hdb.
  - rewrite run_bind. unfold addDoc. destruct (addDoc_ok e).
    + rewrite run_bind. simpl. discriminate.
    + simpl. intros [= <- <-]. done.
  - simpl. intros [= <- <-]. done.
Qed.

End AddDegree.

(** C2.  If the assembly inside [addDegree] fails at any step, or any file
    or thumbnail upload made during the call fails (the uploader records
    each such failure on the console), then [addDegree] fails as a whole,
    with 'Degree saving failed', and the [degrees] collection is left
    exactly as it was: no document is written. *)
Theorem addDegree_all_or_nothing degreeData e (s s' : State Degree) r :
  addDegree degreeData e s = (s', r) →
  (∃ s1 err, assemble degreeData e s = (s1, Rejected err)) ∨
  upload_error_logged (drop (length (console s)) (console s')) →
  r = Rejected DegreeSavingFailed ∧ db s' = db s.
Proof.
  intros Hrun Hfailed. destruct r as [degreeId|err].
  - exfalso.
    apply addDegree_Resolved in Hrun as (s1 & degree & Hasm & _ & _ & _ & Hconsole).
    destruct Hfailed as [(s2 & err & Hrej) | [err Hlogged]]; [congruence |].
    rewrite Hconsole, drop_app_length in Hlogged.
    destruct Hlogged as [Hin | Hin];
      apply list_elem_of_singleton in Hin; discriminate.
  - apply addDegree_Rejected in Hrun as [-> Hdb]. done.
Qed.

Lemma addDegree_all_or_nothing_witness :
  ∃ s', addDegree theology_broken flaky_env empty_state
          = (s', Rejected DegreeSavingFailed) ∧
        db s' = ∅ ∧
        ConsoleError "Error uploading file:" StorageError ∈ console s'.
Proof.
  destruct (addDegree theology_broken flaky_env empty_state) as [s' r] eqn:Hrun.
  destruct (addDegree_all_or_nothing theology_broken flaky_env empty_state s' r Hrun)
    as [-> Hdb].
  - right. apply (f_equal fst) in Hrun. simpl in Hrun. rewrite <- Hrun.
    exists StorageError. left. vm_compute. apply list_elem_of_here.
  - exists s'. split; [reflexivity |]. split; [exact Hdb |].
    apply (f_equal fst) in Hrun. simpl in Hrun. rewrite <- Hrun.
    vm_compute. apply list_elem_of_here.
Defined.

(** C3.  When [addDegree] succeeds, the document it writes mirrors the
    authoring input at every level: its courses correspond one by one, in
    input order, to the input's courses, and so do the chapters of every
    course, the lessons of every chapter, the overview points of the degree
    and of every course, and the questions of every test; in particular
    all these lists have the lengths of the input's. *)
Theorem addDegree_mirrors_input degreeData e (s s' : State Degree) degreeId :
  addDegree degreeData e s = (s', Resolved degreeId) →
  ∃ ref degree,
    db s' = <[ref := degree]> (db s) ∧
    d_degreeId degree = degreeId ∧
    mirrors_degree degreeData degree.
Proof.
  intros (s1 & degree & Hasm & Hid & Hdb & _)%addDegree_Resolved.
  exists (auto_id e (next_auto_id s1)), degree.
  apply assemble_yields in Hasm as (_ & Hmirror & _). done.
Qed.

Lemma addDegree_mirrors_input_witness :
  ∃ s' degreeId ref degree,
    addDegree theology calm_env empty_state = (s', Resolved degreeId) ∧
    db s' = <[ref := degree]> ∅ ∧
    d_degreeId degree = degreeId ∧
    mirrors_degree theology degree.
Proof.
  destruct (addDegree theology calm_env empty_state) as [s' r] eqn:Hrun.
  assert (r = Resolved "uuid-9") as ->.
  { apply (f_equal snd) in Hrun. simpl in Hrun. rewrite <- Hrun. by vm_compute. }
  destruct (addDegree_mirrors_input theology calm_env empty_state s' _ Hrun)
    as (ref & degree & Hdb & Hid & Hmirror).
  exists s', "uuid-9", ref, degree.
  split; [reflexivity |]. split; [exact Hdb |]. split; [exact Hid | exact Hmirror].
Defined.

(** C4.  Every identifier of the document [addDegree] writes (degreeId,
    every courseId, chapterId, lessonId and testId) is a value the
    identifier generator returned during this call, none comes from the
    authoring input; and, provided the generator never repeats a value, the
    identifiers of the document are pairwise distinct. *)
Theorem addDegree_fresh_ids degreeData e (s s' : State Degree) degreeId :
  Inj (=) (=) (uuid_stream e) →
  addDegree degreeData e s = (s', Resolved degreeId) →
  ∃ ref degree,
    db s' = <[ref := degree]> (db s) ∧
    d_degreeId degree = degreeId ∧
    NoDup (degree_ids degree) ∧
    Forall (λ id, ∃ k, (next_uuid s ≤ k < next_uuid s')%nat ∧
                       id = uuid_stream e k)
           (degree_ids degree).
Proof.
  intros Hinj (s1 & degree & Hasm & Hid & Hdb & Hnext & _)%addDegree_Resolved.
  exists (auto_id e (next_auto_id s1)), degree.
  apply assemble_yields in Hasm as ((_ & _ & Hdrawn) & _).
  repeat split; [done.. | by eapply drawn_NoDup |].
  apply Forall_forall. intros id Hin. rewrite Hnext.
  by eapply drawn_range.
Qed.

Lemma calm_uuid_stream_inj : Inj (=) (=) (uuid_stream calm_env).
Proof.
  intros n m Heq. simpl in Heq. injection Heq as Heq.
  by apply (inj pretty).
Qed.

Lemma addDegree_fresh_ids_witness :
  ∃ s' degreeId ref degree,
    addDegree theology calm_env empty_state = (s', Resolved degreeId) ∧
    db s' = <[ref := degree]> ∅ ∧
    d_degreeId degree = degreeId ∧
    NoDup (degree_ids degree) ∧
    Forall (λ id, ∃ k, (0 ≤ k < next_uuid s')%nat ∧ id = uuid_stream calm_env k)
           (degree_ids degree).
Proof.
  destruct (addDegree theology calm_env empty_state) as [s' r] eqn:Hrun.
  assert (r = Resolved "uuid-9") as ->.
  { apply (f_equal snd) in Hrun. simpl in Hrun. rewrite <- Hrun. by vm_compute. }
  destruct (addDegree_fresh_ids theology calm_env empty_state s' _
              calm_uuid_stream_inj Hrun)
    as (ref & degree & Hdb & Hid & Hnodup & Hfresh).
  exists s', "uuid-9", ref, degree.
  split; [reflexivity |]. split; [exact Hdb |]. split; [exact Hid |].
  split; [exact Hnodup | exact Hfresh].
Defined.

(** ** Totals of the tests an assembly builds *)

(** In the document [addDegree] writes, every chapter test is totalled and
    every final test still has [totalMarks] 0. *)
Lemma addDegree_test_totals degreeData e (s s' : State Degree) degreeId :
  addDegree degreeData e s = (s', Resolved degreeId) →
  ∃ ref degree,
    db s' = <[ref := degree]> (db s) ∧
    Forall (λ course, Forall totalled (chapter_tests course)) (d_courses degree) ∧
    Forall untotalled (final_tests (d_courses degree)).
Proof.
  intros (s1 & degree & Hasm & Hid & Hdb & _)%addDegree_Resolved.
  exists (auto_id e (next_auto_id s1)), degree.
  apply assemble_yields in Hasm as (_ & _ & Hchapter & Hfinal). done.
Qed.

(** C1 at a course with a final test of three questions worth 1, 2 and 3
    marks: in the document [addDegree] writes, the chapter test built from
    the same spec has [totalMarks] 6, the final test has [totalMarks] 0
    while its questions' marks add up to 6. *)
Lemma addDegree_finalTest_not_totalled :
  ∃ s' degree,
    addDegree theology calm_env empty_state = (s', Resolved "uuid-9") ∧
    db s' !! "doc-0" = Some degree ∧
    map (λ course,
           map (λ test, (t_totalMarks test, sum_marks (t_questions test)))
             (chapter_tests course))
        (d_courses degree) = [[(Num 6, 6%Z)]] ∧
    map (λ test, (t_totalMarks test, sum_marks (t_questions test)))
        (final_tests (d_courses degree)) = [(Num 0, 6%Z)].
Proof. do 2 eexists. split; [by vm_compute |]. split; by vm_compute. Qed.

(** * [editDegree] of [degreeApi.js] *)

Section EditDegree.
Implicit Types (e : Env) (s : State Degree).

(** A normal return of [editDegree]: the stored document exists and is
    patched with the returned object. *)
Lemma editDegree_Resolved degreeId updatedDegreeData e s s' updatedDegree :
  editDegree degreeId updatedDegreeData e s = (s', Resolved updatedDegree) →
  ∃ s1 degreeThumbnailUrl stored,
    uploadThumbnail_opt (ds_thumbnail updatedDegreeData) e s
      = (s1, Resolved degreeThumbnailUrl) ∧
    u_thumbnail updatedDegree = url_or_null degreeThumbnailUrl ∧
    db s !! degreeId = Some stored ∧
    db s' = <[degreeId := apply_update updatedDegree stored]> (db s).
Proof.
  unfold editDegree. intros H. resolved_step.
  apply bind_Resolved in H as (s1 & url & Hthumb & H).
  apply bind_Resolved in H as (s2 & courses & Hcourses & H).
  apply bind_Resolved in H as (s3 & updatedAt & Hnow & H).
  apply bind_Resolved in H as (s4 & u & Hupdate & H).
  apply bind_Resolved in H as (s5 & u' & Hlog & H).
  resolved_step. apply Date_now_Resolved in Hnow as [-> ->].
  injection Hlog as <-.
  pose proof (uploadThumbnail_opt_same_db (ds_thumbnail updatedDegreeData) e s) as Hdb1.
  pose proof (frames_promise_all same_db reformatCourse
                (ds_courses updatedDegreeData) reformatCourse_same_db e s1) as Hdb2.
  rewrite Hthumb in Hdb1. rewrite Hcourses in Hdb2.
  unfold same_db in Hdb1, Hdb2. simpl in Hdb1, Hdb2.
  unfold updateDoc in Hupdate.
  destruct (db s2 !! degreeId) as [stored|] eqn:Hstored; [| discriminate].
  destruct (updateDoc_ok e); [| discriminate].
  injection Hupdate as <-. simpl.
  exists s1, url, stored. rewrite <- Hdb1, <- Hdb2. done.
Qed.

End EditDegree.

(** C10.  When the update request supplies no thumbnail and [editDegree]
    writes, the written document's top-level [thumbnail] is null, whatever
    thumbnail URL the stored document had: the stored URL is overwritten,
    not preserved. *)
Theorem editDegree_without_thumbnail_nulls_it degreeId updatedDegreeData e
    (s s' : State Degree) updatedDegree :
  ds_thumbnail updatedDegreeData = None →
  editDegree degreeId updatedDegreeData e s = (s', Resolved updatedDegree) →
  ∃ stored written,
    db s !! degreeId = Some stored ∧
    db s' = <[degreeId := written]> (db s) ∧
    written = apply_update updatedDegree stored ∧
    d_thumbnail written = None.
Proof.
  intros Hnone (s1 & url & stored & Hthumb & Hurl & Hstored & Hdb)%editDegree_Resolved.
  exists stored, (apply_update updatedDegree stored).
  repeat split; [done.. |]. simpl. rewrite Hurl.
  rewrite Hnone in Hthumb. by injection Hthumb as <- <-.
Qed.

Lemma editDegree_without_thumbnail_nulls_it_witness :
  ∃ s' updatedDegree stored written,
    editDegree "doc-0" theology_retitled calm_env plain_added
      = (s', Resolved updatedDegree) ∧
    db plain_added !! "doc-0" = Some stored ∧
    d_thumbnail stored = Some "https://storage.example/thumbnails/uuid-0_cover.png" ∧
    db s' = <[ "doc-0" := written ]> (db plain_added) ∧
    written = apply_update updatedDegree stored ∧
    d_thumbnail written = None.
Proof.
  destruct (editDegree "doc-0" theology_retitled calm_env plain_added)
    as [s' r] eqn:Hrun.
  assert (∃ updatedDegree, r = Resolved updatedDegree) as [updatedDegree ->].
  { apply (f_equal snd) in Hrun. simpl in Hrun. rewrite <- Hrun.
    eexists. by vm_compute. }
  destruct (editDegree_without_thumbnail_nulls_it "doc-0" theology_retitled
              calm_env plain_added s' updatedDegree eq_refl Hrun)
    as (stored & written & Hstored & Hdb & Hwritten & Hnull).
  exists s', updatedDegree, stored, written.
  split; [reflexivity |]. split; [exact Hstored |].
  split; [| split; [exact Hdb | split; [exact Hwritten | exact Hnull]]].
  vm_compute in Hstored. injection Hstored as <-. reflexivity.
Defined.

(** C1 on the edit path: [updateTest] calls a method its object does not
    have, so re-submitting a degree that has any test fails as a whole and
    nothing is rebuilt. *)
Lemma editDegree_with_test_fails :
  ∃ s', editDegree "doc-0" theology calm_env plain_added
          = (s', Rejected DegreeUpdateFailed) ∧
        db s' = db plain_added ∧
        last (console s')
        = Some (ConsoleError "Error updating degree:"
                  (TypeError "calculateTotalMarks is not a function")).
Proof. eexists. split; [by vm_compute |]. split; by vm_compute. Qed.

(** * The sub-entity mutator *)

Section MutatorFacts.
Implicit Types (e : Env) (s : State Mutator.Degree).

Lemma Mutator_uploadFile_same_db file : frames same_db (Mutator.uploadFile file).
Proof. unfold Mutator.uploadFile. solve_frames. Qed.

Lemma Mutator_createTestObject_same_db testData :
  frames same_db (Mutator.createTestObject testData).
Proof. unfold Mutator.createTestObject. solve_frames. Qed.

Hint Resolve Mutator_uploadFile_same_db Mutator_createTestObject_same_db : frames.

Lemma appendCourse_same_db degreeData spec :
  frames same_db (Mutator.appendCourse degreeData spec).
Proof. unfold Mutator.appendCourse. solve_frames. Qed.

Lemma appendChapter_same_db degreeData spec :
  frames same_db (Mutator.appendChapter degreeData spec).
Proof. unfold Mutator.appendChapter. solve_frames. Qed.

Lemma appendLesson_same_db degreeData spec :
  frames same_db (Mutator.appendLesson degreeData spec).
Proof. unfold Mutator.appendLesson. solve_frames. Qed.

Hint Resolve appendCourse_same_db appendChapter_same_db appendLesson_same_db
  : frames.

Lemma when_present_same_db {A} (member : option A) block degreeData :
  (∀ data spec, frames same_db (block data spec)) →
  frames same_db (Mutator.when_present member block degreeData).
Proof. intros Hblock. unfold Mutator.when_present. solve_frames. Qed.

(** [editDegree] never throws: its handler returns [false]. *)
Lemma Mutator_editDegree_returns degreeId updates e s :
  ∃ s' done, Mutator.editDegree degreeId updates e s = (s', Resolved done).
Proof.
  unfold Mutator.editDegree, try_catch.
  match goal with |- context [let (_, _) := ?m e s in _] => destruct (m e s) as [s1 [b|err]] end.
  - eauto.
  - rewrite run_bind. simpl. eauto.
Qed.

(** When [editDegree] returns [false], nothing was written. *)
Lemma Mutator_editDegree_false_same_db degreeId updates e s s' :
  Mutator.editDegree degreeId updates e s = (s', Resolved false) →
  db s' = db s.
Proof.
  unfold Mutator.editDegree, try_catch.
  match goal with
  | |- context [let (_, _) := ?body e s in _] =>
      destruct (body e s) as [s1 [done|err]] eqn:Hbody
  end.
  - intros [= <- ->]. exfalso.
    apply bind_Resolved in Hbody as (s0 & [|[degreeRef degreeData] rest] & _ & H);
      [discriminate |].
    repeat (apply bind_Resolved in H as (? & ? & _ & H)).
    apply mret_Resolved in H as [_ [=]].
  - rewrite run_bind. simpl. intros [= <-]. simpl.
    apply bind_Rejected in Hbody as [Hdocs | (s0 & docs & Hdocs & H)].
    + pose proof (getDocs_where_same_db
                    (λ degree, bool_decide (Mutator.d_degreeId degree = degreeId))
                    e s) as Hdb.
      by rewrite Hdocs in Hdb.
    + assert (db s0 = db s) as <-.
      { pose proof (getDocs_where_same_db
                      (λ degree, bool_decide (Mutator.d_degreeId degree = degreeId))
                      e s) as Hdb.
        by rewrite Hdocs in Hdb. }
      destruct docs as [|[degreeRef degreeData] rest]; [by injection H as <- |].
      simpl in H.
      apply bind_Rejected in H as [H | (s2 & data1 & H1 & H)].
      { pose proof (when_present_same_db (Mutator.newCourse updates)
                      Mutator.appendCourse degreeData appendCourse_same_db e s0) as Hdb.
        by rewrite H in Hdb. }
      assert (db s2 = db s0) as <-.
      { pose proof (when_present_same_db (Mutator.newCourse updates)
                      Mutator.appendCourse degreeData appendCourse_same_db e s0) as Hdb.
        by rewrite H1 in Hdb. }
      apply bind_Rejected in H as [H | (s3 & data2 & H2 & H)].
      { pose proof (when_present_same_db (Mutator.newChapter updates)
                      Mutator.appendChapter data1 appendChapter_same_db e s2) as Hdb.
        by rewrite H in Hdb. }
      assert (db s3 = db s2) as <-.
      { pose proof (when_present_same_db (Mutator.newChapter updates)
                      Mutator.appendChapter data1 appendChapter_same_db e s2) as Hdb.
        by rewrite H2 in Hdb. }
      apply bind_Rejected in H as [H | (s4 & data3 & H3 & H)].
      { pose proof (when_present_same_db (Mutator.newLesson updates)
                      Mutator.appendLesson data2 appendLesson_same_db e s3) as Hdb.
        by rewrite H in Hdb. }
      assert (db s4 = db s3) as <-.
      { pose proof (when_present_same_db (Mutator.newLesson updates)
                      Mutator.appendLesson data2 appendLesson_same_db e s3) as Hdb.
        by rewrite H3 in Hdb. }
      apply bind_Rejected in H as [H | (s5 & u & H4 & H)].
      { unfold updateDoc in H. repeat case_match; by simplify_eq. }
      apply bind_Rejected in H as [H | (s6 & u' & _ & H)]; discriminate.
Qed.

Lemma findIndex_course_None courses courseId :
  courseId ∉ map Mutator.c_courseId courses →
  Mutator.findIndex_course courses courseId = None.
Proof.
  intros Hnotin. unfold Mutator.findIndex_course.
  rewrite (proj2 (list_find_None _ courses)); [done |].
  apply Forall_forall. intros course Hin Heq. apply Hnotin.
  rewrite <- Heq. by apply list_elem_of_fmap_2.
Qed.

Lemma findIndex_chapter_None chapters chapterId :
  chapterId ∉ map Mutator.ch_chapterId chapters →
  Mutator.findIndex_chapter chapters chapterId = None.
Proof.
  intros Hnotin. unfold Mutator.findIndex_chapter.
  rewrite (proj2 (list_find_None _ chapters)); [done |].
  apply Forall_forall. intros chapter Hin Heq. apply Hnotin.
  rewrite <- Heq. by apply list_elem_of_fmap_2.
Qed.

(** The [newLesson] block throws as soon as the course or the chapter is
    not found, before any upload. *)
Lemma appendLesson_no_place degreeData lesson e s :
  no_place_for lesson (Mutator.d_courses degreeData) →
  ∃ err,
    (err = CourseNotFound (Mutator.nl_courseId lesson) ∨
     err = ChapterNotFound (Mutator.nl_chapterId lesson)) ∧
    Mutator.appendLesson degreeData lesson e s = (s, Rejected err).
Proof.
  intros Hnone. unfold Mutator.appendLesson.
  destruct (Mutator.findIndex_course _ _) as [courseIndex|] eqn:Hcourse;
    [| eauto].
  unfold Mutator.findIndex_course in Hcourse.
  destruct (list_find _ _) as [[i course]|] eqn:Hfind; [| done].
  injection Hcourse as <-. apply list_find_Some in Hfind as (Hlook & Hid & _).
  rewrite Hlook. simpl. rewrite findIndex_chapter_None; [eauto |].
  unfold no_place_for in Hnone. rewrite Forall_lookup in Hnone.
  by eapply Hnone.
Qed.

(** A lesson whose course or chapter is not in the stored tree has no
    place in it. *)
Lemma stored_no_place degreeData lesson :
  Mutator.nl_courseId lesson ∉ stored_courseIds degreeData ∨
  Mutator.nl_chapterId lesson ∉ stored_chapterIds degreeData →
  no_place_for lesson (Mutator.d_courses degreeData).
Proof.
  intros Hmissing. apply Forall_forall. intros course Hin Hid Hchapter.
  destruct Hmissing as [Hmissing | Hmissing]; apply Hmissing.
  - rewrite <- Hid. unfold stored_courseIds. by apply list_elem_of_fmap_2.
  - unfold stored_chapterIds. apply list_elem_of_In, in_flat_map.
    exists course. split; by apply list_elem_of_In.
Qed.

Lemma appendLesson_not_found degreeData lesson e s :
  Mutator.nl_courseId lesson ∉ stored_courseIds degreeData ∨
  Mutator.nl_chapterId lesson ∉ stored_chapterIds degreeData →
  ∃ err,
    (err = CourseNotFound (Mutator.nl_courseId lesson) ∨
     err = ChapterNotFound (Mutator.nl_chapterId lesson)) ∧
    Mutator.appendLesson degreeData lesson e s = (s, Rejected err).
Proof. intros Hmissing. by apply appendLesson_no_place, stored_no_place. Qed.

(** What one call of the mutator's [uploadFile] does to the state: it
    stores at most the file, and every failure is 'File upload failed'. *)
Lemma Mutator_uploadFile_effect file e s :
  ∃ s' r,
    Mutator.uploadFile file e s = (s', r) ∧
    db s' = db s ∧
    (store s' = store s ∨ ∃ path, store s' = store s ++ [(path, file)]) ∧
    ∀ err, r = Rejected err → err = FileUploadFailed.
Proof.
  unfold Mutator.uploadFile, try_catch.
  destruct (prop_truthy _); simpl;
    [| eexists _, _; split; [reflexivity |]; simpl;
       split; [done |]; split; [by left | by intros ? [= <-]]].
  cbv [mbind Async_bind bind mret Async_ret ret throw template_text uuidv4
       uploadBytes getDownloadURL getMediaDuration]; simpl.
  destruct (uploadBytes_ok e _ file); simpl;
    [| eexists _, _; split; [reflexivity |]; simpl;
       split; [done |]; split; [by left | by intros ? [= <-]]].
  destruct (downloadURL e _); simpl;
    [| eexists _, _; split; [reflexivity |]; simpl;
       split; [done |]; split; [right; by eexists | by intros ? [= <-]]].
  destruct (_ || _); [destruct (media_event e _ file) |];
    (eexists _, _; split; [reflexivity |]; simpl;
     split; [done |]; split; [right; by eexists | by intros ? [=]]).
Qed.

(** The [newCourse] block: it stores at most the thumbnail of the new
    course, fails only when that upload fails, and appends a course that
    has no chapters. *)
Lemma newCourse_block updates lesson degreeData e s :
  no_place_for lesson (Mutator.d_courses degreeData) →
  ∃ s1 r,
    Mutator.when_present (Mutator.newCourse updates) Mutator.appendCourse
      degreeData e s = (s1, r) ∧
    db s1 = db s ∧
    match new_thumbnail updates with
    | Some thumbnail =>
        store s1 = store s ∨ ∃ path, store s1 = store s ++ [(path, thumbnail)]
    | None => store s1 = store s ∧ console s1 = console s
    end ∧
    match r with
    | Resolved data1 => no_place_for lesson (Mutator.d_courses data1)
    | Rejected err => err = FileUploadFailed ∧ new_thumbnail updates ≠ None
    end.
Proof.
  intros Hnone. unfold Mutator.when_present, new_thumbnail.
  destruct (Mutator.newCourse updates) as [spec|];
    [| by eexists _, _].
  unfold Mutator.appendCourse.
  assert (∀ thumbnail finalTest,
            no_place_for lesson
              (Mutator.d_courses
                 (Mutator.push_course degreeData
                    {| Mutator.c_courseId := uuid_stream e (next_uuid s);
                       Mutator.c_courseTitle := Mutator.nc_title spec;
                       Mutator.c_description := Mutator.nc_description spec;
                       Mutator.c_thumbnail := thumbnail;
                       Mutator.c_price := Mutator.nc_price spec;
                       Mutator.c_chapters := [];
                       Mutator.c_finalTest := finalTest;
                       Mutator.c_overviewPoints :=
                         Mutator.nc_overviewPoints spec |}))) as Hpushed.
  { intros thumbnail finalTest. simpl. apply Forall_app. split; [done |].
    apply Forall_singleton. intros _. simpl. apply not_elem_of_nil. }
  rewrite run_bind. simpl.
  destruct (Mutator.nc_thumbnail spec) as [file|].
  - rewrite !run_bind.
    destruct (Mutator_uploadFile_effect file e
                (mkState (S (next_uuid s)) (next_auto_id s) (store s) (db s)
                   (console s)))
      as (s1 & r & Hrun & Hdb & Hstore & Herr).
    simpl in Hdb, Hstore.
    rewrite Hrun. destruct r as [asset|err].
    + simpl. rewrite run_bind.
      destruct (Mutator.nc_finalTest spec) as [testData|]; simpl;
        (eexists _, _; split; [reflexivity |]; simpl;
         split; [exact Hdb |]; split; [exact Hstore | apply Hpushed]).
    + rewrite (Herr err eq_refl).
      eexists _, _. split; [reflexivity |]. by repeat split.
  - rewrite !run_bind. simpl.
    destruct (Mutator.nc_finalTest spec) as [testData|]; simpl;
      (eexists _, _; split; [reflexivity |]; simpl;
       split; [done |]; split; [done | apply Hpushed]).
Qed.

(** The [newChapter] block: it touches neither the object store nor the
    console, fails only when its course is not found, and appends a chapter
    whose identifier is fresh. *)
Lemma newChapter_block updates lesson data1 e s :
  no_place_for lesson (Mutator.d_courses data1) →
  Mutator.newChapter updates = None ∨
  (∀ k, uuid_stream e k ≠ Mutator.nl_chapterId lesson) →
  ∃ s2 r,
    Mutator.when_present (Mutator.newChapter updates) Mutator.appendChapter
      data1 e s = (s2, r) ∧
    db s2 = db s ∧ store s2 = store s ∧ console s2 = console s ∧
    match r with
    | Resolved data2 => no_place_for lesson (Mutator.d_courses data2)
    | Rejected err =>
        ∃ chapter, Mutator.newChapter updates = Some chapter ∧
                   err = CourseNotFound (Mutator.nch_courseId chapter)
    end.
Proof.
  intros Hnone Hfresh. unfold Mutator.when_present.
  destruct (Mutator.newChapter updates) as [chapter|]; [| by eexists _, _].
  destruct Hfresh as [[=] | Hfresh].
  unfold Mutator.appendChapter.
  destruct (Mutator.findIndex_course _ _) as [courseIndex|];
    [| eexists _, _; split; [reflexivity |]; repeat split; eauto].
  eexists _, _. split; [reflexivity |]. simpl. repeat split.
  apply Forall_alter; [done |].
  intros course Hlook Hcourse Hid. simpl in *.
  rewrite map_app, elem_of_app. intros [Hin | Hin]; [by apply Hcourse |].
  simpl in Hin. apply list_elem_of_singleton in Hin. by eapply Hfresh.
Qed.

End MutatorFacts.

(** C5, amended.  For a stored degree and a request whose [newLesson] names
    a [courseId] or a [chapterId] that does not exist in the stored tree
    (if the request also carries a [newChapter], the lesson's [chapterId]
    is not an identifier the generator hands out): [editDegree] does not
    propagate an error; the error is caught and logged inside [editDegree]
    as the last entry of the console, and the caller receives the return
    value [false].  The stored degree documents are left completely
    unchanged (no write is issued) and the lesson's file is not uploaded:
    the only object the call can add to the object store is the thumbnail
    of a [newCourse] of the same request.  The logged error is the NotFound
    error of the [newLesson] block, unless the upload of that thumbnail or
    the [newChapter] block of the same request failed first.  For a request
    without such a thumbnail, in particular one that carries only
    [newLesson], nothing is uploaded and that one error is all that is
    logged. *)
Theorem editDegree_newLesson_not_found degreeId updates lesson e
    (s : State Mutator.Degree) degreeRef degreeData others :
  getDocs_ok e = true →
  degrees_with_id s degreeId = (degreeRef, degreeData) :: others →
  Mutator.newLesson updates = Some lesson →
  Mutator.nl_courseId lesson ∉ stored_courseIds degreeData ∨
  Mutator.nl_chapterId lesson ∉ stored_chapterIds degreeData →
  Mutator.newChapter updates = None ∨
  (∀ k, uuid_stream e k ≠ Mutator.nl_chapterId lesson) →
  ∃ s' err,
    Mutator.editDegree degreeId updates e s = (s', Resolved false) ∧
    db s' = db s ∧
    last (console s') = Some (ConsoleError "Error updating degree:" err) ∧
    (err = CourseNotFound (Mutator.nl_courseId lesson) ∨
     err = ChapterNotFound (Mutator.nl_chapterId lesson) ∨
     (new_thumbnail updates ≠ None ∧ err = FileUploadFailed) ∨
     (∃ chapter, Mutator.newChapter updates = Some chapter ∧
                 err = CourseNotFound (Mutator.nch_courseId chapter))) ∧
    match new_thumbnail updates with
    | Some thumbnail =>
        store s' = store s ∨ ∃ path, store s' = store s ++ [(path, thumbnail)]
    | None =>
        store s' = store s ∧
        console s' = console s ++ [ConsoleError "Error updating degree:" err]
    end.
Proof.
  intros Hdocs Hquery Hlesson Hmissing Hfresh.
  apply stored_no_place in Hmissing.
  unfold Mutator.editDegree, try_catch. rewrite run_bind.
  unfold getDocs_where. rewrite Hdocs.
  unfold degrees_with_id in Hquery. rewrite Hquery. cbv zeta. simpl fst. simpl snd.
  rewrite run_bind.
  destruct (newCourse_block updates lesson degreeData e s Hmissing)
    as (s1 & r1 & Hrun1 & Hdb1 & Hstore1 & Hr1).
  rewrite Hrun1. destruct r1 as [data1|err1].
  2: { destruct Hr1 as [-> Hthumbnail].
       eexists _, FileUploadFailed. split; [reflexivity |]. simpl.
       split; [done |]. split; [apply last_snoc |].
       split; [by right; right; left |].
       by destruct (new_thumbnail updates). }
  rewrite run_bind.
  destruct (newChapter_block updates lesson data1 e s1 Hr1 Hfresh)
    as (s2 & r2 & Hrun2 & Hdb2 & Hstore2 & Hconsole2 & Hr2).
  rewrite Hrun2. destruct r2 as [data2|err2].
  2: { destruct Hr2 as (chapter & Hchapter & ->).
       eexists _, _. split; [reflexivity |]. simpl.
       split; [congruence |]. split; [apply last_snoc |].
       split; [right; right; right; eauto |].
       rewrite Hstore2, Hconsole2.
       destruct (new_thumbnail updates); [done |].
       destruct Hstore1 as [-> ->]. done. }
  rewrite run_bind, Hlesson. unfold Mutator.when_present.
  destruct (appendLesson_no_place data2 lesson e s2 Hr2) as (err & Herr & Hthrow).
  rewrite Hthrow.
  eexists _, err. split; [reflexivity |]. simpl.
  split; [congruence |]. split; [apply last_snoc |].
  split; [destruct Herr; auto |].
  rewrite Hstore2, Hconsole2.
  destruct (new_thumbnail updates); [done |].
  destruct Hstore1 as [-> ->]. done.
Qed.

Lemma editDegree_newLesson_not_found_witness :
  ∃ s' err,
    Mutator.editDegree "degree-1" course_and_lesson calm_env one_degree
      = (s', Resolved false) ∧
    db s' = db one_degree ∧
    last (console s') = Some (ConsoleError "Error updating degree:" err) ∧
    (err = CourseNotFound "course-1" ∨
     err = ChapterNotFound "chapter-9" ∨
     (new_thumbnail course_and_lesson ≠ None ∧ err = FileUploadFailed) ∨
     (∃ chapter, Mutator.newChapter course_and_lesson = Some chapter ∧
                 err = CourseNotFound (Mutator.nch_courseId chapter))) ∧
    (store s' = [] ∨ ∃ path, store s' = [(path, cover_image)]).
Proof.
  apply (editDegree_newLesson_not_found "degree-1" course_and_lesson
           (welcome_lesson "course-1" "chapter-9") calm_env one_degree
           "doc-0" stored_degree []).
  - reflexivity.
  - vm_compute. reflexivity.
  - reflexivity.
  - right. intros Hin. apply list_elem_of_singleton in Hin. discriminate.
  - left. reflexivity.
Defined.

(** The run of [course_and_lesson] in full: the thumbnail of the new course is
    stored before the [newLesson] block throws, nothing is written to the
    collection, and the one error logged is the NotFound error. *)
Lemma editDegree_course_and_lesson_run :
  ∃ s', Mutator.editDegree "degree-1" course_and_lesson calm_env one_degree
          = (s', Resolved false) ∧
        store s' = [("images/uuid-1_cover.png", cover_image)] ∧
        db s' = db one_degree ∧
        console s' = [ConsoleError "Error updating degree:"
                        (ChapterNotFound "chapter-9")].
Proof.
  eexists. split; [vm_compute; reflexivity |].
  split; [reflexivity |]. split; reflexivity.
Qed.

(** C5 as stated fails: for a chapter that does not exist [editDegree] does
    not fail with an error; it returns [false]. *)
Lemma editDegree_newLesson_not_found_returns_false :
  (Mutator.editDegree "degree-1" (lesson_for "course-1" "chapter-9")
     calm_env one_degree).2 = Resolved false ∧
  ∀ err, (Mutator.editDegree "degree-1" (lesson_for "course-1" "chapter-9")
            calm_env one_degree).2 ≠ Rejected err.
Proof. split; [by vm_compute | intros err; by vm_compute]. Qed.

(** * Further properties of the asset uploader *)

Section UploaderRuns.
Context {Doc : Type}.
Implicit Types (e : Env) (s : State Doc).

(** The run of [uploadFile] in a module that does not bind
    [getMediaDuration], case by case. *)
Lemma uploadFile_in_None_run file e s :
  uploadFile_in None file e s
  = if negb (guard_accepts file)
    then (logged s (ConsoleError "Error uploading file:"
                      (UnsupportedFileType (file_type file))),
          Rejected FileUploadFailed)
    else if uploadBytes_ok e (upload_path e s file) file
    then match downloadURL e (upload_path e s file) with
         | Some url =>
             if is_media file
             then (logged (stored s (upload_path e s file) file)
                     (ConsoleError "Error uploading file:"
                        (ReferenceError "getMediaDuration")),
                   Rejected FileUploadFailed)
             else (stored s (upload_path e s file) file,
                   Resolved {| fa_url := url;
                               fa_type := split_slash_0 (file_type file);
                               fa_name := file_name file;
                               fa_duration := None |})
         | None =>
             (logged (stored s (upload_path e s file) file)
                (ConsoleError "Error uploading file:" StorageError),
              Rejected FileUploadFailed)
         end
    else (logged (drew s) (ConsoleError "Error uploading file:" StorageError),
          Rejected FileUploadFailed).
Proof.
  unfold uploadFile_in, try_catch, guard_accepts, upload_path, is_media.
  destruct (prop_truthy _); simpl; [| done].
  cbv [mbind Async_bind bind mret Async_ret ret throw template_text uuidv4
       uploadBytes getDownloadURL]; simpl.
  fold (folder_text e (js_get SUPPORTED_FILE_FOLDERS (split_slash_0 (file_type file)))).
  destruct (uploadBytes_ok e _ file); simpl; [| done].
  destruct (downloadURL e _); simpl; [| done].
  by destruct (_ || _).
Qed.

(** The run of [uploadFile] in a module that defines [getMediaDuration]. *)
Lemma uploadFile_in_Some_run file e s :
  uploadFile_in (Some getMediaDuration) file e s
  = if negb (guard_accepts file)
    then (logged s (ConsoleError "Error uploading file:"
                      (UnsupportedFileType (file_type file))),
          Rejected FileUploadFailed)
    else if uploadBytes_ok e (upload_path e s file) file
    then match downloadURL e (upload_path e s file) with
         | Some url =>
             (stored s (upload_path e s file) file,
              Resolved {| fa_url := url;
                          fa_type := split_slash_0 (file_type file);
                          fa_name := file_name file;
                          fa_duration := if is_media file
                                         then probed_duration e file else None |})
         | None =>
             (logged (stored s (upload_path e s file) file)
                (ConsoleError "Error uploading file:" StorageError),
              Rejected FileUploadFailed)
         end
    else (logged (drew s) (ConsoleError "Error uploading file:" StorageError),
          Rejected FileUploadFailed).
Proof.
  unfold uploadFile_in, try_catch, guard_accepts, upload_path, is_media,
    probed_duration.
  destruct (prop_truthy _); simpl; [| done].
  cbv [mbind Async_bind bind mret Async_ret ret throw template_text uuidv4
       uploadBytes getDownloadURL getMediaDuration]; simpl.
  fold (folder_text e (js_get SUPPORTED_FILE_FOLDERS (split_slash_0 (file_type file)))).
  destruct (uploadBytes_ok e _ file); simpl; [| done].
  destruct (downloadURL e _); simpl; [| done].
  destruct (_ || _); [| done]. by destruct (media_event e _ file).
Qed.

(** The run of [uploadThumbnail]. *)
Lemma uploadThumbnail_run file e s :
  uploadThumbnail file e s
  = if uploadBytes_ok e (thumbnail_path e s file) file
    then match downloadURL e (thumbnail_path e s file) with
         | Some url => (stored s (thumbnail_path e s file) file, Resolved url)
         | None =>
             (logged (stored s (thumbnail_path e s file) file)
                (ConsoleError "Error uploading thumbnail:" StorageError),
              Rejected ThumbnailUploadFailed)
         end
    else (logged (drew s) (ConsoleError "Error uploading thumbnail:" StorageError),
          Rejected ThumbnailUploadFailed).
Proof.
  unfold uploadThumbnail, try_catch, thumbnail_path.
  cbv [mbind Async_bind bind mret Async_ret ret throw uuidv4
       uploadBytes getDownloadURL]; simpl.
  destruct (uploadBytes_ok e _ file); simpl; [| done].
  by destruct (downloadURL e _).
Qed.

End UploaderRuns.

(** X1.  [uploadFile], in [degreeApi.js] and in the module that defines
    [getMediaDuration] alike, writes at most one object: the file, under
    its path, exactly when the guard lets the file through and the write
    succeeds.  What happens after the write (no URL, no duration) does not
    take the object back. *)
Theorem uploadFile_store_effect (file : File) e (s : State Degree) :
  store (uploadFile file e s).1
  = (if guard_accepts file && uploadBytes_ok e (upload_path e s file) file
     then store s ++ [(upload_path e s file, file)] else store s) ∧
  store (MediaApi.uploadFile file e s).1 = store (uploadFile file e s).1.
Proof.
  unfold uploadFile, MediaApi.uploadFile.
  rewrite uploadFile_in_None_run, uploadFile_in_Some_run.
  destruct (guard_accepts file); simpl; [| done].
  destruct (uploadBytes_ok e _ file); simpl; [| done].
  destruct (downloadURL e _); simpl; [| done].
  by destruct (is_media file).
Qed.

(** X2.  [uploadFile] is not atomic: when the file passes the guard and
    its bytes are stored but no download URL can be obtained, the call
    fails with 'File upload failed' and the stored object stays in the
    object store. *)
Theorem uploadFile_url_failure_leaves_object (file : File) e (s : State Degree) :
  guard_accepts file = true →
  uploadBytes_ok e (upload_path e s file) file = true →
  downloadURL e (upload_path e s file) = None →
  ∃ s', uploadFile file e s = (s', Rejected FileUploadFailed) ∧
        store s' = store s ++ [(upload_path e s file, file)] ∧
        console s' = console s ++ [ConsoleError "Error uploading file:" StorageError].
Proof.
  intros Hguard Hbytes Hurl. unfold uploadFile.
  rewrite uploadFile_in_None_run, Hguard, Hbytes, Hurl. simpl. eauto.
Qed.

Lemma uploadFile_url_failure_leaves_object_witness :
  ∃ s', uploadFile cover_image no_url_env (empty_state (Doc := Degree))
          = (s', Rejected FileUploadFailed) ∧
        store s' = [("images/uuid-0_cover.png", cover_image)] ∧
        console s' = [ConsoleError "Error uploading file:" StorageError].
Proof.
  apply (uploadFile_url_failure_leaves_object cover_image no_url_env empty_state);
    reflexivity.
Defined.

(** X3.  In [degreeApi.js] a file of a supported category other than video
    and audio whose bytes are stored and whose URL is obtained is uploaded:
    the asset has the URL, the primary category as type, the file's name
    and a null duration; one identifier is used and nothing is logged. *)
Theorem uploadFile_plain_file (file : File) e (s : State Degree) url :
  guard_accepts file = true →
  is_media file = false →
  uploadBytes_ok e (upload_path e s file) file = true →
  downloadURL e (upload_path e s file) = Some url →
  uploadFile file e s
  = (stored s (upload_path e s file) file,
     Resolved {| fa_url := url; fa_type := split_slash_0 (file_type file);
                 fa_name := file_name file; fa_duration := None |}).
Proof.
  intros Hguard Hmedia Hbytes Hurl. unfold uploadFile.
  by rewrite uploadFile_in_None_run, Hguard, Hbytes, Hurl, Hmedia.
Qed.

Lemma uploadFile_plain_file_witness :
  uploadFile cover_image calm_env (empty_state (Doc := Degree))
  = (mkState 1 0 [("images/uuid-0_cover.png", cover_image)] ∅ [],
     Resolved {| fa_url := "https://storage.example/images/uuid-0_cover.png";
                 fa_type := "image"; fa_name := "cover.png";
                 fa_duration := None |}).
Proof.
  apply (uploadFile_plain_file cover_image calm_env empty_state); reflexivity.
Defined.

(** X4.  Where [getMediaDuration] is defined, a video or audio file whose
    bytes are stored, whose URL is obtained and whose metadata the media
    element loads is uploaded with the duration the element reports. *)
Theorem uploadFile_media_duration (file : File) e (s : State Degree) url duration :
  is_media file = true →
  uploadBytes_ok e (upload_path e s file) file = true →
  downloadURL e (upload_path e s file) = Some url →
  media_event e (if String.prefix "audio" (file_type file) then "audio" else "video")
    file = LoadedMetadata duration →
  MediaApi.uploadFile file e s
  = (stored s (upload_path e s file) file,
     Resolved {| fa_url := url; fa_type := split_slash_0 (file_type file);
                 fa_name := file_name file; fa_duration := Some duration |}).
Proof.
  intros Hmedia Hbytes Hurl Hevent. unfold MediaApi.uploadFile.
  rewrite uploadFile_in_Some_run.
  assert (guard_accepts file = true) as ->.
  { unfold is_media in Hmedia. unfold guard_accepts.
    apply orb_true_iff in Hmedia as [Hc | Hc];
      apply bool_decide_eq_true_1 in Hc; by rewrite Hc. }
  rewrite Hbytes, Hurl, Hmedia. simpl.
  unfold probed_duration. by rewrite Hevent.
Qed.

Lemma uploadFile_media_duration_witness :
  MediaApi.uploadFile welcome_video playing_env (empty_state (Doc := Degree))
  = (mkState 1 0 [("videos/uuid-0_welcome.mp4", welcome_video)] ∅ [],
     Resolved {| fa_url := "https://storage.example/videos/uuid-0_welcome.mp4";
                 fa_type := "video"; fa_name := "welcome.mp4";
                 fa_duration := Some (Num 95) |}).
Proof.
  apply (uploadFile_media_duration welcome_video playing_env empty_state);
    reflexivity.
Defined.

(** X5.  The guard of [uploadFile] reads [SUPPORTED_FILE_FOLDERS[fileType]]
    on a plain object, so a primary category that is the name of a property
    every object inherits (constructor, toString, ...) passes it: the file
    is stored under the text the host prints for that property and the
    upload succeeds. *)
Theorem uploadFile_inherited_category (file : File) e (s : State Degree) url :
  let category := split_slash_0 (file_type file) in
  let path := host_text e category +:+ "/" +:+ uuid_stream e (next_uuid s)
              +:+ "_" +:+ file_name file in
  category ∈ Object_prototype_keys →
  uploadBytes_ok e path file = true →
  downloadURL e path = Some url →
  uploadFile file e s
  = (stored s path file,
     Resolved {| fa_url := url; fa_type := category;
                 fa_name := file_name file; fa_duration := None |}).
Proof.
  intros category path Hin Hbytes Hurl.
  assert (js_get SUPPORTED_FILE_FOLDERS category = Inherited category
          ∧ is_media file = false) as [Hget Hmedia].
  { unfold is_media. fold category. clearbody category.
    unfold Object_prototype_keys in Hin.
    repeat (apply elem_of_cons in Hin as [-> | Hin]; [by vm_compute |]).
    by apply elem_of_nil in Hin. }
  assert (upload_path e s file = path) as Hpath.
  { unfold upload_path. fold category. by rewrite Hget. }
  assert (guard_accepts file = true) as Hguard.
  { unfold guard_accepts. fold category. by rewrite Hget. }
  unfold uploadFile.
  by rewrite uploadFile_in_None_run, Hguard, Hpath, Hbytes, Hurl, Hmedia.
Qed.

Lemma uploadFile_inherited_category_witness :
  uploadFile odd_file calm_env (empty_state (Doc := Degree))
  = (mkState 1 0 [("[native constructor]/uuid-0_odd.bin", odd_file)] ∅ [],
     Resolved {| fa_url := "https://storage.example/[native constructor]/uuid-0_odd.bin";
                 fa_type := "constructor"; fa_name := "odd.bin";
                 fa_duration := None |}).
Proof.
  apply (uploadFile_inherited_category odd_file calm_env empty_state);
    [| reflexivity | reflexivity].
  apply list_elem_of_here.
Defined.

(** X6.  [uploadThumbnail] never looks at the file's type.  It always uses
    one identifier and never touches the collection; it returns the URL
    exactly when the write and the URL request succeed, and then one object
    was stored under thumbnails/; in every other case the caller gets
    'Thumbnail upload failed' and the cause is only logged. *)
Theorem uploadThumbnail_outcome (file : File) e (s : State Degree) :
  let path := thumbnail_path e s file in
  let (s', r) := uploadThumbnail file e s in
  next_uuid s' = S (next_uuid s) ∧ db s' = db s ∧
  match r with
  | Resolved url =>
      uploadBytes_ok e path file = true ∧ downloadURL e path = Some url ∧
      store s' = store s ++ [(path, file)] ∧ console s' = console s
  | Rejected err =>
      err = ThumbnailUploadFailed ∧
      (uploadBytes_ok e path file = false ∨ downloadURL e path = None) ∧
      console s' = console s
                   ++ [ConsoleError "Error uploading thumbnail:" StorageError]
  end.
Proof.
  intros path. rewrite uploadThumbnail_run. fold path.
  destruct (uploadBytes_ok e path file) eqn:Hbytes;
    [| simpl; repeat split; auto].
  destruct (downloadURL e path) eqn:Hurl; simpl; repeat split; auto.
Qed.

(** X7.  In [degreeApi.js] no video or audio file can be uploaded: whatever
    the object store and the media element do, [uploadFile] ends in 'File
    upload failed'. *)
Theorem uploadFile_media_always_fails (file : File) e (s : State Degree) :
  is_media file = true →
  ∃ s', uploadFile file e s = (s', Rejected FileUploadFailed).
Proof.
  intros Hmedia. unfold uploadFile. rewrite uploadFile_in_None_run, Hmedia.
  destruct (negb _); [eauto |].
  destruct (uploadBytes_ok e _ file); [| eauto].
  destruct (downloadURL e _); eauto.
Qed.

Lemma uploadFile_media_always_fails_witness :
  ∃ s', uploadFile welcome_video playing_env (empty_state (Doc := Degree))
        = (s', Rejected FileUploadFailed).
Proof.
  apply (uploadFile_media_always_fails welcome_video playing_env empty_state).
  reflexivity.
Defined.

(** * Further properties of the test builder *)

(** X8.  What marks a normalised question carries: a multiple-choice
    question always has marks, never 0 (an authored value other than 0 is
    kept; 0 or no authored value becomes 1); a typed question has marks 0
    whatever was authored; a question of any other type has no marks at
    all. *)
Theorem formatQuestion_marks (spec : QuestionSpec) :
  match q_marks (formatQuestion spec) with
  | Some marks =>
      (qs_type spec = VStr "MCQ" ∧ marks ≠ 0%Z ∧
       (∀ authored, qs_marks spec = Some authored → authored ≠ 0%Z →
                    marks = authored) ∧
       (qs_marks spec = None ∨ qs_marks spec = Some 0%Z → marks = 1%Z))
      ∨ (qs_type spec = VStr "Typed" ∧ marks = 0%Z)
  | None => qs_type spec ≠ VStr "MCQ" ∧ qs_type spec ≠ VStr "Typed"
  end.
Proof.
  unfold formatQuestion, strict_eq.
  case_bool_decide as Hmcq; simpl.
  - left. split; [done |]. unfold marks_or_1.
    destruct (qs_marks spec) as [authored|].
    + destruct (Z.eqb_spec authored 0) as [-> | Hne].
      * split; [done |]. split; [by intros ? [= <-] | done].
      * split; [done |]. split; [by intros ? [= <-] |].
        intros [Hnone | [= Hzero]]; [discriminate | contradiction].
    + split; [done |]. split; [intros ? [=] | done].
  - case_bool_decide as Htyped; simpl; [by right | done].
Qed.

Section ScoringFacts.
Implicit Types (questions : list Question) (userAnswers : list UserAnswer).

(** The loop reads [userAnswers] only at the positions of the questions it
    visits. *)
Lemma calculateUserMarks_from_ext questions userAnswers userAnswers' index userTotal :
  (∀ i, (i < length questions)%nat →
        userAnswers !! (index + i)%nat = userAnswers' !! (index + i)%nat) →
  calculateUserMarks_from questions userAnswers index userTotal
  = calculateUserMarks_from questions userAnswers' index userTotal.
Proof.
  revert index userTotal.
  induction questions as [|question questions IH]; intros index userTotal Hsame;
    [done |].
  assert (userAnswers !! index = userAnswers' !! index) as Hhere.
  { specialize (Hsame 0%nat). rewrite Nat.add_0_r in Hsame. apply Hsame. simpl. lia. }
  assert (∀ total, calculateUserMarks_from questions userAnswers (S index) total
                   = calculateUserMarks_from questions userAnswers' (S index) total)
    as Hrest.
  { intros total. apply IH. intros i Hi.
    replace (S index + i)%nat with (index + S i)%nat by lia.
    apply Hsame. simpl. lia. }
  simpl. rewrite <- Hhere.
  destruct (strict_eq (q_answerType question) (VStr "MCQ"));
    [| destruct (strict_eq (q_answerType question) (VStr "Typed"))];
    try apply Hrest;
    (destruct (userAnswers !! index) as [userAnswer|]; [| done]).
  - destruct (strict_eq _ _); apply Hrest.
  - destruct (truthy _); apply Hrest.
Qed.

(** A counted question at or beyond the end of the answers stops the
    loop. *)
Lemma calculateUserMarks_from_missing questions userAnswers index userTotal :
  (∃ i question, questions !! i = Some question ∧ counted question = true ∧
                 (length userAnswers ≤ index + i)%nat) →
  calculateUserMarks_from questions userAnswers index userTotal
  = Rejected (TypeError "userAnswers[index] is undefined").
Proof.
  revert index userTotal.
  induction questions as [|question questions IH];
    intros index userTotal (i & missing & Hq & Hcounted & Hbeyond);
    [done |].
  assert (∀ total, is_Some (userAnswers !! index) ∨ counted question = false →
            calculateUserMarks_from questions userAnswers (S index) total
            = Rejected (TypeError "userAnswers[index] is undefined")) as Hrest.
  { intros total Hhere. apply IH. destruct i as [|i].
    - simpl in Hq. injection Hq as <-. destruct Hhere as [Hsome | Hnot].
      + apply lookup_lt_is_Some in Hsome. lia.
      + congruence.
    - exists i, missing. simpl in Hq. repeat split; [done.. | lia]. }
  simpl. unfold counted in Hrest.
  destruct (strict_eq (q_answerType question) (VStr "MCQ")); simpl in Hrest.
  - destruct (userAnswers !! index) as [userAnswer|]; [| done].
    destruct (strict_eq _ _); apply Hrest; eauto.
  - destruct (strict_eq (q_answerType question) (VStr "Typed")).
    + destruct (userAnswers !! index) as [userAnswer|]; [| done].
      destruct (truthy _); apply Hrest; eauto.
    + apply Hrest. by right.
Qed.

(** A question the builder made has marks as soon as it is counted. *)
Lemma formatQuestion_counted_marks (spec : QuestionSpec) :
  counted (formatQuestion spec) = true →
  ∃ marks, q_marks (formatQuestion spec) = Some marks.
Proof.
  destruct (formatQuestion_cases spec) as [Htype Hmarks]. simpl in *.
  unfold counted, is_MCQ_spec in *. rewrite Htype.
  destruct (strict_eq (qs_type spec) (VStr "MCQ")); [eauto |].
  destruct (strict_eq (qs_type spec) (VStr "Typed")); [eauto | done].
Qed.

Lemma scores_counted question userAnswer :
  scores question userAnswer = true → counted question = true.
Proof.
  unfold scores, counted.
  destruct (strict_eq (q_answerType question) (VStr "MCQ")); [done |].
  by destruct (strict_eq (q_answerType question) (VStr "Typed")).
Qed.

(** On the questions the builder makes and with an answer for each, the
    loop adds up the marks of the questions whose answer scores. *)
Lemma calculateUserMarks_from_built (specs : list QuestionSpec) userAnswers index
    (subtotal : Z) :
  (index + length specs ≤ length userAnswers)%nat →
  calculateUserMarks_from (map formatQuestion specs) userAnswers index (Num subtotal)
  = Resolved (Num (subtotal
                   + earned (map formatQuestion specs) (drop index userAnswers))).
Proof.
  revert index subtotal.
  induction specs as [|spec specs IH]; intros index subtotal Hlen.
  - simpl. do 2 f_equal. unfold earned. simpl. lia.
  - simpl in Hlen.
    destruct (lookup_lt_is_Some_2 userAnswers index) as [userAnswer Hanswer];
      [lia |].
    cbn [map]. rewrite (calculateUserMarks_from_cons _ _ _ _ _ userAnswer) by done.
    rewrite (drop_S _ _ _ Hanswer). unfold earned. cbn [zip_with foldr].
    fold (earned (map formatQuestion specs) (drop (S index) userAnswers)).
    destruct (scores (formatQuestion spec) userAnswer) eqn:Hscores.
    + destruct (formatQuestion_counted_marks spec) as [marks Hmarks];
        [by eapply scores_counted |].
      rewrite Hmarks. simpl. rewrite IH by lia. do 2 f_equal.
      rewrite Hscores, Hmarks. simpl. lia.
    + rewrite IH by lia. do 2 f_equal. simpl. rewrite Hscores. lia.
Qed.

Lemma earned_bounds (specs : list QuestionSpec) userAnswers :
  Forall (λ question, ∀ marks, q_marks question = Some marks → (0 ≤ marks)%Z)
         (map formatQuestion specs) →
  (0 ≤ earned (map formatQuestion specs) userAnswers
     ≤ sum_marks (map formatQuestion specs))%Z.
Proof.
  revert userAnswers. induction specs as [|spec specs IH]; intros userAnswers Hpos.
  - unfold earned. simpl. lia.
  - cbn [map] in *. apply Forall_cons in Hpos as [Hspec Hspecs].
    assert (0 ≤ default 0 (q_marks (formatQuestion spec)))%Z as Hmarks.
    { destruct (q_marks (formatQuestion spec)) as [marks|]; simpl; [eauto | lia]. }
    assert (0 ≤ sum_marks (map formatQuestion specs))%Z as Hsum.
    { specialize (IH [] Hspecs). unfold earned in IH. simpl in IH.
      destruct (map formatQuestion specs); simpl in *; lia. }
    destruct userAnswers as [|userAnswer userAnswers].
    + unfold earned. simpl. lia.
    + specialize (IH userAnswers Hspecs). unfold earned in *. simpl.
      destruct (scores _ _); lia.
Qed.

Lemma earned_all_correct (specs : list QuestionSpec) userAnswers :
  (length specs ≤ length userAnswers)%nat →
  (∀ i question userAnswer,
     map formatQuestion specs !! i = Some question →
     userAnswers !! i = Some userAnswer →
     q_answerType question = VStr "MCQ" →
     ua_answer userAnswer = q_correctAnswer question) →
  earned (map formatQuestion specs) userAnswers
  = sum_marks (map formatQuestion specs).
Proof.
  revert userAnswers.
  induction specs as [|spec specs IH]; intros userAnswers Hlen Hcorrect; [done |].
  destruct userAnswers as [|userAnswer userAnswers]; [simpl in Hlen; lia |].
  cbn [map]. unfold earned. cbn [zip_with foldr sum_marks fst snd].
  fold (earned (map formatQuestion specs) userAnswers).
  fold (sum_marks (map formatQuestion specs)).
  rewrite IH; [| simpl in Hlen; lia | intros i; apply (Hcorrect (S i))].
  f_equal.
  destruct (scores (formatQuestion spec) userAnswer) eqn:Hscores; [done |].
  destruct (formatQuestion_cases spec) as [Htype Hmarks]. simpl in *.
  unfold is_MCQ_spec in Hmarks. unfold scores in Hscores. rewrite Htype in Hscores.
  destruct (strict_eq (qs_type spec) (VStr "MCQ")) eqn:Hmcq.
  - exfalso. simpl in Hscores.
    apply orb_false_iff in Hscores as [Hscores _].
    unfold strict_eq in Hscores, Hmcq.
    apply bool_decide_eq_false_1 in Hscores. apply bool_decide_eq_true_1 in Hmcq.
    apply Hscores, (Hcorrect 0%nat); [done | done |]. by rewrite Htype.
  - destruct (strict_eq (qs_type spec) (VStr "Typed")); by rewrite Hmarks.
Qed.

Lemma earned_validate (specs : list QuestionSpec) userAnswers :
  earned (map formatQuestion specs) (map validate userAnswers)
  = earned (map formatQuestion specs) userAnswers.
Proof.
  revert userAnswers. induction specs as [|spec specs IH]; intros userAnswers;
    [done |].
  destruct userAnswers as [|userAnswer userAnswers]; [done |].
  cbn [map]. unfold earned. cbn [zip_with foldr fst snd].
  fold (earned (map formatQuestion specs) (map validate userAnswers)).
  fold (earned (map formatQuestion specs) userAnswers).
  rewrite IH. f_equal.
  destruct (formatQuestion_cases spec) as [Htype Hmarks]. simpl in *.
  unfold is_MCQ_spec in Hmarks. unfold scores. rewrite Htype. simpl.
  destruct (decide (qs_type spec = VStr "MCQ")) as [Hmcq | Hmcq].
  - rewrite Hmcq.
    replace (strict_eq (VStr "MCQ") (VStr "Typed")) with false by (by vm_compute).
    done.
  - unfold strict_eq at 1 3. rewrite (bool_decide_eq_false_2 _ Hmcq). simpl.
    unfold strict_eq in Hmarks. rewrite (bool_decide_eq_false_2 _ Hmcq) in Hmarks.
    destruct (bool_decide (qs_type spec = VStr "Typed")) eqn:Htyped.
    + unfold strict_eq. rewrite Htyped, Hmarks. simpl. by destruct (_ || _).
    + unfold strict_eq. rewrite Htyped. by rewrite (bool_decide_eq_false_2 _ Hmcq).
Qed.

End ScoringFacts.

Lemma calculateUserMarks_built_earned (test : Test) (userAnswers : list UserAnswer) :
  is_built test →
  (length (t_questions test) ≤ length userAnswers)%nat →
  calculateUserMarks test userAnswers
  = Resolved (Num (earned (t_questions test) userAnswers)).
Proof.
  intros [testData Hbuilt] Hlen. unfold calculateUserMarks. rewrite Hbuilt in *.
  rewrite length_map in Hlen.
  rewrite calculateUserMarks_from_built by (simpl; lia).
  by rewrite drop_0.
Qed.

(** The marks a submission earns are, in magnitude, at most the magnitudes
    of all marks together. *)
Lemma earned_magnitude (questions : list Question) (userAnswers : list UserAnswer) :
  (Z.abs (earned questions userAnswers)
   ≤ foldr (λ question total, Z.abs (default 0 (q_marks question)) + total) 0
       questions)%Z.
Proof.
  revert userAnswers. unfold earned.
  induction questions as [|question questions IH]; intros userAnswers; [done |].
  destruct userAnswers as [|userAnswer userAnswers]; simpl.
  - specialize (IH []). simpl in IH. lia.
  - specialize (IH userAnswers). destruct (scores question userAnswer); lia.
Qed.

(** X9.  For a built test whose marks are whole numbers with magnitudes
    adding up to at most 2^53 (the range in which no addition of the loop
    rounds) and at least one answer per question, [calculateUserMarks]
    returns the sum of the marks of the questions whose answer scores (a
    multiple-choice answer equal to [correctAnswer], a typed answer marked
    validated), questions and answers taken pairwise in order; the result
    is itself of magnitude at most 2^53. *)
Theorem calculateUserMarks_earned (test : Test) (userAnswers : list UserAnswer) :
  is_built test →
  (length (t_questions test) ≤ length userAnswers)%nat →
  exact_sums (t_questions test) →
  calculateUserMarks test userAnswers
  = Resolved (Num (earned (t_questions test) userAnswers)) ∧
  (Z.abs (earned (t_questions test) userAnswers) ≤ 2 ^ 53)%Z.
Proof.
  intros Hbuilt Hlen Hexact.
  split; [by apply calculateUserMarks_built_earned |].
  unfold exact_sums in Hexact.
  pose proof (earned_magnitude (t_questions test) userAnswers). lia.
Qed.

Lemma calculateUserMarks_earned_witness :
  calculateUserMarks built_quiz_123 [answer "a"; answer "x"; answer "c"]
  = Resolved (Num 4) ∧
  (Z.abs 4 ≤ 2 ^ 53)%Z.
Proof.
  apply (calculateUserMarks_earned built_quiz_123
           [answer "a"; answer "x"; answer "c"]).
  - by exists quiz_123.
  - simpl. lia.
  - unfold exact_sums. simpl. lia.
Defined.

(** X10.  For a built test none of whose questions has negative marks, a
    submission with at least one answer per question scores between 0 and
    the [totalMarks] that [calculateTotalMarks] computes. *)
Theorem calculateUserMarks_bounded (test : Test) (userAnswers : list UserAnswer) :
  is_built test →
  (length (t_questions test) ≤ length userAnswers)%nat →
  Forall (λ question, ∀ marks, q_marks question = Some marks → (0 ≤ marks)%Z)
         (t_questions test) →
  ∃ score total,
    calculateUserMarks test userAnswers = Resolved (Num score) ∧
    t_totalMarks (calculateTotalMarks test) = Num total ∧
    (0 ≤ score ≤ total)%Z.
Proof.
  intros Hbuilt Hlen Hpos.
  exists (earned (t_questions test) userAnswers), (sum_marks (t_questions test)).
  split; [by apply calculateUserMarks_built_earned |].
  split; [by apply calculateTotalMarks_built |].
  destruct Hbuilt as [testData Hbuilt]. rewrite Hbuilt in *.
  by apply earned_bounds.
Qed.

Lemma calculateUserMarks_bounded_witness :
  ∃ score total,
    calculateUserMarks built_quiz_123 [answer "a"; answer "x"; answer "c"]
      = Resolved (Num score) ∧
    t_totalMarks (calculateTotalMarks built_quiz_123) = Num total ∧
    (0 ≤ score ≤ total)%Z.
Proof.
  apply (calculateUserMarks_bounded built_quiz_123
           [answer "a"; answer "x"; answer "c"]).
  - by exists quiz_123.
  - simpl. lia.
  - repeat constructor; intros marks [= <-]; lia.
Defined.

(** X11.  For a built test, a submission that answers every
    multiple-choice question with its [correctAnswer] scores exactly the
    [totalMarks] that [calculateTotalMarks] computes, whatever it says on
    the typed questions. *)
Theorem calculateUserMarks_full_marks (test : Test) (userAnswers : list UserAnswer) :
  is_built test →
  (length (t_questions test) ≤ length userAnswers)%nat →
  (∀ i question userAnswer,
     t_questions test !! i = Some question →
     userAnswers !! i = Some userAnswer →
     q_answerType question = VStr "MCQ" →
     ua_answer userAnswer = q_correctAnswer question) →
  ∃ total,
    t_totalMarks (calculateTotalMarks test) = Num total ∧
    calculateUserMarks test userAnswers = Resolved (Num total).
Proof.
  intros Hbuilt Hlen Hcorrect. exists (sum_marks (t_questions test)).
  split; [by apply calculateTotalMarks_built |].
  rewrite calculateUserMarks_built_earned by done. do 2 f_equal.
  destruct Hbuilt as [testData Hbuilt]. rewrite Hbuilt in *.
  rewrite length_map in Hlen. by apply earned_all_correct.
Qed.

Lemma calculateUserMarks_full_marks_witness :
  ∃ total,
    t_totalMarks (calculateTotalMarks built_quiz_123) = Num total ∧
    calculateUserMarks built_quiz_123 [answer "a"; answer "b"; answer "c"]
      = Resolved (Num total).
Proof.
  apply (calculateUserMarks_full_marks built_quiz_123
           [answer "a"; answer "b"; answer "c"]).
  - by exists quiz_123.
  - simpl. lia.
  - intros [|[|[|i]]] question userAnswer Hq Ha Hmcq;
      vm_compute in Hq, Ha; simplify_eq; reflexivity.
Defined.

(** X12.  On a built test the validation flag of an answer earns nothing:
    marking every answer validated leaves the score as it was, because the
    builder gives every typed question 0 marks. *)
Theorem calculateUserMarks_validation_earns_nothing (test : Test)
    (userAnswers : list UserAnswer) :
  is_built test →
  (length (t_questions test) ≤ length userAnswers)%nat →
  calculateUserMarks test (map validate userAnswers)
  = calculateUserMarks test userAnswers.
Proof.
  intros Hbuilt Hlen.
  rewrite !calculateUserMarks_built_earned by (by rewrite ?length_map).
  destruct Hbuilt as [testData ->]. by rewrite earned_validate.
Qed.

Lemma calculateUserMarks_validation_earns_nothing_witness :
  calculateUserMarks built_mixed (map validate [answer "a"; answer "text"; answer ""])
  = calculateUserMarks built_mixed [answer "a"; answer "text"; answer ""].
Proof.
  apply (calculateUserMarks_validation_earns_nothing built_mixed
           [answer "a"; answer "text"; answer ""]).
  - by eexists {| ts_title := "Mixed"; ts_timeLimit := 10; ts_type := "quiz";
                  ts_questions := _ |}.
  - simpl. lia.
Defined.

(** X13.  [calculateUserMarks] throws a TypeError as soon as a question of
    type 'MCQ' or 'Typed' has no answer at its position: a submission
    shorter than the test is not scored as 0 for the missing answers. *)
Theorem calculateUserMarks_missing_answer (test : Test)
    (userAnswers : list UserAnswer) i question :
  t_questions test !! i = Some question →
  counted question = true →
  (length userAnswers ≤ i)%nat →
  calculateUserMarks test userAnswers
  = Rejected (TypeError "userAnswers[index] is undefined").
Proof.
  intros Hq Hcounted Hbeyond. unfold calculateUserMarks.
  apply calculateUserMarks_from_missing. exists i, question. by simpl.
Qed.

Lemma calculateUserMarks_missing_answer_witness :
  calculateUserMarks built_quiz_123 [answer "a"; answer "b"]
  = Rejected (TypeError "userAnswers[index] is undefined").
Proof.
  apply (calculateUserMarks_missing_answer built_quiz_123
           [answer "a"; answer "b"] 2%nat
           (formatQuestion (mcq "q3" "c" (Some 3%Z)))).
  - reflexivity.
  - reflexivity.
  - simpl. lia.
Defined.

(** X14.  [calculateUserMarks] reads the answers only at the positions of
    the questions: answers beyond the last question are ignored. *)
Theorem calculateUserMarks_surplus_answers (test : Test)
    (userAnswers surplus : list UserAnswer) :
  (length (t_questions test) ≤ length userAnswers)%nat →
  calculateUserMarks test (userAnswers ++ surplus)
  = calculateUserMarks test userAnswers.
Proof.
  intros Hlen. unfold calculateUserMarks.
  apply calculateUserMarks_from_ext. intros i Hi. simpl.
  apply lookup_app_l. lia.
Qed.

Lemma calculateUserMarks_surplus_answers_witness :
  calculateUserMarks built_quiz_123
    ([answer "a"; answer "b"; answer "x"] ++ [answer "c"])
  = calculateUserMarks built_quiz_123 [answer "a"; answer "b"; answer "x"].
Proof.
  apply (calculateUserMarks_surplus_answers built_quiz_123
           [answer "a"; answer "b"; answer "x"] [answer "c"]).
  simpl. lia.
Defined.

(** * Further properties of the assembler *)

Section Uploads.
Context {Doc : Type}.
Implicit Types (e : Env) (s : State Doc).

Lemma uploads_refl s : uploads s s [].
Proof. exists []. by rewrite app_nil_r. Qed.

Lemma uploads_app s1 s2 s3 files1 files2 :
  uploads s1 s2 files1 → uploads s2 s3 files2 → uploads s1 s3 (files1 ++ files2).
Proof.
  intros (o1 & H1 & <-) (o2 & H2 & <-). exists (o1 ++ o2).
  by rewrite H2, H1, app_assoc, map_app.
Qed.

Lemma uploads_same_store s s' : store s' = store s → uploads s s' [].
Proof. intros H. exists []. by rewrite app_nil_r. Qed.

Lemma uploads_uuidv4 e s s' id : uuidv4 e s = (s', Resolved id) → uploads s s' [].
Proof. intros [= <- _]. by apply uploads_same_store. Qed.

Lemma runs_uploads {A B} (f : A → Async Doc B) (files : A → list File) e :
  (∀ x s s' y, f x e s = (s', Resolved y) → uploads s s' (files x)) →
  ∀ s xs s' ys, runs f e s xs s' ys → uploads s s' (flat_map files xs).
Proof.
  intros Hf s xs s' ys. induction 1 as [|s s1 s2 x y xs ys Hx _ IH].
  - apply uploads_refl.
  - simpl. eapply uploads_app; [by eapply Hf | done].
Qed.

(** What holds of every input of a successful [Promise.all]. *)
Lemma runs_Forall {A B} (f : A → Async Doc B) (P : A → Prop) e :
  (∀ x s s' y, f x e s = (s', Resolved y) → P x) →
  ∀ s xs s' ys, runs f e s xs s' ys → Forall P xs.
Proof.
  intros Hf s xs s' ys. induction 1 as [|s s1 s2 x y xs ys Hx _ IH];
    constructor; eauto.
Qed.

End Uploads.

Section AssemblerUploads.
Implicit Types (e : Env) (s : State Degree).

Lemma uploadFile_uploads file e s s' asset :
  uploadFile file e s = (s', Resolved asset) → uploads s s' [file].
Proof.
  unfold uploadFile. rewrite uploadFile_in_None_run.
  destruct (negb _); [discriminate |].
  destruct (uploadBytes_ok e _ file); [| discriminate].
  destruct (downloadURL e _); [| discriminate].
  destruct (is_media file); [discriminate |].
  intros [= <- _]. by eexists [_].
Qed.

Lemma uploadThumbnail_opt_uploads thumbnail e s s' url :
  uploadThumbnail_opt thumbnail e s = (s', Resolved url) →
  uploads s s' (option_list thumbnail).
Proof.
  unfold uploadThumbnail_opt. destruct thumbnail as [file|]; intros H.
  - apply bind_Resolved in H as (s1 & url' & Hrun & H). resolved_step.
    rewrite uploadThumbnail_run in Hrun.
    destruct (uploadBytes_ok e _ file); [| discriminate].
    destruct (downloadURL e _); [| discriminate].
    injection Hrun as <- _. by eexists [_].
  - resolved_step. apply uploads_refl.
Qed.

Lemma createTestObject_uploads testData e s s' test :
  createTestObject testData e s = (s', Resolved test) → uploads s s' [].
Proof.
  unfold createTestObject. intros H.
  apply bind_Resolved in H as (s1 & id & Hid & H). resolved_step.
  by eapply uploads_uuidv4.
Qed.

Lemma formatLesson_uploads lesson e s s' out :
  formatLesson lesson e s = (s', Resolved out) → uploads s s' [ls_file lesson].
Proof.
  unfold formatLesson. intros H.
  apply bind_Resolved in H as (s1 & asset & Hfile & H).
  apply bind_Resolved in H as (s2 & lessonId & Hid & H). resolved_step.
  apply (uploads_app s s1 s2 [ls_file lesson] []);
    [by eapply uploadFile_uploads | by eapply uploads_uuidv4].
Qed.

Lemma formatChapter_uploads chapter e s s' out :
  formatChapter chapter e s = (s', Resolved out) →
  uploads s s' (chapter_files chapter).
Proof.
  unfold formatChapter. intros H.
  apply bind_Resolved in H as (s1 & lessons & Hlessons & H).
  apply bind_Resolved in H as (s2 & test & Htest & H).
  apply bind_Resolved in H as (s3 & chapterId & Hid & H). resolved_step.
  apply promise_all_Resolved in Hlessons.
  apply (runs_uploads formatLesson (λ lesson, [ls_file lesson])) in Hlessons;
    [| intros x t t' y; apply formatLesson_uploads].
  assert (uploads s1 s2 []) as Htests.
  { destruct (chs_test chapter) as [testData|].
    - apply bind_Resolved in Htest as (s4 & built & Hbuilt & Htest).
      apply bind_Resolved in Htest as (s5 & test' & Hcalc & Htest).
      repeat resolved_step. by eapply createTestObject_uploads.
    - resolved_step. apply uploads_refl. }
  apply uploads_uuidv4 in Hid.
  replace (chapter_files chapter)
    with (flat_map (λ lesson, [ls_file lesson]) (chs_lessons chapter) ++ [] ++ []).
  - eapply uploads_app; [done |]. by eapply uploads_app.
  - rewrite app_nil_r. unfold chapter_files.
    by induction (chs_lessons chapter); simpl; f_equal.
Qed.

Lemma formatCourse_uploads course e s s' out :
  formatCourse course e s = (s', Resolved out) →
  uploads s s' (course_files course).
Proof.
  unfold formatCourse. intros H.
  apply bind_Resolved in H as (s1 & url & Hthumb & H).
  apply bind_Resolved in H as (s2 & chapters & Hchapters & H).
  apply bind_Resolved in H as (s3 & courseId & Hid & H).
  apply bind_Resolved in H as (s4 & test & Htest & H). resolved_step.
  apply uploadThumbnail_opt_uploads in Hthumb.
  apply promise_all_Resolved in Hchapters.
  apply (runs_uploads formatChapter chapter_files) in Hchapters;
    [| intros x t t' y; apply formatChapter_uploads].
  apply uploads_uuidv4 in Hid.
  assert (uploads s3 s4 []) as Htests.
  { destruct (cs_finalTest course) as [testData|].
    - apply bind_Resolved in Htest as (s5 & built & Hbuilt & Htest).
      resolved_step. by eapply createTestObject_uploads.
    - resolved_step. apply uploads_refl. }
  unfold course_files.
  replace (flat_map chapter_files (cs_chapters course))
    with (flat_map chapter_files (cs_chapters course) ++ [] ++ [])
    by (by rewrite app_nil_r).
  eapply uploads_app; [done |]. eapply uploads_app; [done |].
  by eapply uploads_app.
Qed.

Lemma assemble_uploads degreeData e s s' out :
  assemble degreeData e s = (s', Resolved out) →
  uploads s s' (degree_files degreeData).
Proof.
  unfold assemble. intros H.
  apply bind_Resolved in H as (s1 & url & Hthumb & H).
  apply bind_Resolved in H as (s2 & courses & Hcourses & H).
  apply bind_Resolved in H as (s3 & degreeId & Hid & H).
  apply bind_Resolved in H as (s4 & createdAt & Hnow & H).
  apply Date_now_Resolved in Hnow as [-> ->]. resolved_step.
  apply uploadThumbnail_opt_uploads in Hthumb.
  apply promise_all_Resolved in Hcourses.
  apply (runs_uploads formatCourse course_files) in Hcourses;
    [| intros x t t' y; apply formatCourse_uploads].
  apply uploads_uuidv4 in Hid.
  unfold degree_files.
  replace (flat_map course_files (ds_courses degreeData))
    with (flat_map course_files (ds_courses degreeData) ++ [])
    by (by rewrite app_nil_r).
  eapply uploads_app; [done |]. by eapply uploads_app.
Qed.

End AssemblerUploads.

(** X15.  When [addDegree] succeeds, the objects it added to the object
    store are the files of the authoring input, each exactly once: the
    degree thumbnail, every course thumbnail and every lesson file; nothing
    else was stored. *)
Theorem addDegree_uploads_input_files degreeData e (s s' : State Degree) degreeId :
  addDegree degreeData e s = (s', Resolved degreeId) →
  ∃ objects,
    store s' = store s ++ objects ∧
    map snd objects ≡ₚ degree_files degreeData.
Proof.
  unfold addDegree. intros H. resolved_step.
  apply bind_Resolved in H as (s1 & degree & Hassemble & H).
  apply bind_Resolved in H as (s2 & ref & Hadd & H).
  apply bind_Resolved in H as (s3 & u & Hlog & H). resolved_step.
  apply assemble_uploads in Hassemble as (objects & Hstore & Hfiles).
  exists objects. split; [| by rewrite Hfiles].
  unfold addDoc in Hadd. destruct (addDoc_ok e); [| discriminate].
  injection Hadd as <- _. by injection Hlog as <-.
Qed.

Lemma addDegree_uploads_input_files_witness :
  ∃ s' degreeId objects,
    addDegree theology calm_env empty_state = (s', Resolved degreeId) ∧
    store s' = objects ∧
    map snd objects ≡ₚ [cover_image; cover_image; cover_image].
Proof.
  destruct (addDegree theology calm_env empty_state) as [s' r] eqn:Hrun.
  assert (r = Resolved "uuid-9") as ->.
  { apply (f_equal snd) in Hrun. simpl in Hrun. rewrite <- Hrun. vm_compute.
    reflexivity. }
  destruct (addDegree_uploads_input_files theology calm_env empty_state s' _ Hrun)
    as (objects & Hstore & Hfiles).
  exists s', "uuid-9", objects.
  split; [reflexivity |]. split; [exact Hstore | exact Hfiles].
Defined.

(** X16.  However [addDegree] fails, also when the database refuses the
    write after every upload succeeded, the caller gets 'Degree saving
    failed', the cause is only logged, and the collection is unchanged. *)
Theorem addDegree_failure_is_masked degreeData e (s s' : State Degree) err :
  addDegree degreeData e s = (s', Rejected err) →
  err = DegreeSavingFailed ∧ db s' = db s ∧
  ∃ cause, last (console s') = Some (ConsoleError "Error adding degree:" cause).
Proof.
  unfold addDegree, try_catch. rewrite run_bind.
  pose proof (assemble_same_db degreeData e s) as Hdb. unfold same_db in Hdb.
  destruct (assemble degreeData e s) as [s1 [degree|cause]]; simpl in Hdb.
  - rewrite run_bind. unfold addDoc. destruct (addDoc_ok e).
    + rewrite run_bind. simpl. discriminate.
    + simpl. intros [= <- <-]. simpl. repeat split; [done |].
      exists FirestoreError. by rewrite last_snoc.
  - simpl. intros [= <- <-]. simpl. repeat split; [done |].
    exists cause. by rewrite last_snoc.
Qed.

Lemma addDegree_failure_is_masked_witness :
  ∃ s', addDegree theology_plain db_down_env empty_state
          = (s', Rejected DegreeSavingFailed) ∧
        db s' = ∅ ∧
        ∃ cause, last (console s') = Some (ConsoleError "Error adding degree:" cause).
Proof.
  destruct (addDegree theology_plain db_down_env empty_state) as [s' r] eqn:Hrun.
  assert (r = Rejected DegreeSavingFailed) as ->.
  { apply (f_equal snd) in Hrun. simpl in Hrun. rewrite <- Hrun. vm_compute.
    reflexivity. }
  exists s'. split; [reflexivity |].
  exact (proj2 (addDegree_failure_is_masked theology_plain db_down_env
                  empty_state s' _ Hrun)).
Defined.

(** * Further properties of reading and updating a degree *)

Section ReadingFacts.
Implicit Types (e : Env) (s : State Degree).

(** The run of [getDegreeById], case by case. *)
Lemma getDegreeById_run degreeId e s :
  getDegreeById degreeId e s
  = if getDocs_ok e
    then match by_document_id
                 (filter (λ kd, bool_decide (d_degreeId kd.2 = degreeId) = true)
                    (map_to_list (db s))) with
         | [] => (logged s (ConsoleError "Error fetching degree by ID:"
                              (DegreeNotFound degreeId)),
                  Resolved None)
         | degreeDoc :: _ => (s, Resolved (Some degreeDoc.2))
         end
    else (logged s (ConsoleError "Error fetching degree by ID:" FirestoreError),
          Resolved None).
Proof.
  unfold getDegreeById, try_catch. rewrite run_bind. unfold getDocs_where.
  destruct (getDocs_ok e); [| done].
  by destruct (by_document_id _).
Qed.

(** A query that can only match one document returns just that one. *)
Lemma filter_unique {A} (P : A → Prop) `{!∀ x, Decision (P x)} (l : list A) x :
  NoDup l → x ∈ l → P x → (∀ y, y ∈ l → P y → y = x) → filter P l = [x].
Proof.
  intros Hnodup Hin HP Hunique. apply Permutation_singleton_r.
  apply NoDup_Permutation; [by apply NoDup_filter | apply NoDup_singleton |].
  intros y. rewrite list_elem_of_filter, list_elem_of_singleton. split.
  - intros [HPy Hy]. by apply Hunique.
  - by intros ->.
Qed.

End ReadingFacts.

(** X17.  [getDegreeById] never throws and changes nothing but the console.
    It returns null when the query fails and when no stored document has the
    requested [degreeId], and only then; when it returns a degree, that
    degree is a stored document whose [degreeId] is the requested one, and
    nothing at all has changed. *)
Theorem getDegreeById_outcome degreeId e (s : State Degree) :
  let (s', r) := getDegreeById degreeId e s in
  db s' = db s ∧ store s' = store s ∧
  ∃ found,
    r = Resolved found ∧
    (getDocs_ok e = false → found = None) ∧
    (unused_degreeId s degreeId → found = None) ∧
    match found with
    | Some degree =>
        s' = s ∧ d_degreeId degree = degreeId ∧
        ∃ ref, db s !! ref = Some degree
    | None => getDocs_ok e = false ∨ unused_degreeId s degreeId
    end.
Proof.
  rewrite getDegreeById_run.
  destruct (getDocs_ok e);
    [| split; [done |]; split; [done |]; exists None; split; [done |];
       split; [done |]; split; [done | by left]].
  destruct (by_document_id _) as [|[ref degree] rest] eqn:Hquery.
  - split; [done |]. split; [done |]. exists None. split; [done |].
    split; [done |]. split; [done |]. right.
    intros ref degree Hlook Hid.
    apply (proj1 (by_document_id_nil _)) in Hquery.
    eapply (filter_nil_not_elem_of _ _ (ref, degree)); [exact Hquery | |].
    + simpl. by apply bool_decide_eq_true_2.
    + by apply elem_of_map_to_list.
  - split; [done |]. split; [done |]. exists (Some degree). split; [done |].
    assert ((ref, degree) ∈ filter
              (λ kd, bool_decide (d_degreeId kd.2 = degreeId) = true)
              (map_to_list (db s))) as Hin.
    { apply by_document_id_elem_of. rewrite Hquery. apply list_elem_of_here. }
    apply list_elem_of_filter in Hin as [Hid Hin]. simpl in Hid.
    apply bool_decide_eq_true_1 in Hid. apply elem_of_map_to_list in Hin.
    split; [done |].
    split; [intros Hunused; exfalso; by eapply Hunused |].
    eauto.
Qed.

(** X18.  Round trip: after [addDegree] returned a [degreeId] that no
    document had before, [getDegreeById] of that id returns the document
    just written, a mirror of the authoring input, and changes nothing. *)
Theorem addDegree_then_getDegreeById degreeData e e' (s s' : State Degree) degreeId :
  addDegree degreeData e s = (s', Resolved degreeId) →
  unused_degreeId s degreeId →
  getDocs_ok e' = true →
  ∃ degree,
    getDegreeById degreeId e' s' = (s', Resolved (Some degree)) ∧
    d_degreeId degree = degreeId ∧
    mirrors_degree degreeData degree.
Proof.
  intros Hadd Hunused Hdocs.
  apply addDegree_Resolved in Hadd as (s1 & degree & Hasm & Hid & Hdb & _).
  apply assemble_yields in Hasm as (_ & Hmirror & _).
  exists degree. split; [| done].
  rewrite getDegreeById_run, Hdocs, Hdb.
  rewrite (by_document_id_singleton _ (auto_id e (next_auto_id s1), degree));
    [done |].
  apply filter_unique.
  - apply NoDup_map_to_list.
  - apply elem_of_map_to_list. apply lookup_insert_eq.
  - simpl. by apply bool_decide_eq_true_2.
  - intros [ref other] Hin Hmatch. simpl in Hmatch.
    apply bool_decide_eq_true_1 in Hmatch.
    apply elem_of_map_to_list in Hin. rewrite lookup_insert in Hin.
    destruct (decide (auto_id e (next_auto_id s1) = ref)) as [-> | Hne].
    + by injection Hin as ->.
    + exfalso. by eapply Hunused.
Qed.

Lemma addDegree_then_getDegreeById_witness :
  ∃ s' degreeId degree,
    addDegree theology calm_env empty_state = (s', Resolved degreeId) ∧
    getDegreeById degreeId calm_env s' = (s', Resolved (Some degree)) ∧
    d_degreeId degree = degreeId ∧
    mirrors_degree theology degree.
Proof.
  destruct (addDegree theology calm_env empty_state) as [s' r] eqn:Hrun.
  assert (r = Resolved "uuid-9") as ->.
  { apply (f_equal snd) in Hrun. simpl in Hrun. rewrite <- Hrun. vm_compute.
    reflexivity. }
  destruct (addDegree_then_getDegreeById theology calm_env calm_env empty_state
              s' "uuid-9" Hrun) as (degree & Hget & Hid & Hmirror).
  - intros ref degree Hlook. destruct (lookup_empty_Some ref degree Hlook).
  - reflexivity.
  - exists s', "uuid-9", degree.
    split; [reflexivity |]. split; [exact Hget |]. split; [exact Hid | exact Hmirror].
Defined.

Section UpdateFacts.
Implicit Types (e : Env) (s : State Degree).

(** [updateTest] never returns: its call of [calculateTotalMarks] throws. *)
Lemma updateTest_never_resolves testId testData e s s' test :
  updateTest testId testData e s = (s', Resolved test) → False.
Proof.
  unfold updateTest. intros H.
  apply bind_Resolved in H as (s1 & t & Hcall & _).
  apply invoke_Resolved in Hcall as [Hin _].
  by apply elem_of_nil in Hin.
Qed.

Lemma updateTest_opt_Resolved testData e s s' test :
  updateTest_opt testData e s = (s', Resolved test) →
  testData = None ∧ test = None ∧ s' = s.
Proof.
  unfold updateTest_opt. destruct testData as [testData|]; intros H.
  - apply bind_Resolved in H as (s1 & id & _ & H).
    apply bind_Resolved in H as (s2 & t & Hupdate & _).
    by apply updateTest_never_resolves in Hupdate.
  - by resolved_step.
Qed.

Lemma reformatChapter_Resolved chapter e s s' out :
  reformatChapter chapter e s = (s', Resolved out) → chs_test chapter = None.
Proof.
  unfold reformatChapter. intros H.
  apply bind_Resolved in H as (s1 & lessons & _ & H).
  apply bind_Resolved in H as (s2 & test & Htest & _).
  by apply updateTest_opt_Resolved in Htest as (? & _).
Qed.

Lemma reformatCourse_Resolved course e s s' out :
  reformatCourse course e s = (s', Resolved out) → no_tests course.
Proof.
  unfold reformatCourse. intros H.
  apply bind_Resolved in H as (s1 & url & _ & H).
  apply bind_Resolved in H as (s2 & chapters & Hchapters & H).
  apply bind_Resolved in H as (s3 & id & _ & H).
  apply bind_Resolved in H as (s4 & test & Htest & _).
  apply updateTest_opt_Resolved in Htest as (Hfinal & _). split; [done |].
  apply promise_all_Resolved in Hchapters.
  apply (runs_Forall reformatChapter (λ chapter, chs_test chapter = None) e)
    in Hchapters; [done |].
  intros x t t' y. apply reformatChapter_Resolved.
Qed.

(** Without tests the callbacks of [editDegree] are those of [addDegree]. *)
Lemma reformatChapter_formatChapter chapter :
  chs_test chapter = None → reformatChapter chapter = formatChapter chapter.
Proof. intros H. unfold reformatChapter, formatChapter. by rewrite H. Qed.

Lemma reformatCourse_formatCourse course :
  no_tests course → reformatCourse course = formatCourse course.
Proof.
  intros [Hfinal Hchapters]. unfold reformatCourse, formatCourse.
  rewrite Hfinal. simpl.
  replace (map reformatChapter (cs_chapters course))
    with (map formatChapter (cs_chapters course)); [done |].
  induction Hchapters as [|chapter chapters Hchapter _ IH]; [done |].
  simpl. by rewrite IH, reformatChapter_formatChapter.
Qed.

Lemma map_reformatCourse (courses : list CourseSpec) :
  Forall no_tests courses →
  map reformatCourse courses = map formatCourse courses.
Proof.
  induction 1 as [|course courses Hcourse _ IH]; [done |].
  simpl. by rewrite IH, reformatCourse_formatCourse.
Qed.

(** Any failure of [editDegree] is the error 'Degree update failed', with
    the collection as it was. *)
Lemma editDegree_Rejected degreeId updatedDegreeData e s s' err :
  editDegree degreeId updatedDegreeData e s = (s', Rejected err) →
  err = DegreeUpdateFailed ∧ db s' = db s.
Proof.
  unfold editDegree, try_catch.
  match goal with
  | |- context [let (_, _) := ?body e s in _] =>
      destruct (body e s) as [s1 [updated|cause]] eqn:Hbody
  end; [discriminate |].
  rewrite run_bind. simpl. intros [= <- <-]. split; [done |]. simpl.
  apply bind_Rejected in Hbody as [H | (s2 & url & Hthumb & H)].
  { pose proof (uploadThumbnail_opt_same_db (ds_thumbnail updatedDegreeData) e s)
      as Hdb. by rewrite H in Hdb. }
  assert (db s2 = db s) as <-.
  { pose proof (uploadThumbnail_opt_same_db (ds_thumbnail updatedDegreeData) e s)
      as Hdb. by rewrite Hthumb in Hdb. }
  apply bind_Rejected in H as [H | (s3 & courses & Hcourses & H)].
  { pose proof (frames_promise_all same_db reformatCourse
                  (ds_courses updatedDegreeData) reformatCourse_same_db e s2) as Hdb.
    by rewrite H in Hdb. }
  assert (db s3 = db s2) as <-.
  { pose proof (frames_promise_all same_db reformatCourse
                  (ds_courses updatedDegreeData) reformatCourse_same_db e s2) as Hdb.
    by rewrite Hcourses in Hdb. }
  apply bind_Rejected in H as [H | (s4 & now & Hnow & H)]; [discriminate |].
  apply Date_now_Resolved in Hnow as [-> ->].
  apply bind_Rejected in H as [H | (s5 & u & Hupdate & H)].
  { unfold updateDoc in H. repeat case_match; by simplify_eq. }
  apply bind_Rejected in H as [H | (s6 & u' & _ & H)]; discriminate.
Qed.

Lemma editDegree_Resolved_no_tests degreeId updatedDegreeData e s s' updatedDegree :
  editDegree degreeId updatedDegreeData e s = (s', Resolved updatedDegree) →
  Forall no_tests (ds_courses updatedDegreeData).
Proof.
  unfold editDegree. intros H. resolved_step.
  apply bind_Resolved in H as (s1 & url & _ & H).
  apply bind_Resolved in H as (s2 & courses & Hcourses & _).
  apply promise_all_Resolved in Hcourses.
  apply (runs_Forall reformatCourse no_tests e) in Hcourses; [done |].
  intros x t t' y. apply reformatCourse_Resolved.
Qed.

End UpdateFacts.

(** X19.  [editDegree] of [degreeApi.js] can only succeed for a request
    without tests: if it returns normally, no course of the request has a
    final test and no chapter has a test. *)
Theorem editDegree_succeeds_only_without_tests degreeId updatedDegreeData e
    (s s' : State Degree) updatedDegree :
  editDegree degreeId updatedDegreeData e s = (s', Resolved updatedDegree) →
  Forall no_tests (ds_courses updatedDegreeData).
Proof. apply editDegree_Resolved_no_tests. Qed.

Lemma editDegree_succeeds_only_without_tests_witness :
  ∃ s' updatedDegree,
    editDegree "doc-0" theology_retitled calm_env plain_added
      = (s', Resolved updatedDegree) ∧
    Forall no_tests (ds_courses theology_retitled).
Proof.
  destruct (editDegree "doc-0" theology_retitled calm_env plain_added)
    as [s' r] eqn:Hrun.
  assert (∃ updatedDegree, r = Resolved updatedDegree) as [updatedDegree ->].
  { apply (f_equal snd) in Hrun. simpl in Hrun. rewrite <- Hrun.
    eexists. vm_compute. reflexivity. }
  exists s', updatedDegree. split; [reflexivity |].
  exact (editDegree_succeeds_only_without_tests "doc-0" theology_retitled
           calm_env plain_added s' updatedDegree Hrun).
Defined.

(** X20.  [addDegree] stores the degree under a document id the database
    chooses and returns the [degreeId] field; [editDegree] looks the
    document up by document id.  So, unless a document id happens to equal
    the returned [degreeId], editing a degree under the id [addDegree]
    returned fails with 'Degree update failed' and changes no document. *)
Theorem addDegree_then_editDegree_fails degreeData updatedDegreeData e e'
    (s s1 : State Degree) degreeId :
  addDegree degreeData e s = (s1, Resolved degreeId) →
  db s !! degreeId = None →
  (∀ n, auto_id e n ≠ degreeId) →
  ∃ s2, editDegree degreeId updatedDegreeData e' s1
          = (s2, Rejected DegreeUpdateFailed) ∧
        db s2 = db s1.
Proof.
  intros Hadd Hfree Hauto.
  apply addDegree_Resolved in Hadd as (s0 & degree & _ & _ & Hdb & _).
  destruct (editDegree degreeId updatedDegreeData e' s1) as [s2 [updated|err]]
    eqn:Hedit.
  - exfalso.
    apply editDegree_Resolved in Hedit as (_ & _ & stored & _ & _ & Hstored & _).
    rewrite Hdb, lookup_insert_ne in Hstored by apply Hauto. congruence.
  - apply editDegree_Rejected in Hedit as [-> Hsame]. eauto.
Qed.

Lemma addDegree_then_editDegree_fails_witness :
  ∃ s1 s2,
    addDegree theology_plain calm_env empty_state = (s1, Resolved "uuid-5") ∧
    editDegree "uuid-5" theology_retitled calm_env s1
      = (s2, Rejected DegreeUpdateFailed) ∧
    db s2 = db s1.
Proof.
  destruct (addDegree theology_plain calm_env empty_state) as [s1 r] eqn:Hrun.
  assert (r = Resolved "uuid-5") as ->.
  { apply (f_equal snd) in Hrun. simpl in Hrun. rewrite <- Hrun. vm_compute.
    reflexivity. }
  destruct (addDegree_then_editDegree_fails theology_plain theology_retitled
              calm_env calm_env empty_state s1 "uuid-5" Hrun)
    as (s2 & Hedit & Hdb).
  - apply lookup_empty.
  - intros n Heq. simpl in Heq. discriminate Heq.
  - exists s1, s2. split; [reflexivity |]. split; [exact Hedit | exact Hdb].
Defined.

(** X21.  When [editDegree] succeeds, the stored document keeps its
    [degreeId] and [createdAt], gets [updatedAt], and its whole course list
    is replaced by a fresh assembly of the request: the new courses mirror
    the request's courses one by one, and every course, chapter and lesson
    identifier is newly drawn from the generator (pairwise distinct if the
    generator never repeats), whatever identifiers the stored courses
    had. *)
Theorem editDegree_rebuilds_courses degreeId updatedDegreeData e
    (s s' : State Degree) updatedDegree :
  Inj (=) (=) (uuid_stream e) →
  editDegree degreeId updatedDegreeData e s = (s', Resolved updatedDegree) →
  ∃ stored written,
    db s !! degreeId = Some stored ∧
    db s' = <[degreeId := written]> (db s) ∧
    d_degreeId written = d_degreeId stored ∧
    d_createdAt written = d_createdAt stored ∧
    d_updatedAt written = Some (clock e) ∧
    d_courses written = u_courses updatedDegree ∧
    Forall2 mirrors_course (ds_courses updatedDegreeData) (d_courses written) ∧
    NoDup (flat_map course_ids (d_courses written)) ∧
    Forall (λ id, ∃ k, (next_uuid s ≤ k < next_uuid s')%nat ∧
                       id = uuid_stream e k)
           (flat_map course_ids (d_courses written)).
Proof.
  intros Hinj Hrun.
  pose proof (editDegree_Resolved_no_tests _ _ _ _ _ _ Hrun) as Hplain.
  pose proof Hrun as (s0 & url0 & stored & _ & _ & Hstored & Hdb)%editDegree_Resolved.
  exists stored, (apply_update updatedDegree stored).
  do 4 (split; [done |]).
  unfold editDegree in Hrun. resolved_step.
  apply bind_Resolved in Hrun as (s1 & url & Hthumb & H).
  apply bind_Resolved in H as (s2 & courses & Hcourses & H).
  apply bind_Resolved in H as (s3 & updatedAt & Hnow & H).
  apply bind_Resolved in H as (s4 & u & Hupdate & H).
  apply bind_Resolved in H as (s5 & u' & Hlog & H).
  resolved_step. apply Date_now_Resolved in Hnow as [-> ->].
  simpl. split; [done |]. split; [done |].
  rewrite map_reformatCourse in Hcourses by done.
  apply promise_all_Resolved in Hcourses.
  apply (runs_yields formatCourse course_ids mirrors_course) in Hcourses
    as [(_ & Hle & Hdrawn) Hmirror];
    [| intros x t t' y Hx; apply formatCourse_yields in Hx; tauto].
  apply uploadThumbnail_opt_yields in Hthumb as (_ & Hle1 & _).
  assert (next_uuid s5 = next_uuid s2) as Hnext.
  { unfold updateDoc in Hupdate. injection Hlog as <-.
    repeat case_match; by simplify_eq. }
  split; [done |]. split; [by eapply drawn_NoDup |].
  apply Forall_forall. intros id Hin.
  destruct (drawn_range _ _ _ _ _ Hdrawn Hin) as (k & Hk & ->).
  exists k. split; [| done]. rewrite Hnext. lia.
Qed.

Lemma editDegree_rebuilds_courses_witness :
  ∃ s' updatedDegree stored written,
    editDegree "doc-0" theology_retitled calm_env plain_added
      = (s', Resolved updatedDegree) ∧
    db plain_added !! "doc-0" = Some stored ∧
    db s' = <[ "doc-0" := written ]> (db plain_added) ∧
    d_degreeId written = d_degreeId stored ∧
    d_createdAt written = d_createdAt stored ∧
    Forall2 mirrors_course (ds_courses theology_retitled) (d_courses written) ∧
    NoDup (flat_map course_ids (d_courses written)).
Proof.
  destruct (editDegree "doc-0" theology_retitled calm_env plain_added)
    as [s' r] eqn:Hrun.
  assert (∃ updatedDegree, r = Resolved updatedDegree) as [updatedDegree ->].
  { apply (f_equal snd) in Hrun. simpl in Hrun. rewrite <- Hrun.
    eexists. vm_compute. reflexivity. }
  destruct (editDegree_rebuilds_courses "doc-0" theology_retitled calm_env
              plain_added s' updatedDegree calm_uuid_stream_inj Hrun)
    as (stored & written & H1 & H2 & H3 & H4 & _ & _ & H7 & H8 & _).
  exists s', updatedDegree, stored, written.
  split; [reflexivity |]. split; [exact H1 |]. split; [exact H2 |].
  split; [exact H3 |]. split; [exact H4 |]. split; [exact H7 | exact H8].
Defined.

(** * Further properties of the sub-entity mutator *)

Section MutatorRuns.
Implicit Types (e : Env) (s : State Mutator.Degree).

(** Once the document is found, [editDegree] runs the three blocks on its
    data and writes the result back under the document's reference. *)
Lemma Mutator_editDegree_found degreeId updates e s degreeRef degreeData others :
  getDocs_ok e = true →
  degrees_with_id s degreeId = (degreeRef, degreeData) :: others →
  Mutator.editDegree degreeId updates e s
  = try_catch
      (degreeData ← Mutator.when_present (Mutator.newCourse updates)
                      Mutator.appendCourse degreeData;
       degreeData ← Mutator.when_present (Mutator.newChapter updates)
                      Mutator.appendChapter degreeData;
       degreeData ← Mutator.when_present (Mutator.newLesson updates)
                      Mutator.appendLesson degreeData;
       updateDoc degreeRef (λ _, degreeData);;
       console_log "Degree updated successfully!";;
       mret true)
      (λ error, console_error "Error updating degree:" error;; mret false)
      e s.
Proof.
  intros Hdocs Hquery. unfold Mutator.editDegree, try_catch.
  rewrite run_bind. unfold getDocs_where. rewrite Hdocs.
  unfold degrees_with_id in Hquery. by rewrite Hquery.
Qed.

(** A document the query returns is stored under its reference. *)
Lemma degrees_with_id_lookup s degreeId degreeRef degreeData others :
  degrees_with_id s degreeId = (degreeRef, degreeData) :: others →
  db s !! degreeRef = Some degreeData ∧ Mutator.d_degreeId degreeData = degreeId.
Proof.
  intros Hquery.
  assert ((degreeRef, degreeData) ∈ degrees_with_id s degreeId) as Hin
    by (rewrite Hquery; apply list_elem_of_here).
  unfold degrees_with_id in Hin.
  apply by_document_id_elem_of, list_elem_of_filter in Hin as [Hid Hin].
  simpl in Hid.
  apply bool_decide_eq_true_1 in Hid. by apply elem_of_map_to_list in Hin.
Qed.

(** A normal return of the body of [editDegree] is the return of [true]
    after the write. *)
Lemma Mutator_editDegree_true degreeId updates e s s' :
  Mutator.editDegree degreeId updates e s = (s', Resolved true) →
  ∃ degreeRef degreeData others s1 data1 s2 data2 s3 written,
    degrees_with_id s degreeId = (degreeRef, degreeData) :: others ∧
    Mutator.when_present (Mutator.newCourse updates) Mutator.appendCourse
      degreeData e s = (s1, Resolved data1) ∧
    Mutator.when_present (Mutator.newChapter updates) Mutator.appendChapter
      data1 e s1 = (s2, Resolved data2) ∧
    Mutator.when_present (Mutator.newLesson updates) Mutator.appendLesson
      data2 e s2 = (s3, Resolved written) ∧
    db s' = <[degreeRef := written]> (db s) ∧
    store s' = store s3 ∧ next_uuid s' = next_uuid s3.
Proof.
  unfold Mutator.editDegree, try_catch.
  match goal with
  | |- context [let (_, _) := ?body e s in _] =>
      destruct (body e s) as [s0 [ok|err]] eqn:Hbody
  end; [| rewrite run_bind; simpl; discriminate].
  intros [= <- ->].
  apply bind_Resolved in Hbody as (s1 & docs & Hdocs & H).
  unfold getDocs_where in Hdocs.
  destruct (getDocs_ok e); [| discriminate]. injection Hdocs as <- <-.
  fold (degrees_with_id s degreeId) in H.
  destruct (degrees_with_id s degreeId) as [|[degreeRef degreeData] others]
    eqn:Hquery; [discriminate |].
  simpl in H.
  apply bind_Resolved in H as (s2 & data1 & H1 & H).
  apply bind_Resolved in H as (s3 & data2 & H2 & H).
  apply bind_Resolved in H as (s4 & written & H3 & H).
  apply bind_Resolved in H as (s5 & u & Hupdate & H).
  apply bind_Resolved in H as (s6 & u' & Hlog & H).
  apply mret_Resolved in H as [-> _]. injection Hlog as <-.
  exists degreeRef, degreeData, others, s2, data1, s3, data2, s4, written.
  do 4 (split; [done |]).
  assert (db s4 = db s) as Hdb.
  { pose proof (when_present_same_db (Mutator.newCourse updates)
                  Mutator.appendCourse degreeData appendCourse_same_db e s) as Hd1.
    pose proof (when_present_same_db (Mutator.newChapter updates)
                  Mutator.appendChapter data1 appendChapter_same_db e s2) as Hd2.
    pose proof (when_present_same_db (Mutator.newLesson updates)
                  Mutator.appendLesson data2 appendLesson_same_db e s3) as Hd3.
    rewrite H1 in Hd1. rewrite H2 in Hd2. rewrite H3 in Hd3.
    unfold same_db in *. simpl in *. congruence. }
  unfold updateDoc in Hupdate.
  destruct (db s4 !! degreeRef); [| discriminate].
  destruct (updateDoc_ok e); [| discriminate].
  injection Hupdate as <-. simpl. by rewrite Hdb.
Qed.

End MutatorRuns.

(** X22.  [editDegree] of the sub-entity mutator never throws: it returns
    [true] or [false].  When it returns [false] no document was changed;
    when it returns [true] exactly the first document the query by
    [degreeId] returned was rewritten. *)
Theorem Mutator_editDegree_outcome degreeId updates e (s : State Mutator.Degree) :
  ∃ s' ok,
    Mutator.editDegree degreeId updates e s = (s', Resolved ok) ∧
    if ok
    then ∃ degreeRef degreeData others written,
           degrees_with_id s degreeId = (degreeRef, degreeData) :: others ∧
           db s' = <[degreeRef := written]> (db s)
    else db s' = db s.
Proof.
  destruct (Mutator_editDegree_returns degreeId updates e s) as (s' & ok & Hrun).
  exists s', ok. split; [done |]. destruct ok.
  - apply Mutator_editDegree_true in Hrun
      as (degreeRef & degreeData & others & _ & _ & _ & _ & _ & written
          & Hquery & _ & _ & _ & Hdb & _).
    by exists degreeRef, degreeData, others, written.
  - by eapply Mutator_editDegree_false_same_db.
Qed.

(** X23.  A request that only adds a chapter to an existing course: the
    first course with the given [courseId] gets one more chapter at the end,
    with a fresh identifier, the given title, the given description or '',
    no lessons and no test; every other course and all other fields of the
    degree are written back unchanged. *)
Theorem Mutator_editDegree_newChapter degreeId updates chapter e
    (s : State Mutator.Degree) degreeRef degreeData others courseIndex course :
  getDocs_ok e = true → updateDoc_ok e = true →
  degrees_with_id s degreeId = (degreeRef, degreeData) :: others →
  Mutator.newCourse updates = None →
  Mutator.newChapter updates = Some chapter →
  Mutator.newLesson updates = None →
  list_find (λ course, Mutator.c_courseId course = Mutator.nch_courseId chapter)
    (Mutator.d_courses degreeData) = Some (courseIndex, course) →
  ∃ s' written,
    Mutator.editDegree degreeId updates e s = (s', Resolved true) ∧
    db s' = <[degreeRef := written]> (db s) ∧
    Mutator.with_courses written (Mutator.d_courses degreeData) = degreeData ∧
    length (Mutator.d_courses written) = length (Mutator.d_courses degreeData) ∧
    Mutator.d_courses written !! courseIndex
    = Some (Mutator.with_chapters course
              (Mutator.c_chapters course
               ++ [ {| Mutator.ch_chapterId := uuid_stream e (next_uuid s);
                       Mutator.ch_chapterTitle := Mutator.nch_title chapter;
                       Mutator.ch_description :=
                         default "" (Mutator.nch_description chapter);
                       Mutator.ch_lessons := [];
                       Mutator.ch_test := None |} ])) ∧
    ∀ j, j ≠ courseIndex →
         Mutator.d_courses written !! j = Mutator.d_courses degreeData !! j.
Proof.
  intros Hdocs Hupdate Hquery Hcourse Hchapter Hlesson Hfind.
  destruct (degrees_with_id_lookup _ _ _ _ _ Hquery) as [Hstored _].
  pose proof Hfind as (Hlook & _)%list_find_Some.
  eexists _, _. split; [| split; [| split; [| split; [| split]]]].
  - rewrite (Mutator_editDegree_found _ _ _ _ _ _ _ Hdocs Hquery).
    rewrite Hcourse, Hchapter, Hlesson.
    unfold try_catch, Mutator.when_present, Mutator.appendChapter,
      Mutator.findIndex_course.
    cbv zeta. cbv [mbind Async_bind bind mret Async_ret ret]. rewrite Hfind.
    cbv [uuidv4 updateDoc console_log]. simpl.
    rewrite Hstored, Hupdate. reflexivity.
  - reflexivity.
  - by destruct degreeData.
  - simpl. by rewrite length_alter.
  - simpl. rewrite list_lookup_alter_eq, Hlook. reflexivity.
  - intros j Hne. simpl. by rewrite list_lookup_alter_ne.
Qed.

Lemma Mutator_editDegree_newChapter_witness :
  ∃ s' written,
    Mutator.editDegree "degree-1" chapter_for_course_1 calm_env one_degree
      = (s', Resolved true) ∧
    db s' = <[ "doc-0" := written ]> (db one_degree) ∧
    map (λ course, map Mutator.ch_chapterTitle (Mutator.c_chapters course))
        (Mutator.d_courses written) = [["Basics"; "History"]].
Proof.
  destruct (Mutator_editDegree_newChapter "degree-1" chapter_for_course_1
              history_chapter calm_env one_degree "doc-0" stored_degree [] 0%nat
              stored_course)
    as (s' & written & Hrun & Hdb & _ & Hlen & Hat & _);
    try reflexivity.
  exists s', written. split; [exact Hrun |]. split; [exact Hdb |].
  destruct (Mutator.d_courses written) as [|course [|? ?]]; try discriminate Hlen.
  simpl in Hat. injection Hat as ->. reflexivity.
Defined.

(** X24.  A request that only adds a course and succeeds: the written
    document is the stored one with one more course at the end of its
    course list.  The new course has a fresh identifier, the title,
    description and price of the request and no chapters at all. *)
Theorem Mutator_editDegree_newCourse degreeId updates spec e
    (s s' : State Mutator.Degree) :
  Mutator.editDegree degreeId updates e s = (s', Resolved true) →
  Mutator.newCourse updates = Some spec →
  Mutator.newChapter updates = None →
  Mutator.newLesson updates = None →
  ∃ degreeRef degreeData others course,
    degrees_with_id s degreeId = (degreeRef, degreeData) :: others ∧
    db s' = <[degreeRef := Mutator.push_course degreeData course]> (db s) ∧
    Mutator.c_courseId course = uuid_stream e (next_uuid s) ∧
    Mutator.c_courseTitle course = Mutator.nc_title spec ∧
    Mutator.c_description course = Mutator.nc_description spec ∧
    Mutator.c_price course = Mutator.nc_price spec ∧
    Mutator.c_chapters course = [].
Proof.
  intros Hrun Hcourse Hchapter Hlesson.
  apply Mutator_editDegree_true in Hrun
    as (degreeRef & degreeData & others & s1 & data1 & s2 & data2 & s3 & written
        & Hquery & H1 & H2 & H3 & Hdb & _).
  rewrite Hcourse in H1. rewrite Hchapter in H2. rewrite Hlesson in H3.
  simpl in H1, H2, H3.
  apply mret_Resolved in H2 as [-> ->]. apply mret_Resolved in H3 as [-> ->].
  unfold Mutator.appendCourse in H1.
  apply bind_Resolved in H1 as (s4 & courseId & Hid & H1).
  apply bind_Resolved in H1 as (s5 & thumbnail & _ & H1).
  apply bind_Resolved in H1 as (s6 & finalTest & _ & H1).
  apply mret_Resolved in H1 as [_ ->].
  apply uuidv4_Resolved in Hid as (-> & _).
  eexists degreeRef, degreeData, others, _. split; [done |]. split; [exact Hdb |].
  done.
Qed.

Lemma Mutator_editDegree_newCourse_witness :
  ∃ s' degreeRef degreeData others course,
    Mutator.editDegree "degree-1" course_ethics calm_env one_degree
      = (s', Resolved true) ∧
    degrees_with_id one_degree "degree-1" = (degreeRef, degreeData) :: others ∧
    db s' = <[degreeRef := Mutator.push_course degreeData course]> (db one_degree) ∧
    Mutator.c_courseId course = "uuid-0" ∧
    Mutator.c_courseTitle course = "Ethics" ∧
    Mutator.c_chapters course = [].
Proof.
  destruct (Mutator.editDegree "degree-1" course_ethics calm_env one_degree)
    as [s' r] eqn:Hrun.
  assert (r = Resolved true) as ->.
  { apply (f_equal snd) in Hrun. simpl in Hrun. rewrite <- Hrun. vm_compute.
    reflexivity. }
  destruct (Mutator_editDegree_newCourse "degree-1" course_ethics ethics_course
              calm_env one_degree s' Hrun eq_refl eq_refl eq_refl)
    as (degreeRef & degreeData & others & course
        & Hquery & Hdb & Hid & Htitle & _ & _ & Hchapters).
  exists s', degreeRef, degreeData, others, course.
  split; [reflexivity |]. split; [exact Hquery |]. split; [exact Hdb |].
  split; [exact Hid |]. split; [exact Htitle | exact Hchapters].
Defined.

(** X25.  A request without any member still writes: when the document is
    found and the database accepts the write, [editDegree] returns [true]
    and the collection is the same as before. *)
Theorem Mutator_editDegree_no_updates degreeId updates e
    (s : State Mutator.Degree) degreeRef degreeData others :
  getDocs_ok e = true → updateDoc_ok e = true →
  degrees_with_id s degreeId = (degreeRef, degreeData) :: others →
  Mutator.newCourse updates = None →
  Mutator.newChapter updates = None →
  Mutator.newLesson updates = None →
  ∃ s', Mutator.editDegree degreeId updates e s = (s', Resolved true) ∧
        db s' = db s ∧ store s' = store s ∧
        console s' = console s ++ [ConsoleLog "Degree updated successfully!"].
Proof.
  intros Hdocs Hupdate Hquery Hcourse Hchapter Hlesson.
  destruct (degrees_with_id_lookup _ _ _ _ _ Hquery) as [Hstored _].
  eexists. split.
  - rewrite (Mutator_editDegree_found _ _ _ _ _ _ _ Hdocs Hquery).
    rewrite Hcourse, Hchapter, Hlesson.
    unfold try_catch, Mutator.when_present.
    cbv [mbind Async_bind bind mret Async_ret ret updateDoc console_log]. simpl.
    rewrite Hstored, Hupdate. reflexivity.
  - simpl. split; [| done]. by apply insert_id.
Qed.

Lemma Mutator_editDegree_no_updates_witness :
  ∃ s', Mutator.editDegree "degree-1" no_updates calm_env one_degree
          = (s', Resolved true) ∧
        db s' = db one_degree ∧ store s' = [] ∧
        console s' = [ConsoleLog "Degree updated successfully!"].
Proof.
  apply (Mutator_editDegree_no_updates "degree-1" no_updates calm_env one_degree
           "doc-0" stored_degree []); reflexivity.
Defined.

Section MutatorUpload.
Implicit Types (e : Env) (s : State Mutator.Degree).

(** A normal return of the mutator's [uploadFile]. *)
Lemma Mutator_uploadFile_Resolved file e s s' asset :
  Mutator.uploadFile file e s = (s', Resolved asset) →
  s' = stored s (Mutator_upload_path e s file) file ∧
  Mutator.fa_name asset = file_name file ∧
  Mutator.fa_type asset = split_slash_0 (file_type file) ∧
  Mutator.fa_link asset = Mutator.fa_url asset ∧
  Mutator.fa_autoUpdate asset = true.
Proof.
  unfold Mutator.uploadFile, try_catch, Mutator_upload_path.
  destruct (prop_truthy _); simpl; [| discriminate].
  cbv [mbind Async_bind bind mret Async_ret ret throw template_text uuidv4
       uploadBytes getDownloadURL getMediaDuration]; simpl.
  fold (folder_text e (js_get Mutator.supportedFolders
                         (split_slash_0 (file_type file)))).
  destruct (uploadBytes_ok e _ file); simpl; [| discriminate].
  destruct (downloadURL e _); simpl; [| discriminate].
  destruct (_ || _); [destruct (media_event e _ file) |];
    by intros [= <- <-].
Qed.

End MutatorUpload.

(** X26.  A request that only adds a lesson and succeeds: the lesson's
    file was stored in the object store, and the written document is the
    stored one with one more lesson at the end of the lessons of the first
    chapter with the given [chapterId] in the first course with the given
    [courseId]; the lesson carries the request's title and the uploaded
    file's asset. *)
Theorem Mutator_editDegree_newLesson degreeId updates lesson e
    (s s' : State Mutator.Degree) :
  Mutator.editDegree degreeId updates e s = (s', Resolved true) →
  Mutator.newCourse updates = None →
  Mutator.newChapter updates = None →
  Mutator.newLesson updates = Some lesson →
  ∃ degreeRef degreeData others courseIndex course chapterIndex chapter added,
    degrees_with_id s degreeId = (degreeRef, degreeData) :: others ∧
    list_find (λ course, Mutator.c_courseId course = Mutator.nl_courseId lesson)
      (Mutator.d_courses degreeData) = Some (courseIndex, course) ∧
    list_find (λ chapter, Mutator.ch_chapterId chapter = Mutator.nl_chapterId lesson)
      (Mutator.c_chapters course) = Some (chapterIndex, chapter) ∧
    db s' = <[degreeRef := Mutator.push_lesson degreeData courseIndex
                             chapterIndex added]> (db s) ∧
    Mutator.l_lessonTitle added = Mutator.nl_title lesson ∧
    Mutator.fa_name (Mutator.l_file added) = file_name (Mutator.nl_file lesson) ∧
    store s' = store s ++ [(Mutator_upload_path e s (Mutator.nl_file lesson),
                            Mutator.nl_file lesson)].
Proof.
  intros Hrun Hcourse Hchapter Hlesson.
  apply Mutator_editDegree_true in Hrun
    as (degreeRef & degreeData & others & s1 & data1 & s2 & data2 & s3 & written
        & Hquery & H1 & H2 & H3 & Hdb & Hstore & _).
  rewrite Hcourse in H1. rewrite Hchapter in H2. rewrite Hlesson in H3.
  simpl in H1, H2, H3.
  apply mret_Resolved in H1 as [-> ->]. apply mret_Resolved in H2 as [-> ->].
  unfold Mutator.appendLesson, Mutator.findIndex_course, Mutator.findIndex_chapter
    in H3. cbv zeta in H3.
  destruct (list_find _ (Mutator.d_courses degreeData))
    as [[courseIndex course]|] eqn:Hfind; [| discriminate].
  pose proof Hfind as (Hlook & _)%list_find_Some.
  simpl in H3. rewrite Hlook in H3. simpl in H3.
  destruct (list_find _ (Mutator.c_chapters course))
    as [[chapterIndex chapter]|] eqn:Hfind'; [| discriminate].
  simpl in H3.
  apply bind_Resolved in H3 as (s4 & asset & Hupload & H3).
  apply bind_Resolved in H3 as (s5 & lessonId & Hid & H3).
  apply mret_Resolved in H3 as [-> ->].
  apply Mutator_uploadFile_Resolved in Hupload as (-> & Hname & _).
  injection Hid as <- _.
  eexists degreeRef, degreeData, others, courseIndex, course, chapterIndex,
    chapter, _.
  split; [done |]. split; [done |]. split; [done |]. split; [exact Hdb |].
  split; [done |]. split; [exact Hname |]. by rewrite Hstore.
Qed.

Lemma Mutator_editDegree_newLesson_witness :
  ∃ s' written,
    Mutator.editDegree "degree-1" (lesson_for "course-1" "chapter-1")
      calm_env one_degree = (s', Resolved true) ∧
    db s' !! "doc-0" = Some written ∧
    map fst (store s') = ["images/uuid-0_cover.png"] ∧
    map (λ course,
           map (λ chapter, map Mutator.l_lessonTitle (Mutator.ch_lessons chapter))
             (Mutator.c_chapters course))
        (Mutator.d_courses written) = [[["Welcome"]]].
Proof.
  destruct (Mutator.editDegree "degree-1" (lesson_for "course-1" "chapter-1")
              calm_env one_degree) as [s' r] eqn:Hrun.
  assert (r = Resolved true) as ->.
  { apply (f_equal snd) in Hrun. simpl in Hrun. rewrite <- Hrun. vm_compute.
    reflexivity. }
  destruct (Mutator_editDegree_newLesson "degree-1"
              (lesson_for "course-1" "chapter-1")
              (welcome_lesson "course-1" "chapter-1") calm_env one_degree s'
              Hrun eq_refl eq_refl eq_refl)
    as (degreeRef & degreeData & others & courseIndex & course & chapterIndex
        & chapter & added & Hquery & Hfind & Hfind' & Hdb & Htitle & _ & Hstore).
  vm_compute in Hquery. injection Hquery as <- <- <-.
  vm_compute in Hfind. injection Hfind as <- <-.
  vm_compute in Hfind'. injection Hfind' as <- <-.
  eexists s', _. split; [reflexivity |]. split; [| split].
  - rewrite Hdb. apply lookup_insert_eq.
  - rewrite Hstore. reflexivity.
  - simpl. simpl in Htitle. rewrite Htitle. reflexivity.
Defined.

(** * Further properties of deleting and listing degrees *)

Section DeleteFacts.
Implicit Types (e : Env) (s : State Mutator.Degree).

(** The run of [deleteDegreeById], case by case. *)
Lemma deleteDegreeById_run deleteDoc_ok degreeId e s :
  Mutator.deleteDegreeById deleteDoc_ok degreeId e s
  = if getDocs_ok e
    then match degrees_with_id s degreeId with
         | [] =>
             (logged s (ConsoleError "Error deleting degree:"
                          (DegreeNotFound degreeId)),
              Resolved {| Mutator.success := false;
                          Mutator.message := "Error deleting degree" |})
         | degreeDoc :: _ =>
             if deleteDoc_ok
             then (mkState (next_uuid s) (next_auto_id s) (store s)
                     (delete degreeDoc.1 (db s))
                     (console s
                      ++ [ConsoleLog ("Degree with ID " +:+ degreeId
                                      +:+ " deleted successfully!")]),
                   Resolved {| Mutator.success := true;
                               Mutator.message := "Degree deleted successfully" |})
             else (logged s (ConsoleError "Error deleting degree:" FirestoreError),
                   Resolved {| Mutator.success := false;
                               Mutator.message := "Error deleting degree" |})
         end
    else (logged s (ConsoleError "Error deleting degree:" FirestoreError),
          Resolved {| Mutator.success := false;
                      Mutator.message := "Error deleting degree" |}).
Proof.
  unfold Mutator.deleteDegreeById, try_catch, degrees_with_id.
  rewrite run_bind. unfold getDocs_where.
  destruct (getDocs_ok e); [| done].
  destruct (by_document_id _) as [|degreeDoc others]; [done |].
  by destruct deleteDoc_ok.
Qed.

(** The run of the mutator's [getDegreeById], case by case. *)
Lemma Mutator_getDegreeById_run degreeId e s :
  Mutator.getDegreeById degreeId e s
  = if getDocs_ok e
    then match degrees_with_id s degreeId with
         | [] => (logged s (ConsoleError "Error fetching degree by ID:"
                              (DegreeNotFound degreeId)),
                  Resolved None)
         | degreeDoc :: _ => (s, Resolved (Some degreeDoc.2))
         end
    else (logged s (ConsoleError "Error fetching degree by ID:" FirestoreError),
          Resolved None).
Proof.
  unfold Mutator.getDegreeById, try_catch, degrees_with_id.
  rewrite run_bind. unfold getDocs_where.
  destruct (getDocs_ok e); [| done].
  by destruct (by_document_id _).
Qed.

(** A list without elements is empty. *)
Lemma filter_none {A} (P : A → Prop) `{!∀ x, Decision (P x)} (l : list A) :
  (∀ x, x ∈ l → ¬ P x) → filter P l = [].
Proof.
  intros Hnone. apply elem_of_nil_inv. intros x [HP Hin]%list_elem_of_filter.
  by eapply Hnone.
Qed.

End DeleteFacts.

(** X27.  [deleteDegreeById] never throws; it reports success or failure.
    On success exactly the first document the query by [degreeId] returned
    is gone and every other document, also another one with the same
    [degreeId], is still there; on failure (no such degree, or a failed
    request) the collection is unchanged. *)
Theorem deleteDegreeById_outcome deleteDoc_ok degreeId e (s : State Mutator.Degree) :
  ∃ s' report,
    Mutator.deleteDegreeById deleteDoc_ok degreeId e s = (s', Resolved report) ∧
    store s' = store s ∧
    if Mutator.success report
    then ∃ degreeRef degreeData others,
           degrees_with_id s degreeId = (degreeRef, degreeData) :: others ∧
           db s' !! degreeRef = None ∧
           ∀ ref, ref ≠ degreeRef → db s' !! ref = db s !! ref
    else db s' = db s.
Proof.
  rewrite deleteDegreeById_run.
  destruct (getDocs_ok e); [| by eexists _, _].
  destruct (degrees_with_id s degreeId) as [|[degreeRef degreeData] others]
    eqn:Hquery; [by eexists _, _ |].
  destruct deleteDoc_ok; [| by eexists _, _].
  eexists _, _. split; [done |]. split; [done |]. simpl.
  exists degreeRef, degreeData, others. split; [done |].
  split; [apply lookup_delete_eq |].
  intros ref Hne. by apply lookup_delete_ne.
Qed.

(** Two documents with the same [degreeId]: the query lists them by
    document id, and [deleteDegreeById] removes the first of them only. *)
Lemma deleteDegreeById_two_copies :
  map fst (degrees_with_id two_copies "degree-1") = ["doc-0"; "doc-1"] ∧
  ∃ s' report,
    Mutator.deleteDegreeById true "degree-1" calm_env two_copies
      = (s', Resolved report) ∧
    db s' !! "doc-0" = None ∧ db s' !! "doc-1" = Some stored_degree.
Proof.
  split; [vm_compute; reflexivity |].
  eexists _, _. split; [vm_compute; reflexivity |].
  split; vm_compute; reflexivity.
Qed.

(** X28.  After [deleteDegreeById] succeeded for a [degreeId] that only one
    document carried, [getDegreeById] of that id returns null: the degree
    is gone for its readers. *)
Theorem deleteDegreeById_then_getDegreeById deleteDoc_ok degreeId e e'
    (s s' : State Mutator.Degree) report degreeDoc :
  Mutator.deleteDegreeById deleteDoc_ok degreeId e s = (s', Resolved report) →
  Mutator.success report = true →
  degrees_with_id s degreeId = [degreeDoc] →
  ∃ s'', Mutator.getDegreeById degreeId e' s' = (s'', Resolved None).
Proof.
  intros Hrun Hsuccess Hquery.
  rewrite deleteDegreeById_run, Hquery in Hrun.
  destruct (getDocs_ok e); [| by injection Hrun as <- <-].
  destruct deleteDoc_ok; [| by injection Hrun as <- <-].
  injection Hrun as <- _.
  rewrite Mutator_getDegreeById_run.
  destruct (getDocs_ok e'); [| eauto].
  assert (degrees_with_id
            (mkState (next_uuid s) (next_auto_id s) (store s)
               (delete degreeDoc.1 (db s))
               (console s ++ [ConsoleLog ("Degree with ID " +:+ degreeId
                                          +:+ " deleted successfully!")]))
            degreeId = []) as ->; [| eauto].
  unfold degrees_with_id. simpl. apply by_document_id_nil, filter_none.
  intros [ref degree] Hin Hmatch.
  apply elem_of_map_to_list in Hin.
  apply lookup_delete_Some in Hin as [Hne Hstored].
  assert ((ref, degree) ∈ degrees_with_id s degreeId) as Hfound.
  { unfold degrees_with_id. apply by_document_id_elem_of, list_elem_of_filter.
    split; [done |]. by apply elem_of_map_to_list. }
  rewrite Hquery in Hfound. apply list_elem_of_singleton in Hfound.
  by subst degreeDoc.
Qed.

Lemma deleteDegreeById_then_getDegreeById_witness :
  ∃ s' s'',
    Mutator.deleteDegreeById true "degree-1" calm_env one_degree
      = (s', Resolved {| Mutator.success := true;
                         Mutator.message := "Degree deleted successfully" |}) ∧
    Mutator.getDegreeById "degree-1" calm_env s' = (s'', Resolved None).
Proof.
  destruct (Mutator.deleteDegreeById true "degree-1" calm_env one_degree)
    as [s' r] eqn:Hrun.
  assert (r = Resolved {| Mutator.success := true;
                          Mutator.message := "Degree deleted successfully" |}) as ->.
  { apply (f_equal snd) in Hrun. simpl in Hrun. rewrite <- Hrun. vm_compute.
    reflexivity. }
  destruct (deleteDegreeById_then_getDegreeById true "degree-1" calm_env calm_env
              one_degree s' _ ("doc-0", stored_degree) Hrun eq_refl eq_refl)
    as (s'' & Hget).
  exists s', s''. split; [reflexivity | exact Hget].
Defined.

(** X29.  [getAllDegrees] of the mutator module never throws and changes
    nothing but the console.  When the query succeeds it returns every
    stored document exactly once, paired with its document id; when the
    query fails it returns the empty list, as for an empty catalogue. *)
Theorem Mutator_getAllDegrees_outcome e (s : State Mutator.Degree) :
  ∃ s' degrees,
    Mutator.getAllDegrees e s = (s', Resolved degrees) ∧
    db s' = db s ∧ store s' = store s ∧
    if getDocs_ok e
    then NoDup degrees ∧ length degrees = size (db s) ∧
         ∀ ref degree, (ref, degree) ∈ degrees ↔ db s !! ref = Some degree
    else degrees = [].
Proof.
  unfold Mutator.getAllDegrees, try_catch. rewrite run_bind. unfold getDocs_where.
  destruct (getDocs_ok e); [| by eexists _, _].
  rewrite run_bind. simpl.
  assert (filter (λ kd : string * Mutator.Degree, true = true)
                 (map_to_list (db s))
          = map_to_list (db s)) as ->.
  { induction (map_to_list (db s)) as [|[ref degree] l IH]; [done |].
    rewrite filter_cons_True by done. by rewrite IH. }
  assert (∀ docs : list (string * Mutator.Degree),
            map (λ doc, (doc.1, doc.2)) docs = docs) as ->.
  { intros docs. induction docs as [|[ref degree] l IH]; [done |].
    simpl. by rewrite IH. }
  eexists _, _. split; [done |]. split; [done |]. split; [done |].
  split; [apply by_document_id_NoDup, NoDup_map_to_list |].
  split; [rewrite by_document_id_length; apply length_map_to_list |].
  intros ref degree. rewrite by_document_id_elem_of. apply elem_of_map_to_list.
Qed.
